(* ===== verification/_CoqProject ===== *)
-Q . S2P
Prelude.v
Numeric.v
Binary64.v
Text.v
Levels.v
Geometry.v
Overflow.v
Escape.v
Sampler.v
Colour.v
Render.v
Order.v
Machine.v
