(* ===== verification/Prelude.v ===== *)
(** * A verification development for the Mandelbrot renderer [src/Fractals.py]

    ** The program

    [src/Fractals.py] is one Python class, [Fractal], whose method
    [mandelbrot] renders a raster image of the Mandelbrot set.  It has no
    sub-services, but its one big method is made of clearly separated
    stages, each of which is a component here:

    - argument validation (the two guards that raise [OddResolutionError]
      and [TopError] before any pixel work),
    - the brightness table [DIVERGENCE_LEVELS] and the bucket search
      [min]/[index] that turns a survived-iteration count into a level,
    - the coordinate mapper [pixels_to_coordinates],
    - the escape test [coordinates_good] and the quadratic step
      [next_mandelbrot], iterated by the bounded [for d_i] loop,
    - the sub-pixel sampler (the [for magnification] loop that fills the
      [tally] dictionary and the [divergence_multipliers] list),
    - the colour aggregator (the [np.append]/[np.average] block),
    - the render loop over [(pixel_y, pixel_x)] with its progress messages,
    - the progress narration (the text of [P_STRING], printed and, with
      [speak], handed to the speech engine),
    - image writing ([write_image] and the file name built at lines
      216-220),
    - the class set-up (the class body, which creates the output
      directory when the module is imported, and [__init__]).

    The stages interact through the attributes [mandelbrot] stores on
    [self] and through the local variables of its loops; the narration
    and the image writing are the only calls that leave the program, and
    they happen in the order the loops reach them.

    ** The files

    - [Prelude] (this file): Python's exceptions as values ([exn],
      [result], with stdpp's monad notation), Python's [range], [min] and
      [list.index], the development's tactics and hint databases, and the
      list lemmas the components share (first index in a non-decreasing
      list).
    - [Numeric]: the arithmetic the source uses on numbers, as the
      operations class [Number], with two instances.  [binary64] is the
      kernel's primitive IEEE-754 double, which is what a Python [float]
      is: every definition of the development evaluated at this instance
      runs the arithmetic the program runs, and the witnesses evaluate it
      by [vm_compute].  [exact] is the field of real numbers: the
      program's arithmetic without rounding, where the geometric facts
      (affine map, radius-2 disc, symmetry) are theorems.  The file also
      holds Python's [complex] over a [Number], Python's raising
      division, and the interface [DivisionLaws]: what the control flow
      asks of an arithmetic for a render to return (a non-zero integer
      and its half do not compare equal to zero).  An argument that
      Python accepts as an [int] or as a [float] ([center], [top]) is a
      [number], which [to_float] converts where the arithmetic reads it.
    - [Binary64]: the conversion [float(z)] followed through the
      kernel's specification of IEEE-754 rounding ([binary_normalize]:
      alignment to 53 bits, shift, rounding to nearest even, second
      shift after a carry).  It proves the instance of [DivisionLaws] for
      doubles, so that the theorems proved against the interface hold in
      the arithmetic the program runs in, not only in [exact].
    - [Text]: the strings of the program: Python's [str] of an [int] and
      of a [float] (the shortest decimal that reads back as the same
      double, computed in integer arithmetic), the progress message
      [P_STRING], [os.path.join] on POSIX, the file name [IMAGE_F] and
      [IMAGE_PATH].
    - [Levels]: [DIVERGENCE_LEVELS] (line 72) and the bucket search of
      lines 151-152, with the reference definition "first index whose
      threshold is at least the count" and its closed form.
    - [Geometry]: the attributes [mandelbrot] stores on [self]
      (lines 70-83) as the record [Fractal], [pixels_to_coordinates] and
      [coordinates_good].
    - [Overflow]: the power of a float as Python computes it
      ([real**2] of line 268 raises [OverflowError] when the square of a
      finite number is not finite), [coordinates_good] with that
      exception on doubles, and the range of coordinates on which the
      model of the pipeline, which takes the product, is the code.
    - [Escape]: [next_mandelbrot] and the [for d_i] loop (lines 133-156).
    - [Sampler]: the body of the [for magnification] loop (lines 112-164)
      as a state-passing step on [(tally, divergence_multipliers)].
    - [Colour]: the aggregation of lines 176-189, with NumPy's mean as a
      left-to-right sum divided by the count and the cast to [uint8].
    - [Render]: [mandelbrot] itself: the guards of lines 49-60, the
      set-up, the two nested pixel loops of lines 108-213 as folds over
      the record [render_state] (image array, pixel counter, last
      percentage, messages printed), and the specification [render_spec]
      the loops are proved against.
    - [Order]: one iteration of the loops without its progress report
      ([paint]), the list of pixels the code visits ([scan_order]), and
      the iterations run over an arbitrary list of pixels ([fill]).  The
      source has no loop over a given list: [fill] states the
      independence of the pixels that the repository's description of
      parallel rendering relies on.
    - [Machine]: a call of [mandelbrot] as a transition system.  A
      configuration is the status of the call ([Called], [At] a program
      point with the variables of the loops, [Returned], [Raised]) and
      the list of the calls that have left the program so far ([event]:
      [Print], [Say], [RunAndWait], [Save], [MakeDirs], [TtsInit]).  The
      relation [step] has one rule per edge of the control flow of lines
      41-222, [next] computes it and [run] iterates it.  The file also
      holds the class body ([class_body], against the set of directories
      that exist), [__init__] and [write_image].

    Each file requires the ones before it; a client file uses the lemmas
    of the files it requires, never their claims.

    ** How the model corresponds to the code

    - A Python [int] is a [Z]; [//] and [%] are [Z.div] and [Z.modulo],
      which round the way Python's do (floor, sign of the divisor).
    - A Python [float] is an element of a type [F] with a [Number F]
      instance.  Mixed [int]/[float] arithmetic converts the integer with
      [of_int], as Python does.  [x**2] on a float is the correctly
      rounded product [x * x] (Python calls the platform's [pow], which
      is exact to the last bit on squares with the usual C libraries);
      its [OverflowError] is the subject of [Overflow].  An
      [int / int] true division is the quotient of the converted operands
      (the same double as Python's correctly rounded quotient while both
      are below 2^53 in magnitude).
    - A Python [complex] is a pair; [z**2] is the product [z * z] with
      Python's formula for the product.
    - An exception is a value [Raise e] of [result]; a definition returns
      [result] exactly when the code it models can raise.
    - The attributes of [self] are the fields of the record [Fractal];
      the dictionary [tally], which only ever has its two literal keys, is
      the record [tally]; the user's dictionary [colors] is a
      [gmap string _], so that a missing key is a [KeyError].
    - [for x in range(n)] is a structural recursion on a list or a
      counter of length [n]: every loop of the program is bounded, so
      the functional model needs no fuel and is total.  In [Machine] the
      same loops are transitions between program points, and their
      termination is a theorem.
    - A Python [str] is a [string] of bytes, the UTF-8 encoding of the
      text: the two non-ASCII characters of the file name are five bytes.
    - A call that leaves the program ([print], [self.tts.say],
      [self.tts.runAndWait], [image.save], [os.makedirs],
      [pyttsx3.init]) is an [event] appended to the output of the
      configuration; the file system is the set of directories that
      exist, which [MakeDirs] extends.  These calls are assumed to
      return.
    - The array [image_array] is the list of its rows, each a list of
      cells of three bytes; [image_array[pixel_y, pixel_x] = color] is
      stdpp's [alter] and insert at those indices, which the loops only
      use inside the array.  The store of a float into a [uint8] cell is
      truncation toward zero modulo 256.
    - NumPy's [np.average] is the left-to-right sum divided by the count
      (NumPy may sum pairwise, which is the same number in exact
      arithmetic and for the short arrays evaluated on doubles here).
    - In [Render] the calls to [print] are the list [printed] of the
      percentages announced, oldest first; [Machine] turns each of them
      into the text printed and spoken.

    ** What the theorems show

    Theorems that only depend on the structure of the code are proved for
    every [Number] instance, hence for the doubles the program runs on.
    Theorems about geometry or exact values are proved at [exact] and say
    so in their statement; concrete runs at [binary64] accompany them.

    - [Binary64]: the double of a non-zero integer, however large, is a
      normal number of magnitude at least one or an infinity, with the
      sign of the integer; it is a valid double, it does not compare
      equal to zero and neither does its half; an integer below [2^53]
      in magnitude converts exactly, and [int] gives it back.
    - [Levels]: the table has 255 non-decreasing entries; inside the loop
      the search never raises, is the first-match search, is monotone and
      equals [max(0, 255 - D // (d_i + 1))].
    - [Geometry]: the mapper is affine, sends the centre pixel to the
      conjugate of the centre and the top edge to [-TOP]; it raises
      exactly for a zero height; [coordinates_good] is the closed disc of
      radius 2.
    - [Overflow]: on doubles, the square of a number below [2^511] in
      magnitude is finite and the square of a finite number from [2^512]
      on is an infinity (both by following the kernel's specification of
      the rounded product); hence for coordinates below [2^511] the test
      of line 268 returns what the model computes, and for a finite real
      coordinate from [2^512] on it raises [OverflowError].  The theorems
      of the other files that a render returns are theorems about the
      program for views whose coordinates stay below [2^511].
    - [Escape]: the loop breaks at the first orbit point outside the disc
      and exhausts its range exactly when there is none; the answer does
      not depend on a larger budget, is symmetric under conjugation, and
      the iterates it computes stay within modulus 6.
    - [Sampler]: the loop of a pixel counts every sub-pixel once, keeps
      one multiplier below 255 per diverging sub-pixel, and raises nothing
      but the [ZeroDivisionError] of its divisions.
    - [Colour]: the colour is the weighted mean of the two colours, stays
      within a byte for byte colours, and raises [KeyError] exactly for a
      missing key that is needed.
    - [Render]: the two guards raise exactly on odd dimensions and on a
      top edge not above the centre; the loops compute [render_spec], the
      row-major map of [pixel_value], so the image has the requested shape
      and each cell depends on its pixel only; in every arithmetic with
      [DivisionLaws] [mandelbrot] returns on all valid arguments; when a
      pixel raises, the loops raise the exception of the first such
      pixel, row by row, so the outcome of [mandelbrot] is the outcome of
      [render_spec], exceptions included; for all arguments [mandelbrot]
      never raises [ZeroDivisionError], raises [ValueError] exactly for
      a colour that has not three components or a negative dimension
      behind the guards, and raises [KeyError] only for a missing ["m"]
      or ["d"], inside the loops; in
      exact arithmetic a pixel sampled once is the set colour, black, or
      the divergence colour scaled by its level; the messages announce
      strictly increasing multiples of 10 from 0, and the last of them is
      [100 + (100 // n) // 10 * 10] for [n] pixels, which exceeds 100 for
      small images.
    - [Text]: for one view the file name determines the size of the
      image; the file name is a relative path, so [IMAGE_PATH] lies
      below [IMAGE_DIR]; [float_repr] is evaluated on the doubles the
      examples print.
    - [Order]: every list that visits exactly the pixels of the image,
      in any order and with repetitions, builds the array the two loops
      build.
    - [Machine]: [next] computes [step], which is deterministic; every
      run ends ([step] is well founded and [fuel_of] transitions reach a
      configuration that has returned or raised); the run refines the
      function [mandelbrot] of [Render] (same exception, or the messages
      of the percentages printed followed by the saving of the same
      image); on valid arguments every reachable configuration goes on to
      save the image; an image is saved only by a call that returns; the
      texts printed are the messages of a strictly increasing list of
      multiples of ten, and the texts spoken are the texts printed; a run
      without speech is the run with speech less the calls to the speech
      engine; the counter [i] counts the pixels done; in a session the
      image is saved below a directory that exists.

    ** Bounds

    The functional model takes no fuel.  [Machine.run] takes the number
    of transitions to make; [fuel_of] gives, for each status, a number
    that is enough: from the call, three transitions (entry, the end of
    the outer loop, the writing of the image) plus [width + 2] for each
    row (its head, its pixels, its end), and the measure decreases at
    every transition, which is the proof of termination.  Inside
    [float_repr], the search for the decimal exponent corrects an
    estimate that is off by at most one (fuel 4) and the search for the
    shortest digit string tries 1 to 17 significant digits, the last of
    which always reads back (fuel 17).  The theorems on doubles that
    quantify over a range (bytes 0 to 255) are proved by evaluation over
    the whole range; the evaluations of whole renders use images of at
    most 4 x 4 pixels and a budget of 10, which is enough to exercise
    every branch of the pipeline (set member, escape inside the loop,
    fast path outside the disc) and keeps each file compiling in
    seconds.

    ** What is not modelled

    - The PNG encoding of PIL and what the speech engine does with a
      text: libraries the source only calls; the model records the calls
      and their arguments.
    - Exceptions of the calls that leave the program (a full disk, a
      missing speech driver): the calls are assumed to return.
    - [os.path.realpath] and [os.path.dirname] of the class body: the
      directory of the module is a parameter of [class_body].
    - The default values of the arguments other than [center]: the
      caller of the model passes every argument.
    - The [OverflowError] of [real**2] inside the pipeline: there
      [x**2] is the IEEE product.  [Overflow] models the exception and
      proves where the two agree (coordinates below [2^511]) and where
      Python raises (from [2^512]); the pipeline with the exception
      threaded through its loops is not modelled.  Likewise the complex
      power [z**2] of line 244 is the product [z * z]: CPython computes
      it by its integer-power routine and raises [OverflowError] when a
      component overflows, which the finite values the loop reaches
      below [2^511] do not.
    - The [OverflowError] of [float(z)] from [2^1024] on (the model
      converts to an infinity; [int(w/2)] of line 82 raises from
      [2^1025]) and the exceptions of [int] on a NaN or an infinity (the
      model returns 0): they need an image of more than [2^1024] pixels.
      The [MemoryError] of [np.zeros] for an image that does not fit in
      memory.
    - Python divides two [int]s exactly and rounds once, and tests an
      [int] divisor for zero exactly; the model converts both operands
      first, which is the same double while both are below [2^53]
      (where the conversion is exact), and on doubles the test of the
      converted divisor is the test of the integer
      ([py_truediv_of_int_binary64]).  Python compares an [int] with a
      [float] exactly at line 59; the model converts the [int] first,
      which is the same comparison below [2^53].
    - The cast of a float outside [[0, 256)] or a NaN to [uint8], which
      NumPy leaves to the platform: the model truncates toward zero
      modulo 256 and returns 0 for a NaN.
    - A regular file at the path of [IMAGE_DIR]: [os.path.exists] is
      modelled on the set of directories that exist.
    - [float_repr] is validated by evaluation (against the texts Python
      prints); it has no theorem that its result reads back as the same
      double.
    - The loop of lines 75-76 updates the caller's dictionary in place;
      the model returns the reshaped dictionary as a new value, which
      [mandelbrot] alone cannot tell apart.
    - Lines 271-272, the module run as a script, do nothing. *)

From Stdlib Require Import ZArith Lia Sorted.
From stdpp Require Import base list numbers strings.

#[local] Open Scope Z_scope.

(** * Exceptions as values *)

(** The exceptions the program can raise: its own two classes (lines 8-12)
    and the built-in ones raised by [min], [list.index], [reshape], a
    dictionary lookup, a division and a power of a float. *)
Inductive exn : Type :=
| OddResolutionError
| TopError
| ValueError
| KeyError (key : string)
| ZeroDivisionError
| OverflowError.

#[export] Instance exn_eq_dec : EqDecision exn.
Proof. solve_decision. Defined.

(** The outcome of a piece of code that may raise. *)
Inductive result (A : Type) : Type :=
| Ok (a : A)
| Raise (e : exn).

Arguments Ok {A} a.
Arguments Raise {A} e.

#[export] Instance result_ret : MRet result := @Ok.

#[export] Instance result_bind : MBind result :=
  λ A B f m, match m with Ok a => f a | Raise e => Raise e end.

#[export] Instance result_fmap : FMap result :=
  λ A B f m, match m with Ok a => Ok (f a) | Raise e => Raise e end.

#[export] Instance result_eq_dec `{EqDecision A} : EqDecision (result A).
Proof. solve_decision. Defined.

(** [is_Ok r]: the code returned normally. *)
Definition is_Ok {A} (r : result A) : Prop := ∃ a, r = Ok a.

#[export] Instance is_Ok_dec {A} (r : result A) : Decision (is_Ok r).
Proof.
  destruct r as [a|e]; [left; by exists a | right; by intros [a ?]].
Defined.

(** Monadic left fold: the body of a [for] loop that threads a state and
    may raise, run over the list of the loop variable's values. *)
Fixpoint foldlM {A B} (f : A → B → result A) (a : A) (l : list B) : result A :=
  match l with
  | [] => Ok a
  | b :: l' => a' ← f a b; foldlM f a' l'
  end.

(** * Python built-ins on integers and lists *)

(** [range(start, stop)]. *)
Definition range (start stop : Z) : list Z := seqZ start (stop - start).

(** [min(l)]: [ValueError] on the empty list. *)
Definition py_min (l : list Z) : result Z :=
  match l with
  | [] => Raise ValueError
  | x :: l' => Ok (foldl Z.min x l')
  end.

(** [l.index(x)]: the first position of [x], [ValueError] when absent. *)
Fixpoint py_index (x : Z) (l : list Z) : result nat :=
  match l with
  | [] => Raise ValueError
  | y :: l' => if decide (x = y) then Ok 0%nat else S <$> py_index x l'
  end.

(** [sum(l)] on integers. *)
Definition py_sum (l : list Z) : Z := foldl Z.add 0 l.

(** A list of integers in non-decreasing order. *)
Definition nondecreasing (l : list Z) : Prop :=
  ∀ i j x y, l !! i = Some x → l !! j = Some y → (i ≤ j)%nat → x ≤ y.

(** The first position whose element is at least [n]: the reference
    definition of the bucket search. *)
Definition first_ge (n : Z) (l : list Z) : option nat :=
  fst <$> list_find (λ x, n ≤ x) l.

(** The exceptions of Python and NumPy, as opposed to the two classes the
    module defines. *)
Definition builtin (e : exn) : Prop :=
  match e with OddResolutionError | TopError => False | _ => True end.

(** * Tactics and hint databases *)

Create HintDb py discriminated.

(** Case analysis on the first [decide], boolean test or [match] that blocks
    the goal, keeping the equation. *)
Ltac case_test :=
  match goal with
  | |- context [decide ?P] => destruct (decide P)
  | |- context [if ?b then _ else _] => destruct b eqn:?
  | |- context [match ?r with Ok _ => _ | Raise _ => _ end] => destruct r eqn:?
  end.

(** Invert a hypothesis that a monadic sequence returned normally. *)
Ltac inv_Ok :=
  repeat match goal with
  | H : Ok _ = Ok _ |- _ => injection H as H; try subst
  | H : Raise _ = Ok _ |- _ => discriminate H
  | H : Ok _ = Raise _ |- _ => discriminate H
  | H : is_Ok (Raise _) |- _ => destruct H as [? H]; discriminate H
  | H : mbind _ ?m = Ok _ |- _ =>
      let E := fresh "E" in destruct m eqn:E; simpl in H
  | H : fmap _ ?m = Ok _ |- _ =>
      let E := fresh "E" in destruct m eqn:E; simpl in H
  end.

(** * Lemmas on [result] *)

Section result_lemmas.
Context {A B : Type}.
Implicit Types (m : result A) (f : A → result B).

Lemma is_Ok_Ok (a : A) : is_Ok (Ok a).
Proof. by exists a. Qed.

Lemma not_is_Ok_Raise (e : exn) : ¬ is_Ok (@Raise A e).
Proof. by intros [a ?]. Qed.

Lemma bind_Ok_inv m f b :
  m ≫= f = Ok b ↔ ∃ a, m = Ok a ∧ f a = Ok b.
Proof.
  destruct m as [a|e]; simpl; split.
  - intros; by exists a.
  - by intros (a' & [= ->] & ?).
  - done.
  - by intros (a' & ? & ?).
Qed.

Lemma bind_is_Ok m f :
  is_Ok (m ≫= f) ↔ ∃ a, m = Ok a ∧ is_Ok (f a).
Proof.
  unfold is_Ok. split.
  - intros [b (a & ? & ?)%bind_Ok_inv]. eauto.
  - intros (a & -> & b & ?). by exists b.
Qed.

Lemma fmap_Ok_inv (g : A → B) m b :
  g <$> m = Ok b ↔ ∃ a, m = Ok a ∧ b = g a.
Proof.
  destruct m as [a|e]; simpl; split.
  - intros [= <-]; by exists a.
  - by intros (a' & [= ->] & ->).
  - done.
  - by intros (a' & ? & ?).
Qed.

End result_lemmas.

#[export] Hint Resolve is_Ok_Ok : py.

Lemma foldlM_cons {A B} (f : A → B → result A) a b (l : list B) :
  foldlM f a (b :: l) = f a b ≫= λ a', foldlM f a' l.
Proof. done. Qed.

(** The loop over a concatenation is the loop over the first part followed
    by the loop over the second. *)
Lemma foldlM_app {A B} (f : A → B → result A) a (l1 l2 : list B) :
  foldlM f a (l1 ++ l2) = foldlM f a l1 ≫= λ a', foldlM f a' l2.
Proof.
  revert a; induction l1 as [|b l1 IH]; intros a; simpl; [done|].
  destruct (f a b); simpl; [apply IH | done].
Qed.

(** A loop whose body never raises and preserves [I] returns normally in a
    state satisfying [I]. *)
Lemma foldlM_invariant {A B} (I : A → Prop) (f : A → B → result A) a (l : list B) :
  I a →
  (∀ a b, I a → b ∈ l → ∃ a', f a b = Ok a' ∧ I a') →
  ∃ a', foldlM f a l = Ok a' ∧ I a'.
Proof.
  revert a; induction l as [|b l IH]; intros a Ha Hf; simpl; [eauto|].
  destruct (Hf a b Ha) as (a' & -> & Ha'); [left|]. simpl.
  apply IH; [done|]. intros a0 b0 ? ?. apply Hf; [done | by right].
Qed.

(** A property the body preserves whenever it returns holds when the loop
    returns. *)
Lemma foldlM_preserves {A B} (I : A → Prop) (f : A → B → result A) a (l : list B) a' :
  I a →
  (∀ a b a', I a → b ∈ l → f a b = Ok a' → I a') →
  foldlM f a l = Ok a' → I a'.
Proof.
  revert a; induction l as [|b l IH]; intros a Ha Hf; simpl; [by intros [= <-]|].
  intros (a1 & H1 & Hl)%bind_Ok_inv. apply (IH a1); [| |done].
  - eapply Hf; [done | left | done].
  - intros a0 b0 a0' ? ?. apply Hf; [done | by right].
Qed.

(** A counter the body advances by [d] has advanced by [d] times the
    number of iterations when the loop returns. *)
Lemma foldlM_count {A B} (c : A → Z) (d : Z) (f : A → B → result A) a (l : list B) a' :
  (∀ a b a', b ∈ l → f a b = Ok a' → c a' = c a + d) →
  foldlM f a l = Ok a' → c a' = c a + d * Z.of_nat (length l).
Proof.
  revert a; induction l as [|b l IH]; intros a Hf; simpl; [intros [= <-]; lia|].
  intros (a1 & H1 & Hl)%bind_Ok_inv. apply IH in Hl.
  - apply Hf in H1; [lia | left].
  - intros a0 b0 a0' ?. apply Hf. by right.
Qed.

(** An exception of the loop is an exception of its body. *)
Lemma foldlM_Raise_inv {A B} (f : A → B → result A) a (l : list B) e :
  foldlM f a l = Raise e → ∃ a' b, b ∈ l ∧ f a' b = Raise e.
Proof.
  revert a; induction l as [|b l IH]; intros a; simpl; [done|].
  destruct (f a b) as [a1|e1] eqn:Hf; simpl.
  - intros (a' & b' & ? & ?)%IH. exists a', b'. split; [by right | done].
  - intros [= ->]. exists a, b. split; [left | done].
Qed.

Lemma bind_Raise_inv {A B} (m : result A) (f : A → result B) e :
  m ≫= f = Raise e ↔ m = Raise e ∨ ∃ a, m = Ok a ∧ f a = Raise e.
Proof.
  destruct m as [a|e']; simpl; split.
  - intros; right; by exists a.
  - intros [?|(a' & Ha & ?)]; [done|]. by injection Ha as ->.
  - intros [= ->]; by left.
  - intros [[= ->]|(a' & ? & ?)]; [done | discriminate].
Qed.

(** * Lemmas on [range] *)

Lemma range_cons start stop :
  start < stop → range start stop = start :: range (start + 1) stop.
Proof.
  intros. unfold range. rewrite seqZ_cons by lia. do 2 f_equal; lia.
Qed.

Lemma length_range start stop : length (range start stop) = Z.to_nat (stop - start).
Proof. apply length_seqZ. Qed.

Lemma elem_of_range start stop k : k ∈ range start stop ↔ start ≤ k < stop.
Proof. unfold range. rewrite elem_of_seqZ. lia. Qed.

Lemma lookup_range start stop (i : nat) k :
  range start stop !! i = Some k ↔ k = start + Z.of_nat i ∧ start + Z.of_nat i < stop.
Proof. unfold range. rewrite lookup_seqZ. lia. Qed.

Lemma range_empty start stop : stop ≤ start → range start stop = [].
Proof. intros. apply seqZ_nil. lia. Qed.

Lemma seqZ_S start (n : nat) :
  seqZ start (Z.of_nat (S n)) = start :: seqZ (start + 1) (Z.of_nat n).
Proof. rewrite seqZ_cons by lia. do 2 f_equal; lia. Qed.

Lemma seqZ_to_nat start len : seqZ start len = seqZ start (Z.of_nat (Z.to_nat len)).
Proof. unfold seqZ. by rewrite Nat2Z.id. Qed.

(** * Loops that fill a list by index *)

Lemma mapM_Ok {A B} (f : A → result B) (l : list A) (k : list B) :
  mapM f l = Ok k ↔ Forall2 (λ x y, f x = Ok y) l k.
Proof.
  revert k; induction l as [|x l IH]; intros k; simpl.
  - split; [intros [= <-]; constructor | by intros ->%Forall2_nil_inv_l].
  - split.
    + intros (y & Hy & (k' & Hk & [= <-])%bind_Ok_inv)%bind_Ok_inv.
      constructor; [done | by apply IH].
    + intros (y & k' & Hy & Hk%IH & ->)%Forall2_cons_inv_l.
      rewrite Hy. simpl. by rewrite Hk.
Qed.

Lemma length_mapM_Ok {A B} (f : A → result B) (l : list A) (k : list B) :
  mapM f l = Ok k → length k = length l.
Proof. intros ?%mapM_Ok. symmetry. by eapply Forall2_length. Qed.

Lemma mapM_Ok_Forall {A B} (f : A → result B) (P : B → Prop) (l : list A) (k : list B) :
  (∀ x y, x ∈ l → f x = Ok y → P y) → mapM f l = Ok k → Forall P k.
Proof.
  intros Hf Hk%mapM_Ok. induction Hk as [|x y l k Hxy _ IH]; constructor.
  - eapply Hf; [left | done].
  - apply IH. intros x' y' ?. apply Hf. by right.
Qed.

Lemma mapM_Ok_lookup {A B} (f : A → result B) (l : list A) (k : list B) (i : nat) x :
  mapM f l = Ok k → l !! i = Some x → ∃ y, k !! i = Some y ∧ f x = Ok y.
Proof. intros Hk%mapM_Ok Hx. by eapply Forall2_lookup_l in Hk. Qed.

(** A loop whose body raises exactly when a function of the loop variable
    does raises what the map of that function raises: the exception of
    the first element that has one. *)
Lemma foldlM_Raise_mapM {S A B} (f : S → B → result S) (g : B → result A) (l : list B) :
  (∀ s b e, b ∈ l → f s b = Raise e ↔ g b = Raise e) →
  ∀ s e, foldlM f s l = Raise e ↔ mapM g l = Raise e.
Proof.
  induction l as [|b l IH]; intros Hfg s e; simpl; [done|].
  assert (b ∈ b :: l) as Hin by left.
  pose proof (λ e, Hfg s b e Hin) as Hb. clear Hin.
  destruct (f s b) as [s'|e1] eqn:Hf, (g b) as [y|e2] eqn:Hg; simpl.
  - rewrite IH by (intros; apply Hfg; by right).
    destruct (mapM g l); simpl; [done|]. done.
  - destruct (Hb e2) as [_ Hx]. by specialize (Hx eq_refl).
  - destruct (Hb e1) as [Hx _]. by specialize (Hx eq_refl).
  - destruct (Hb e1) as [Hx _]. specialize (Hx eq_refl) as [= ->].
    split; by intros [= ->].
Qed.

Lemma list_alter_insert {A} (f : A → A) (l : list A) (i : nat) a :
  alter f i (<[i:=a]> l) = <[i:=f a]> l.
Proof.
  revert i; induction l as [|x l IH]; intros [|i]; try done.
  cbn. f_equal. apply IH.
Qed.

(** A loop over the indices [k, k+1, ...] of the part [rest] of a list
    held in the state, whose body stores [g x] at index [x] and keeps [I]:
    when it returns, [rest] has been replaced by the values of [g], in
    order. *)
Lemma foldlM_fill {S A} (I : S → Prop) (get : S → list A)
    (f : S → Z → result S) (g : Z → result A) :
  (∀ st x st', I st → 0 ≤ x → (Z.to_nat x < length (get st))%nat → f st x = Ok st' →
     I st' ∧ ∃ v, g x = Ok v ∧ get st' = <[Z.to_nat x:=v]> (get st)) →
  ∀ rest done k st st',
    I st → 0 ≤ k → length done = Z.to_nat k → get st = done ++ rest →
    foldlM f st (seqZ k (Z.of_nat (length rest))) = Ok st' →
    I st' ∧ ∃ vals, mapM g (seqZ k (Z.of_nat (length rest))) = Ok vals ∧
                    get st' = done ++ vals.
Proof.
  intros Hstep. induction rest as [|r rest IH]; intros done k st st' HI Hk Hlen Hget.
  - intros [= <-]. split; [done|]. by exists [].
  - cbn [length]. rewrite seqZ_S. simpl.
    intros (st1 & H1 & Hl)%bind_Ok_inv.
    destruct (Hstep st k st1 HI Hk) as (HI1 & v & Hv & Hget1);
      [rewrite Hget, length_app; simpl; lia | done |].
    rewrite Hget, <- Hlen, insert_app_r_alt, Nat.sub_diag in Hget1 by done.
    simpl in Hget1. rewrite (cons_middle v), app_assoc in Hget1.
    destruct (IH (done ++ [v]) (k + 1) st1 st') as (HI' & vals & Hvals & Hget');
      [done | lia | rewrite length_app; simpl; lia | done | done |].
    split; [done|]. exists (v :: vals). rewrite Hv. simpl. rewrite Hvals. simpl.
    by rewrite Hget', <- app_assoc.
Qed.

(** * Lemmas on [min], [index] and non-decreasing lists *)

Lemma foldl_min_le x (l : list Z) : foldl Z.min x l ≤ x.
Proof.
  revert x; induction l as [|y l IH]; intros x; simpl; [lia|].
  etrans; [apply IH | lia].
Qed.

Lemma foldl_min_lower x (l : list Z) y : y ∈ l → foldl Z.min x l ≤ y.
Proof.
  revert x; induction l as [|z l IH]; intros x; simpl; [by intros ?%elem_of_nil|].
  intros [->|?]%elem_of_cons; [|by apply IH].
  etrans; [apply foldl_min_le | lia].
Qed.

Lemma foldl_min_elem x (l : list Z) : foldl Z.min x l = x ∨ foldl Z.min x l ∈ l.
Proof.
  revert x; induction l as [|y l IH]; intros x; simpl; [by left|].
  destruct (IH (Z.min x y)) as [->|?]; [|right; by right].
  destruct (Z.min_spec x y) as [[_ ->]|[_ ->]]; [by left | right; by left].
Qed.

(** [min] of a non-empty list returns a least element of it. *)
Lemma py_min_spec (l : list Z) :
  l ≠ [] → ∃ m, py_min l = Ok m ∧ m ∈ l ∧ ∀ y, y ∈ l → m ≤ y.
Proof.
  destruct l as [|x l]; [done|]. intros _. exists (foldl Z.min x l).
  split; [done|]. split.
  - destruct (foldl_min_elem x l) as [->|?]; [by left | by right].
  - intros y [->|?]%elem_of_cons; [apply foldl_min_le | by apply foldl_min_lower].
Qed.

Lemma py_min_Raise (l : list Z) e : py_min l = Raise e ↔ l = [] ∧ e = ValueError.
Proof.
  destruct l; simpl; split; try done.
  - by intros [= <-].
  - by intros [_ ->].
  - by intros [? _].
Qed.

(** [index] returns the first position of an element that occurs. *)
Lemma py_index_spec x (l : list Z) i :
  py_index x l = Ok i ↔ l !! i = Some x ∧ ∀ j, (j < i)%nat → l !! j ≠ Some x.
Proof.
  revert i; induction l as [|y l IH]; intros i; simpl.
  { split; [done | by intros [? _]]. }
  destruct (decide (x = y)) as [->|Hne].
  - split.
    + intros [= <-]. split; [done | lia].
    + intros [Hi Hlt]. destruct i as [|i]; [done|].
      by destruct (Hlt 0%nat); [lia|].
  - rewrite fmap_Ok_inv. split.
    + intros (i' & Hi' & ->). apply IH in Hi' as [? Hlt]. split; [done|].
      intros [|j] ?; simpl; [congruence | apply Hlt; lia].
    + intros [Hi Hlt]. destruct i as [|i]; simpl in Hi; [congruence|].
      exists i. split; [|done]. apply IH. split; [done|].
      intros j ?. apply (Hlt (S j)). lia.
Qed.

Lemma py_index_Raise_inv x (l : list Z) e : py_index x l = Raise e → e = ValueError.
Proof.
  induction l as [|y l IH]; simpl; [by intros [= <-]|].
  destruct (decide (x = y)); [done|]. destruct (py_index x l); [done|].
  intros [= <-]. by apply IH.
Qed.

Lemma py_index_elem x (l : list Z) : x ∈ l → is_Ok (py_index x l).
Proof.
  induction 1 as [x l|x y l _ IH]; simpl.
  - rewrite decide_True by done. apply is_Ok_Ok.
  - destruct (decide (x = y)); [apply is_Ok_Ok|].
    destruct IH as [i ->]. apply is_Ok_Ok.
Qed.

Lemma nondecreasing_cons_inv x (l : list Z) :
  nondecreasing (x :: l) → nondecreasing l ∧ ∀ y, y ∈ l → x ≤ y.
Proof.
  intros Hl. split.
  - intros i j a b Hi Hj ?. apply (Hl (S i) (S j) a b Hi Hj). lia.
  - intros y [j Hj]%list_elem_of_lookup.
    apply (Hl 0%nat (S j) x y eq_refl Hj). lia.
Qed.

Lemma list_find_cons {A} (P : A → Prop) `{∀ x, Decision (P x)} x (l : list A) :
  list_find P (x :: l) =
  if decide (P x) then Some (0%nat, x) else prod_map S id <$> list_find P l.
Proof. done. Qed.

Lemma first_ge_Some n (l : list Z) i :
  first_ge n l = Some i ↔
  ∃ x, l !! i = Some x ∧ n ≤ x ∧ ∀ j y, l !! j = Some y → (j < i)%nat → y < n.
Proof.
  unfold first_ge. split.
  - destruct (list_find _ l) as [[i' x]|] eqn:E; simpl; [|done].
    intros [= <-]. apply list_find_Some in E as (? & ? & Hlt).
    exists x. split_and!; [done..|]. intros j y Hj Hji. specialize (Hlt j y Hj Hji). lia.
  - intros (x & ? & ? & Hlt).
    assert (list_find (λ x, n ≤ x) l = Some (i, x)) as ->; [|done].
    apply list_find_Some. split_and!; [done..|].
    intros j y Hj Hji. specialize (Hlt j y Hj Hji). lia.
Qed.

Lemma first_ge_None n (l : list Z) :
  first_ge n l = None ↔ ∀ x, x ∈ l → x < n.
Proof.
  unfold first_ge. rewrite fmap_None, list_find_None, Forall_forall.
  split; intros H x Hx; specialize (H x Hx); lia.
Qed.

(** In a non-decreasing list, searching the first position of the least
    element that is at least [n] finds the first position whose element is
    at least [n]: the [min]-then-[index] idiom is a first-match search. *)
Lemma min_index_first_ge n (l : list Z) i :
  nondecreasing l →
  first_ge n l = Some i →
  (py_min (filter (λ x, n ≤ x) l) ≫= λ d_min, py_index d_min l) = Ok i.
Proof.
  intros Hl (x & Hi & Hx & Hlt)%first_ge_Some.
  assert (x ∈ filter (λ x, n ≤ x) l) as Hin.
  { apply list_elem_of_filter. split; [done|]. by eapply list_elem_of_lookup_2. }
  destruct (py_min_spec (filter (λ x, n ≤ x) l)) as (m & -> & Hm & Hle).
  { intros E. rewrite E in Hin. by apply elem_of_nil in Hin. }
  simpl. apply list_elem_of_filter in Hm as [Hnm [k Hk]%list_elem_of_lookup].
  assert (m = x) as ->.
  { apply Z.le_antisymm; [by apply Hle|].
    destruct (decide (k < i)%nat) as [Hki|]; [specialize (Hlt k m Hk Hki); lia|].
    apply (Hl i k x m Hi Hk). lia. }
  apply py_index_spec. split; [done|].
  intros j Hji Hj. specialize (Hlt j x Hj Hji). lia.
Qed.

Lemma nondecreasing_StronglySorted (l : list Z) :
  nondecreasing l → StronglySorted Z.le l.
Proof.
  induction l as [|x l IH]; intros Hl; constructor.
  - apply IH. by apply nondecreasing_cons_inv in Hl as [? _].
  - apply Forall_forall. by apply nondecreasing_cons_inv in Hl as [_ ?].
Qed.

(** The first-match position is monotone in the bound searched for. *)
Lemma first_ge_mono n1 n2 (l : list Z) i1 i2 :
  n1 ≤ n2 → first_ge n1 l = Some i1 → first_ge n2 l = Some i2 → (i1 ≤ i2)%nat.
Proof.
  intros ? (x1 & ? & ? & Hlt1)%first_ge_Some (x2 & H2 & ? & _)%first_ge_Some.
  destruct (decide (i1 ≤ i2)%nat); [done|].
  assert (x2 < n1); [apply (Hlt1 i2 x2 H2)|]; lia.
Qed.
