(* ===== verification/Numeric.v ===== *)
(** * Numeric: the arithmetic of the renderer

    The operations [src/Fractals.py] performs on Python [float]s, as the
    class [Number]; the two instances the development uses, [binary64]
    (the kernel's primitive IEEE-754 doubles: what Python computes) and
    [exact] (the real numbers: the same program without rounding);
    Python's [complex] pairs with the sum and product the interpreter
    uses; and Python's true division, which raises on a zero divisor
    where IEEE division would return an infinity. *)

From Stdlib Require Import ZArith Floats Reals Lra Lia.
From stdpp Require Import base tactics list numbers.
From S2P Require Import Prelude.

(** * The interface *)

(** What the source asks of its numbers: the four operations, [math.sqrt],
    the comparisons [<=] and [==], the conversion of an [int], and the
    truncation [int(x)] (also the C cast NumPy applies when a [float64] is
    stored into a [uint8] cell). *)
Class Number (F : Type) : Type := {
  num_add : F → F → F;
  num_sub : F → F → F;
  num_mul : F → F → F;
  num_div : F → F → F;
  num_sqrt : F → F;
  num_leb : F → F → bool;
  num_eqb : F → F → bool;
  of_int : Z → F;
  to_int : F → Z;
}.

Declare Scope num_scope.
Delimit Scope num_scope with num.
Bind Scope num_scope with Number.

Notation "x + y" := (num_add x y) : num_scope.
Notation "x - y" := (num_sub x y) : num_scope.
Notation "x * y" := (num_mul x y) : num_scope.
Notation "x / y" := (num_div x y) : num_scope.
Notation "x <=? y" := (num_leb x y) : num_scope.
Notation "x =? y" := (num_eqb x y) : num_scope.
Notation "0" := (of_int 0%Z) : num_scope.
Notation "1" := (of_int 1%Z) : num_scope.
Notation "2" := (of_int 2%Z) : num_scope.

(** * Python's division and complex numbers, over any [Number] *)

Section generic.
Context {F : Type} `{Number F}.
#[local] Open Scope num_scope.

(** [x / y] on Python floats (and [int / int]): [ZeroDivisionError] when
    the divisor compares equal to zero. *)
Definition py_truediv (x y : F) : result F :=
  if y =? 0 then Raise ZeroDivisionError else Ok (x / y).

(** A number as a caller passes it: a Python [int] or a [float].  The
    arithmetic converts an [int] operand to a float ([to_float]); [str]
    prints the two differently. *)
Inductive number : Type :=
| PyInt (z : Z)
| PyFloat (x : F).

Definition to_float (n : number) : F :=
  match n with
  | PyInt z => of_int z
  | PyFloat x => x
  end.

Definition floats (c : number * number) : F * F := (to_float c.1, to_float c.2).

(** A Python [complex]. *)
Record complex : Type := Complex { real : F; imag : F }.

(** [a + b] on complex numbers. *)
Definition c_sum (a b : complex) : complex :=
  Complex (real a + real b) (imag a + imag b).

(** [a * b] on complex numbers, with the interpreter's formula. *)
Definition c_prod (a b : complex) : complex :=
  Complex (real a * real b - imag a * imag b)
          (real a * imag b + imag a * real b).

(** The conversion of a float operand in mixed arithmetic. *)
Definition c_of_float (x : F) : complex := Complex x 0.

(** The literal [1j]. *)
Definition c_1j : complex := Complex 0 1.

(** The complex conjugate. *)
Definition c_conj (a : complex) : complex := Complex (real a) (0 - imag a).

End generic.

Arguments number F : clear implicits.
Arguments PyInt {F} z.
Arguments PyFloat {F} x.
Arguments complex F : clear implicits.
Arguments Complex {F} real imag.

(** * What the control flow asks of the arithmetic *)

(** The renderer divides by a converted integer and by half of one.  An
    arithmetic has [DivisionLaws] when these do not compare equal to zero
    unless the integer is 0: the theorems that a render returns are proved
    against this interface, and an instance discharges it. *)
Class DivisionLaws (F : Type) `{Number F} : Prop := {
  of_int_eqb_0 (z : Z) : z ≠ 0%Z → (of_int z =? 0)%num = false;
  half_eqb_0 (z : Z) : z ≠ 0%Z → (of_int z / 2 =? 0)%num = false;
}.

(** * The instance of IEEE-754 doubles *)

(** [float(z)]: the double nearest to the integer [z], ties to even. *)
Definition float_of_Z (z : Z) : float :=
  SF2Prim (binary_normalize prec emax z 0 false).

(** [int(x)]: truncation toward zero.  (Python raises on an infinity or a
    NaN; the C cast is undefined there.  The model returns 0.) *)
Definition float_trunc (x : float) : Z :=
  match Prim2SF x with
  | S754_finite s m e =>
      let v := if (0 <=? e)%Z then (Z.pos m * 2 ^ e)%Z
               else (Z.pos m / 2 ^ (- e))%Z in
      if s then (- v)%Z else v
  | _ => 0%Z
  end.

#[export] Instance binary64 : Number float := {|
  num_add := PrimFloat.add;
  num_sub := PrimFloat.sub;
  num_mul := PrimFloat.mul;
  num_div := PrimFloat.div;
  num_sqrt := PrimFloat.sqrt;
  num_leb := PrimFloat.leb;
  num_eqb := PrimFloat.eqb;
  of_int := float_of_Z;
  to_int := float_trunc;
|}.

(** * The instance of exact real arithmetic *)

Definition R_leb (x y : R) : bool := if Rle_dec x y then true else false.

Definition R_eqb (x y : R) : bool := if Req_dec_T x y then true else false.

#[export] Instance R_eq_dec : EqDecision R := Req_dec_T.

#[export] Instance Rle_decision (x y : R) : Decision (x <= y)%R := Rle_dec x y.

#[export] Instance Rlt_decision (x y : R) : Decision (x < y)%R := Rlt_dec x y.

(** Truncation toward zero. *)
Definition R_trunc (x : R) : Z := if Rle_dec 0 x then Zfloor x else Zceil x.

#[export] Instance exact : Number R := {|
  num_add := Rplus;
  num_sub := Rminus;
  num_mul := Rmult;
  num_div := Rdiv;
  num_sqrt := sqrt;
  num_leb := R_leb;
  num_eqb := R_eqb;
  of_int := IZR;
  to_int := R_trunc;
|}.

(** The operations of the interface at [exact] are those of [R]: the
    tactic exposes them so that [lra], [nra] and [field] apply. *)
Ltac exact_arith :=
  cbn [num_add num_sub num_mul num_div num_sqrt num_leb num_eqb of_int to_int
       exact real imag] in *.

(** * Lemmas at [exact] *)

#[local] Open Scope R_scope.

Lemma R_leb_le x y : R_leb x y = true ↔ x <= y.
Proof. unfold R_leb. destruct (Rle_dec x y); split; (done || lra). Qed.

Lemma R_leb_gt x y : R_leb x y = false ↔ y < x.
Proof. unfold R_leb. destruct (Rle_dec x y); split; (done || lra). Qed.

Lemma R_eqb_eq x y : R_eqb x y = true ↔ x = y.
Proof. unfold R_eqb. destruct (Req_dec_T x y); split; (done || lra). Qed.

Lemma R_eqb_neq x y : R_eqb x y = false ↔ x ≠ y.
Proof. unfold R_eqb. destruct (Req_dec_T x y); split; done. Qed.

(** Truncation is the identity on integers. *)
Lemma R_trunc_IZR z : R_trunc (IZR z) = z.
Proof.
  unfold R_trunc. destruct (Rle_dec 0 (IZR z)); [apply ZfloorZ|].
  unfold Zceil. rewrite <- opp_IZR, ZfloorZ. lia.
Qed.

(** On a non-negative real, truncation is the floor. *)
Lemma R_trunc_bound x : 0 <= x → IZR (R_trunc x) <= x < IZR (R_trunc x) + 1.
Proof. intros. unfold R_trunc. destruct (Rle_dec 0 x); [apply Zfloor_bound | lra]. Qed.

Lemma R_trunc_eq x z : IZR z <= x < IZR z + 1 → 0 <= x → R_trunc x = z.
Proof.
  intros ? ?. unfold R_trunc. destruct (Rle_dec 0 x); [by apply Zfloor_eq | lra].
Qed.

(** [sqrt x <= y] for a non-negative bound is [x <= y * y]: the square
    root in the escape test can be traded for a square. *)
Lemma sqrt_le_iff x y : 0 <= x → 0 <= y → sqrt x <= y ↔ x <= y * y.
Proof.
  intros Hx Hy. split; intros Hle.
  - rewrite <- (sqrt_def x Hx). pose proof (sqrt_pos x). nra.
  - rewrite <- (sqrt_square y Hy). by apply sqrt_le_1_alt.
Qed.

(** Division at [exact] never raises on a non-zero divisor, and raises
    [ZeroDivisionError] on zero. *)
Lemma py_truediv_exact (x y : R) :
  py_truediv x y = if decide (y = 0) then Raise ZeroDivisionError else Ok (x / y).
Proof.
  unfold py_truediv. exact_arith. unfold R_eqb.
  destruct (Req_dec_T y 0), (decide (y = 0)); done.
Qed.

(** Exact arithmetic has the laws of division. *)
#[export] Instance exact_division_laws : DivisionLaws R.
Proof.
  split; intros z Hz; exact_arith; apply R_eqb_neq.
  - by apply not_0_IZR.
  - intros Hh. apply Hz, eq_IZR. lra.
Qed.

Lemma complex_eq {F} (a b : complex F) : real a = real b → imag a = imag b → a = b.
Proof. destruct a, b; simpl; congruence. Qed.

(** Conjugation commutes with the sum and the product of complex numbers. *)
Lemma c_conj_sum (a b : complex R) : c_conj (c_sum a b) = c_sum (c_conj a) (c_conj b).
Proof. apply complex_eq; exact_arith; simpl; lra. Qed.

Lemma c_conj_prod (a b : complex R) : c_conj (c_prod a b) = c_prod (c_conj a) (c_conj b).
Proof. apply complex_eq; exact_arith; simpl; lra. Qed.

(** [x + y * 1j] is the complex number with parts [x] and [y]. *)
Lemma c_of_parts (x y : R) :
  c_sum (c_of_float x) (c_prod (c_of_float y) c_1j) = Complex x y.
Proof. apply complex_eq; exact_arith; simpl; lra. Qed.

(** * Lemmas at [binary64] *)

(** Small integers convert to the doubles of the same value, by
    evaluation. *)
Lemma float_of_Z_small :
  (float_of_Z 0 = 0 ∧ float_of_Z 1 = 1 ∧ float_of_Z 2 = 2 ∧ float_of_Z 255 = 255)%float.
Proof. by vm_compute. Qed.

(** Truncation inverts the conversion on the byte range, by evaluation
    over all 256 values. *)
Lemma float_trunc_of_Z_byte z : (0 <= z < 256)%Z → float_trunc (float_of_Z z) = z.
Proof.
  intros Hz.
  assert (forallb (λ z, float_trunc (float_of_Z z) =? z)%Z (seqZ 0 256) = true) as Hall.
  { vm_compute. reflexivity. }
  rewrite forallb_forall in Hall. apply Z.eqb_eq, Hall.
  apply list_elem_of_In, elem_of_seqZ. lia.
Qed.
