(* ===== verification/Binary64.v ===== *)
(** * Binary64: the conversion of an integer to a double

    [float(z)], the conversion [float_of_Z] that [src/Fractals.py] applies
    whenever an [int] meets a [float] or a true division, rounds the
    integer to 53 significant bits.  This file follows the rounding of the
    kernel's specification of IEEE-754 arithmetic bit by bit and shows
    what the control flow of the renderer needs of it: the double of a
    non-zero integer is a normal number of magnitude at least one, or an
    infinity, so neither it nor its half compares equal to zero.  This is
    the instance of [DivisionLaws] for doubles: the theorems that a render
    returns hold in the arithmetic the program runs in.  An integer of at
    most 53 bits converts exactly, and [int] gives it back. *)

From Stdlib Require Import ZArith Floats Lia Zpower.
From stdpp Require Import base tactics numbers.
From S2P Require Import Prelude Numeric.

#[local] Open Scope Z_scope.

(** * Definitions *)

(** A double of magnitude at least [2 ^ (elo + 52)]: an infinity, or a
    finite number with a full mantissa and an exponent from [elo] on. *)
Definition normal_from (sx : bool) (elo : Z) (x : spec_float) : Prop :=
  x = S754_infinity sx ∨
  ∃ m e, x = S754_finite sx m e ∧ Zdigits2 (Z.pos m) = 53 ∧ elo ≤ e ≤ 971.

(** The sign of an integer, as the sign bit of its double. *)
Definition sign_bit (z : Z) : bool := bool_decide (z < 0).

(** * The number of bits of an integer *)

Lemma digits2_pos_size p : digits2_pos p = Pos.size p.
Proof. induction p; simpl; congruence. Qed.

Lemma Zdigits2_pos m : 0 < m → 0 < Zdigits2 m.
Proof. by destruct m. Qed.

Lemma Zdigits2_spec m : 0 < m → 2 ^ (Zdigits2 m - 1) ≤ m < 2 ^ Zdigits2 m.
Proof.
  destruct m as [|p|p]; [lia| |lia]. intros _. cbn [Zdigits2]. rewrite digits2_pos_size.
  pose proof (Pos.size_gt p) as Hgt. pose proof (Pos.size_le p) as Hle.
  apply Pos2Z.pos_lt_pos in Hgt. apply Pos2Z.pos_le_pos in Hle.
  rewrite Pos2Z.inj_pow in Hgt, Hle. change (Z.pos p~0) with (2 * Z.pos p) in Hle.
  replace (2 ^ Z.pos (Pos.size p)) with (2 * 2 ^ (Z.pos (Pos.size p) - 1)) in Hle
    by (rewrite <-Z.pow_succ_r by lia; f_equal; lia).
  lia.
Qed.

Lemma Zdigits2_unique m d : 2 ^ (d - 1) ≤ m < 2 ^ d → 0 < d → Zdigits2 m = d.
Proof.
  intros Hm Hd. assert (0 < m) as Hpos by (pose proof (Z.pow_pos_nonneg 2 (d - 1)); lia).
  pose proof (Zdigits2_spec m Hpos) as Hs. pose proof (Zdigits2_pos m Hpos).
  destruct (Z.lt_trichotomy (Zdigits2 m) d) as [Hlt|[->|Hlt]]; [|done|].
  - assert (2 ^ Zdigits2 m ≤ 2 ^ (d - 1)) by (apply Z.pow_le_mono_r; lia). lia.
  - assert (2 ^ d ≤ 2 ^ (Zdigits2 m - 1)) by (apply Z.pow_le_mono_r; lia). lia.
Qed.

(** * Shifts *)

Lemma pow2_pos k : 0 ≤ k → 0 < 2 ^ k.
Proof. intros. by apply Z.pow_pos_nonneg. Qed.

(** One shift to the right halves the mantissa. *)
Lemma shr_1_m mrs : 0 ≤ shr_m mrs → shr_m (shr_1 mrs) = shr_m mrs `div` 2.
Proof.
  destruct mrs as [[|[p|p|]|p] r s]; simpl; intros; try lia; try done.
  - apply Z.div_unique with 1; lia.
  - apply Z.div_unique with 0; lia.
Qed.

Lemma iter_pos_shr_m n : ∀ mrs, 0 ≤ shr_m mrs →
  shr_m (SpecFloat.iter_pos shr_1 n mrs) = shr_m mrs `div` 2 ^ Z.pos n.
Proof.
  induction n as [n IH|n IH|]; intros mrs Hm; cbn [SpecFloat.iter_pos].
  - pose proof (pow2_pos (Z.pos n)).
    assert (0 ≤ shr_m mrs `div` 2) by (apply Z.div_pos; lia).
    assert (0 ≤ (shr_m mrs `div` 2) `div` 2 ^ Z.pos n) by (apply Z.div_pos; lia).
    rewrite IH; rewrite IH; rewrite shr_1_m; try done.
    rewrite !Z.div_div by lia.
    replace (Z.pos n~1) with (1 + Z.pos n + Z.pos n) by lia.
    rewrite !Z.pow_add_r by lia. f_equal. ring.
  - pose proof (pow2_pos (Z.pos n)).
    assert (0 ≤ shr_m mrs `div` 2 ^ Z.pos n) by (apply Z.div_pos; lia).
    rewrite IH; rewrite IH; try done.
    rewrite !Z.div_div by lia.
    replace (Z.pos n~0) with (Z.pos n + Z.pos n) by lia.
    by rewrite !Z.pow_add_r by lia.
  - by rewrite shr_1_m.
Qed.

(** A shift by [n] divides the mantissa by [2 ^ n] and adds [n] to the
    exponent; a shift by a negative number does nothing. *)
Lemma shr_spec mrs e n : 0 ≤ shr_m mrs →
  shr_m (shr mrs e n).1 = shr_m mrs `div` 2 ^ Z.max 0 n ∧ (shr mrs e n).2 = e + Z.max 0 n.
Proof.
  intros Hm. destruct n as [|n|n]; simpl.
  - by rewrite Z.div_1_r, Z.add_0_r.
  - by rewrite iter_pos_shr_m.
  - by rewrite Z.div_1_r, Z.add_0_r.
Qed.

Lemma shr_record_of_loc_m m l : shr_m (shr_record_of_loc m l) = m.
Proof. by destruct l as [|[]]. Qed.

Lemma shr_fexp_spec m e l : 0 ≤ m →
  let n := Z.max 0 (fexp prec emax (Zdigits2 m + e) - e) in
  shr_m (shr_fexp prec emax m e l).1 = m `div` 2 ^ n ∧
  (shr_fexp prec emax m e l).2 = e + n.
Proof.
  intros Hm. unfold shr_fexp.
  rewrite <-(shr_record_of_loc_m m l) at 3. apply shr_spec.
  by rewrite shr_record_of_loc_m.
Qed.

(** Rounding to nearest keeps the mantissa or adds one. *)
Lemma round_nearest_even_bounds m l :
  m ≤ round_nearest_even m l ≤ m + 1.
Proof. destruct l as [|[]]; simpl; try case_match; lia. Qed.

Lemma shift_pos_mul (k mx : positive) : Z.pos (Pos.iter xO mx k) = Z.pos mx * 2 ^ Z.pos k.
Proof.
  change (Pos.iter xO mx k) with (shift_pos k mx).
  rewrite shift_pos_correct. change (Z.pow_pos 2 k) with (2 ^ Z.pos k). lia.
Qed.

(** * Rounding to 53 bits *)

(** Above the subnormal range the exponent of a number of [e] bits is
    [e - 53]. *)
Lemma fexp_normal e : -1021 ≤ e → fexp prec emax e = e - 53.
Proof. unfold fexp, emin, prec, emax. lia. Qed.

Lemma normal_from_weaken sx elo elo' x :
  elo' ≤ elo → normal_from sx elo x → normal_from sx elo' x.
Proof.
  intros ? [->|(m & e & -> & ? & ?)]; [by left|].
  right; exists m, e; split_and!; auto with lia.
Qed.

(** The second shift of [binary_round_aux]: a rounded mantissa of 53 bits,
    or [2 ^ 53] when rounding carried, becomes a mantissa of 53 bits. *)
Lemma renormalise m e :
  2 ^ 52 ≤ m ≤ 2 ^ 53 → -1074 ≤ e →
  ∃ p, shr_m (shr_fexp prec emax m e loc_Exact).1 = Z.pos p ∧
       Zdigits2 (Z.pos p) = 53 ∧
       e ≤ (shr_fexp prec emax m e loc_Exact).2 ≤ e + 1.
Proof.
  intros Hm He. destruct (shr_fexp_spec m e loc_Exact) as [-> ->]; [lia|].
  destruct (decide (m = 2 ^ 53)) as [->|].
  - rewrite (Zdigits2_unique _ 54), fexp_normal by lia.
    exists (2 ^ 52)%positive. split_and!; [|done|lia..].
    replace (Z.max 0 (54 + e - 53 - e)) with 1 by lia. done.
  - rewrite (Zdigits2_unique m 53), fexp_normal by lia.
    replace (Z.max 0 (53 + e - 53 - e)) with 0 by lia.
    rewrite Z.div_1_r. destruct m as [|p|p]; try lia.
    exists p. split_and!; [done| |lia..]. apply Zdigits2_unique; lia.
Qed.

(** Rounding a mantissa of at least 53 bits, above the subnormal range:
    the result is normal, with an exponent from that of the first shift
    on. *)
Lemma binary_round_aux_normal sx mx ex lx elo :
  0 < mx → 53 ≤ Zdigits2 mx → -1021 ≤ Zdigits2 mx + ex → elo ≤ Zdigits2 mx + ex - 53 →
  normal_from sx elo (binary_round_aux prec emax sx mx ex lx).
Proof.
  intros Hmx Hd He Helo. unfold binary_round_aux.
  destruct (shr_fexp_spec mx ex lx) as [Hm' He']; [lia|].
  destruct (shr_fexp prec emax mx ex lx) as [mrs' e']. simpl in Hm', He'.
  rewrite fexp_normal in Hm', He' by done.
  replace (Z.max 0 (Zdigits2 mx + ex - 53 - ex)) with (Zdigits2 mx - 53) in * by lia.
  pose proof (Zdigits2_spec mx Hmx) as Hspec.
  pose proof (round_nearest_even_bounds (shr_m mrs') (loc_of_shr_record mrs')) as Hr.
  set (m'' := round_nearest_even _ _) in *.
  assert (2 ^ 52 ≤ shr_m mrs' < 2 ^ 53) as Hb.
  { rewrite Hm'. pose proof (pow2_pos (Zdigits2 mx - 53)).
    split; [apply Z.div_le_lower_bound|apply Z.div_lt_upper_bound]; try lia.
    - rewrite <-Z.pow_add_r by lia.
      replace (Zdigits2 mx - 53 + 52) with (Zdigits2 mx - 1) by lia. lia.
    - rewrite <-Z.pow_add_r by lia.
      replace (Zdigits2 mx - 53 + 53) with (Zdigits2 mx) by lia. lia. }
  destruct (renormalise m'' e') as (p & Hp & Hdp & He''); [lia..|].
  destruct (shr_fexp prec emax m'' e' loc_Exact) as [mrs'' e'']. simpl in Hp, He''.
  rewrite Hp. case_match; [right|by left].
  exists p, e''. split_and!; [done..|lia|]. by apply Z.leb_le.
Qed.

(** The double of a positive integer: shifted to 53 bits when it has
    fewer, rounded to 53 bits when it has more. *)
Lemma binary_round_normal sx mx :
  normal_from sx (-52) (binary_round prec emax sx mx 0).
Proof.
  unfold binary_round, shl_align.
  pose proof (Zdigits2_spec (Z.pos mx) eq_refl) as Hspec.
  pose proof (Zdigits2_pos (Z.pos mx) eq_refl) as Hpos. cbn [Zdigits2] in Hspec, Hpos.
  rewrite fexp_normal by lia. remember (Z.pos (digits2_pos mx)) as d eqn:Hdd.
  destruct (d + 0 - 53 - 0) as [|k|k] eqn:Hk.
  - apply binary_round_aux_normal; cbn [Zdigits2]; rewrite <-?Hdd; lia.
  - apply binary_round_aux_normal; cbn [Zdigits2]; rewrite <-?Hdd; lia.
  - assert (Zdigits2 (Z.pos (Pos.iter xO mx k)) = 53) as Hd.
    { apply Zdigits2_unique; [|done]. rewrite shift_pos_mul.
      pose proof (pow2_pos (Z.pos k)).
      assert (2 ^ (d - 1) * 2 ^ Z.pos k ≤ Z.pos mx * 2 ^ Z.pos k < 2 ^ d * 2 ^ Z.pos k)
        as Hb by nia.
      rewrite <-!Z.pow_add_r in Hb by lia.
      by replace (d - 1 + Z.pos k) with (53 - 1) in Hb by lia;
        replace (d + Z.pos k) with 53 in Hb by lia. }
    apply binary_round_aux_normal; rewrite ?Hd; lia.
Qed.

Lemma binary_normalize_normal z :
  z ≠ 0 → normal_from (sign_bit z) (-52) (binary_normalize prec emax z 0 false).
Proof. destruct z; [done|intros _; apply binary_round_normal..]. Qed.

(** A normal number is a double. *)
Lemma normal_from_valid sx elo x :
  -1074 ≤ elo → normal_from sx elo x → valid_binary x = true.
Proof.
  intros ? [->|(m & e & -> & Hd & ?)]; [done|].
  unfold valid_binary, SpecFloat.valid_binary, bounded, canonical_mantissa.
  cbn [Zdigits2] in Hd. rewrite Hd, fexp_normal by lia.
  apply andb_true_intro. split; [apply Z.eqb_eq|apply Z.leb_le]; unfold emax, prec; lia.
Qed.

Lemma normal_from_eqb_zero sx elo x s :
  normal_from sx elo x → SFeqb x (S754_zero s) = false.
Proof. by intros [->|(m & e & -> & _)]; destruct sx. Qed.

(** What [float_of_Z] returns for a non-zero integer. *)
Lemma Prim2SF_float_of_Z z :
  z ≠ 0 → normal_from (sign_bit z) (-52) (Prim2SF (float_of_Z z)).
Proof.
  intros Hz%binary_normalize_normal. unfold float_of_Z.
  rewrite Prim2SF_SF2Prim; [done|]. by eapply normal_from_valid; [|done].
Qed.

(** * Halving *)

(** Half of a double of magnitude at least [2 ^ (elo + 52)], away from
    the subnormal range, has magnitude at least [2 ^ (elo + 51)]. *)
Lemma SFdiv_two_normal sx elo x :
  -1018 ≤ elo → normal_from sx elo x →
  normal_from sx (elo - 1) (SF64div x (S754_finite false 4503599627370496 (-51))).
Proof.
  intros ? [->|(m & e & -> & Hd & ?)]; [left; by destruct sx|].
  unfold SF64div, SFdiv, SFdiv_core_binary. cbv zeta. rewrite Hd.
  change (Zdigits2 (Z.pos 4503599627370496)) with 53.
  replace (Z.min (fexp prec emax (53 + e - (53 + -51))) (e - -51)) with (e - 2)
    by (rewrite fexp_normal; lia).
  replace (e - -51 - (e - 2)) with 53 by lia.
  assert (Z.shiftl (Z.pos m) 53 = 4503599627370496 * (2 * Z.pos m)) as Hq
    by (rewrite Z.shiftl_mul_pow2 by lia; change (2 ^ 53) with 9007199254740992; lia).
  apply Z.div_unique_exact in Hq as Hdiv; [|done].
  unfold Z.div in Hdiv. destruct (Z.div_eucl _ _) as [q r]. simpl in Hdiv. subst q.
  replace (xorb sx false) with sx by by destruct sx.
  assert (Zdigits2 (2 * Z.pos m) = 54) as Hd2.
  { pose proof (Zdigits2_spec (Z.pos m) eq_refl) as Hs. rewrite Hd in Hs.
    apply Zdigits2_unique; lia. }
  apply binary_round_aux_normal; rewrite ?Hd2; lia.
Qed.

Lemma Prim2SF_two : Prim2SF (float_of_Z 2) = S754_finite false 4503599627370496 (-51).
Proof. reflexivity. Qed.

Lemma Prim2SF_zero : Prim2SF (float_of_Z 0) = S754_zero false.
Proof. reflexivity. Qed.

(** * Magnitude *)

Lemma normal_from_abs_ge_1 sx x :
  normal_from sx (-52) x →
  SFleb (S754_finite false 4503599627370496 (-52)) (SFabs x) = true.
Proof.
  intros [->|(m & e & -> & Hd & ?)]; [done|].
  unfold SFleb, SFabs, SFcompare.
  pose proof (Zdigits2_spec (Z.pos m) eq_refl) as Hs. rewrite Hd in Hs.
  destruct (Z.compare_spec (-52) e) as [_|_|?]; [|done|lia].
  rewrite Pos.compare_cont_spec. simpl.
  assert ((4503599627370496 ?= m)%positive ≠ Gt) as Hle by (apply Pos.compare_le_iff; lia).
  by destruct (_ ?= _)%positive.
Qed.

(** * Integers of at most 53 bits *)

(** A mantissa of 53 bits is not rounded. *)
Lemma binary_round_aux_exact sx mz ez :
  Zdigits2 (Z.pos mz) = 53 → -1074 ≤ ez ≤ 971 →
  binary_round_aux prec emax sx (Z.pos mz) ez loc_Exact = S754_finite sx mz ez.
Proof.
  intros Hd He. unfold binary_round_aux, shr_fexp.
  rewrite Hd, fexp_normal by lia. replace (53 + ez - 53 - ez) with 0 by lia.
  cbn [shr shr_record_of_loc shr_m loc_of_shr_record round_nearest_even].
  rewrite Hd, fexp_normal by lia. replace (53 + ez - 53 - ez) with 0 by lia.
  cbn [shr shr_record_of_loc shr_m].
  by assert ((ez <=? emax - prec) = true) as -> by (apply Z.leb_le; unfold emax, prec; lia).
Qed.

(** The double of an integer of at most 53 bits: the integer, shifted to
    53 bits. *)
Lemma binary_round_exact sx mx :
  Z.pos mx < 2 ^ 53 →
  ∃ mz ez, binary_round prec emax sx mx 0 = S754_finite sx mz ez ∧
           -52 ≤ ez ≤ 0 ∧ Z.pos mz = Z.pos mx * 2 ^ (- ez) ∧ Zdigits2 (Z.pos mz) = 53.
Proof.
  intros Hlt. unfold binary_round, shl_align.
  pose proof (Zdigits2_spec (Z.pos mx) eq_refl) as Hspec.
  pose proof (Zdigits2_pos (Z.pos mx) eq_refl) as Hpos. cbn [Zdigits2] in Hspec, Hpos.
  rewrite fexp_normal by lia. remember (Z.pos (digits2_pos mx)) as d eqn:Hdd.
  assert (d ≤ 53) as Hd53.
  { destruct (decide (d ≤ 53)); [done|].
    assert (2 ^ 53 ≤ 2 ^ (d - 1)) by (apply Z.pow_le_mono_r; lia). lia. }
  destruct (d + 0 - 53 - 0) as [|k|k] eqn:Hk; [|lia|].
  - assert (Zdigits2 (Z.pos mx) = 53) as Hd by (cbn [Zdigits2]; lia).
    exists mx, 0. rewrite binary_round_aux_exact by (done || lia).
    split_and!; try done; lia.
  - assert (Z.pos (Pos.iter xO mx k) = Z.pos mx * 2 ^ (53 - d)) as Hm
      by (rewrite shift_pos_mul; do 2 f_equal; lia).
    assert (Zdigits2 (Z.pos (Pos.iter xO mx k)) = 53) as Hd.
    { apply Zdigits2_unique; [|done]. rewrite Hm.
      pose proof (pow2_pos (53 - d)).
      assert (2 ^ (d - 1) * 2 ^ (53 - d) ≤ Z.pos mx * 2 ^ (53 - d) < 2 ^ d * 2 ^ (53 - d))
        as Hb by nia.
      rewrite <-!Z.pow_add_r in Hb by lia.
      by replace (d - 1 + (53 - d)) with (53 - 1) in Hb by lia;
        replace (d + (53 - d)) with 53 in Hb by lia. }
    exists (Pos.iter xO mx k), (d + 0 - 53). rewrite binary_round_aux_exact by (done || lia).
    split_and!; try done; try lia. rewrite Hm. do 2 f_equal. lia.
Qed.

(** [int] of such a double drops the shift. *)
Lemma float_trunc_exact sx mx mz ez :
  -52 ≤ ez ≤ 0 → Z.pos mz = Z.pos mx * 2 ^ (- ez) → Zdigits2 (Z.pos mz) = 53 →
  float_trunc (SF2Prim (S754_finite sx mz ez)) = if sx then Z.neg mx else Z.pos mx.
Proof.
  intros He Hm Hd. unfold float_trunc. rewrite Prim2SF_SF2Prim; last first.
  { apply (normal_from_valid sx (-52)); [lia|].
    right. exists mz, ez. split_and!; auto with lia. }
  rewrite Hm. destruct (Z.leb_spec 0 ez).
  - replace ez with 0 by lia. simpl. rewrite !Z.mul_1_r. by destruct sx.
  - rewrite Z.div_mul by (pose proof (pow2_pos (- ez)); lia). by destruct sx.
Qed.

(** * The laws of division on doubles *)

#[export] Instance binary64_division_laws : DivisionLaws float.
Proof.
  split; intros z Hz%Prim2SF_float_of_Z; cbn [num_eqb num_div of_int binary64].
  - rewrite FloatAxioms.eqb_spec, Prim2SF_zero. by eapply normal_from_eqb_zero.
  - rewrite FloatAxioms.eqb_spec, div_spec, Prim2SF_two, Prim2SF_zero.
    by eapply normal_from_eqb_zero, SFdiv_two_normal; [|done].
Qed.

(** Where the divisor of a true division is an [int] (lines 121 and 195)
    Python tests the integer; the model tests its conversion.  On
    doubles the two tests agree, for every integer. *)
Lemma py_truediv_of_int_binary64 (x : float) (z : Z) :
  py_truediv x (float_of_Z z) =
  if decide (z = 0) then Raise ZeroDivisionError else Ok (x / float_of_Z z)%float.
Proof.
  unfold py_truediv. destruct (decide (z = 0)) as [->|Hz]; [done|].
  pose proof (of_int_eqb_0 (F:=float) z Hz) as Hnz.
  cbn [num_eqb num_div of_int binary64] in *. by rewrite Hnz.
Qed.

(** [float(z)] of a non-zero integer has magnitude at least one, for
    every integer, however large: it is not rounded to zero, and neither
    is its half.  So the divisions of the renderer by a converted
    dimension, by half of one and by the magnification never divide by
    zero on doubles. *)
Theorem float_of_Z_away_from_zero z :
  z ≠ 0 →
  (1 <=? abs (float_of_Z z))%float = true ∧
  (float_of_Z z =? 0)%float = false ∧
  (float_of_Z z / 2 =? 0)%float = false.
Proof.
  intros Hz. change 0%float with (float_of_Z 0). change 2%float with (float_of_Z 2).
  split_and!.
  - rewrite leb_spec, abs_spec. by eapply normal_from_abs_ge_1, Prim2SF_float_of_Z.
  - exact (of_int_eqb_0 (F:=float) z Hz).
  - exact (half_eqb_0 (F:=float) z Hz).
Qed.

Lemma float_of_Z_away_from_zero_witness :
  (1 <=? abs (float_of_Z (-3)))%float = true ∧
  (float_of_Z (-3) =? 0)%float = false ∧
  (float_of_Z (-3) / 2 =? 0)%float = false.
Proof. apply (float_of_Z_away_from_zero (-3)). lia. Defined.

(** An integer below [2 ^ 53] in magnitude converts to a double
    exactly: [int(float(z)) == z].  Pixel indices, dimensions and
    iteration counts are such integers. *)
Theorem int_float_roundtrip z : Z.abs z < 2 ^ 53 → float_trunc (float_of_Z z) = z.
Proof.
  destruct z as [|mx|mx]; [done|intros Hz..]; unfold float_of_Z, binary_normalize.
  - destruct (binary_round_exact false mx) as (mz & ez & -> & ? & ? & ?); [lia|].
    by erewrite float_trunc_exact.
  - destruct (binary_round_exact true mx) as (mz & ez & -> & ? & ? & ?); [lia|].
    by erewrite float_trunc_exact.
Qed.

Lemma int_float_roundtrip_witness :
  float_trunc (float_of_Z (-9007199254740991)) = -9007199254740991.
Proof. apply (int_float_roundtrip (-9007199254740991)). lia. Defined.

(** Above [2 ^ 53] the conversion rounds, to even on a tie; from
    [2 ^ 1024] on the model converts to an infinity, where Python raises
    [OverflowError]. *)
Example float_of_Z_rounds :
  float_trunc (float_of_Z 9007199254740993) = 9007199254740992 ∧
  float_of_Z (2 ^ 1024) = infinity.
Proof. by vm_compute. Qed.
