(* ===== verification/Text.v ===== *)
(** * Text: the strings the renderer builds

    The progress message of line 29 of [src/Fractals.py], formatted at
    lines 92-94 and 204-206, and the file name of lines 216-220.  Python's
    [str] of an [int] is stdpp's [pretty]; [str] of a [float] is the
    interface [Repr], with the instance [float_repr] for doubles: the
    shortest decimal that rounds to the double, in the layout of
    [float.__repr__].  A string is the sequence of the bytes of its UTF-8
    encoding, as the file system sees a file name.

    Theorems: the message determines the percentage; the file name
    determines the image size, begins with no separator and so is joined
    below the image directory; the strings of the default view on
    doubles. *)

From Stdlib Require Import ZArith Floats Ascii String Lia.
From stdpp Require Import base tactics list numbers strings pretty.
From S2P Require Import Prelude Numeric.

#[local] Open Scope Z_scope.

(** * Definitions *)

(** ** [str] *)

(** [float.__repr__], which [str] and [format] apply to a float. *)
Class Repr (F : Type) : Type := repr : F → string.
#[global] Hint Mode Repr ! : typeclass_instances.

(** [str(n)], also what [format] substitutes for a field without a format
    specification. *)
Definition py_str {F} `{Repr F} (n : number F) : string :=
  match n with
  | PyInt z => pretty z
  | PyFloat x => repr x
  end.

(** ** The shortest decimal of a double *)

(** [d * 10^k] compared with [x * 2^e]. *)
Definition scaled_compare (d k x e : Z) : comparison :=
  (d * 10 ^ Z.max k 0 * 2 ^ Z.max (- e) 0 ?= x * 2 ^ Z.max e 0 * 10 ^ Z.max (- k) 0).

(** The integer part of [x * 2^e / 10^k]. *)
Definition scaled_floor (x e k : Z) : Z :=
  (x * 2 ^ Z.max e 0 * 10 ^ Z.max (- k) 0) `div` (2 ^ Z.max (- e) 0 * 10 ^ Z.max k 0).

(** The largest [t] with [10^t <= x * 2^e], from an estimate [t]. *)
Fixpoint adjust_log10 (fuel : nat) (x e t : Z) : Z :=
  match fuel with
  | O => t
  | S fuel =>
      match scaled_compare 1 t x e with
      | Gt => adjust_log10 fuel x e (t - 1)
      | _ => match scaled_compare 1 (t + 1) x e with
             | Gt => t
             | _ => adjust_log10 fuel x e (t + 1)
             end
      end
  end.

Definition floor_log10 (x e : Z) : Z :=
  adjust_log10 4 x e (((Z.log2 x + e) * 30103) `div` 100000).

(** Whether [d * 10^k] lies between [lo * 2^e] and [hi * 2^e], the
    midpoints to the neighbouring doubles; the midpoints themselves round
    to the double when its significand is even ([closed]). *)
Definition rounds_here (lo hi e : Z) (closed : bool) (d k : Z) : bool :=
  match scaled_compare d k lo e, scaled_compare d k hi e with
  | Gt, Lt => true
  | Eq, Lt | Gt, Eq => closed
  | _, _ => false
  end.

(** The decimal of [n] digits that rounds to [x * 2^e] and is nearest to
    it, when there is one. *)
Definition candidate (lo x hi e : Z) (closed : bool) (t n : Z) : option (Z * Z) :=
  let k := t - (n - 1) in
  let d := scaled_floor x e k in
  match rounds_here lo hi e closed d k, rounds_here lo hi e closed (d + 1) k with
  | false, false => None
  | true, false => Some (d, k)
  | false, true => Some (d + 1, k)
  | true, true =>
      match scaled_compare (2 * d + 1) k (2 * x) e with
      | Lt => Some (d + 1, k)
      | Gt => Some (d, k)
      | Eq => Some (if Z.even d then d else d + 1, k)
      end
  end.

(** The first number of digits, from [n] on, that has a candidate;
    seventeen digits always have one. *)
Fixpoint shortest (lo x hi e : Z) (closed : bool) (fuel : nat) (t n : Z) : Z * Z :=
  match fuel with
  | O => (scaled_floor x e (t - 16), t - 16)
  | S fuel =>
      match candidate lo x hi e closed t n with
      | Some dk => dk
      | None => shortest lo x hi e closed fuel t (n + 1)
      end
  end.

(** Trailing zeros move to the exponent. *)
Fixpoint strip_zeros (fuel : nat) (d k : Z) : Z * Z :=
  match fuel with
  | O => (d, k)
  | S fuel =>
      if decide (d `mod` 10 = 0 ∧ d ≠ 0)
      then strip_zeros fuel (d `div` 10) (k + 1) else (d, k)
  end.

(** The digits of the shortest decimal that rounds to [m * 2^e], and the
    position of its decimal point. *)
Definition dtoa (m : positive) (e : Z) : string * Z :=
  let x := 4 * Z.pos m in
  let lo := if decide (Z.pos m = 2 ^ 52 ∧ -1074 < e) then x - 1 else x - 2 in
  let hi := x + 2 in
  let '(d, k) := shortest lo x hi (e - 2) (Z.even (Z.pos m)) 17
                   (floor_log10 x (e - 2)) 1 in
  let '(d, k) := strip_zeros 17 d k in
  let digits := pretty d in
  (digits, k + Z.of_nat (String.length digits)).

Fixpoint zeros (n : nat) : string :=
  match n with
  | O => ""
  | S n => String "0" (zeros n)
  end.

Definition string_take (n : nat) (s : string) : string := substring 0 n s.

Definition string_drop (n : nat) (s : string) : string :=
  substring n (String.length s - n) s.

(** The layout of [repr]: an exponent when the decimal point would lie
    more than three places before the digits or beyond the sixteenth;
    otherwise a point inside the digits, or [.0] after them. *)
Definition layout (digits : string) (decpt : Z) : string :=
  let n := Z.of_nat (String.length digits) in
  if decide (decpt ≤ -4 ∨ 16 < decpt) then
    let exponent := decpt - 1 in
    let mantissa := if decide (n = 1) then digits
                    else string_take 1 digits +:+ "." +:+ string_drop 1 digits in
    mantissa +:+ "e" +:+ (if decide (exponent < 0) then "-" else "+")
             +:+ (if decide (Z.abs exponent < 10) then "0" else "")
             +:+ pretty (Z.abs exponent)
  else if decide (decpt ≤ 0) then "0." +:+ zeros (Z.to_nat (- decpt)) +:+ digits
  else if decide (decpt < n) then
    string_take (Z.to_nat decpt) digits +:+ "." +:+ string_drop (Z.to_nat decpt) digits
  else digits +:+ zeros (Z.to_nat (decpt - n)) +:+ ".0".

(** [repr] of a double. *)
Definition float_repr (x : float) : string :=
  match Prim2SF x with
  | S754_zero s => if s then "-0.0" else "0.0"
  | S754_infinity s => if s then "-inf" else "inf"
  | S754_nan => "nan"
  | S754_finite s m e =>
      let '(digits, decpt) := dtoa m e in
      (if s then "-" else "") +:+ layout digits decpt
  end.

#[export] Instance binary64_repr : Repr float := float_repr.

(** ** The message and the file name *)

Section text.
Context {F : Type} `{Repr F}.

(** Line 29 with the [format] of lines 92-94 and 204-206:
    ['Your {cr}+{ci}i image is {p} percent complete.'.format(...)]. *)
Definition P_STRING (cr ci : number F) (p : Z) : string :=
  "Your " +:+ py_str cr +:+ "+" +:+ py_str ci +:+ "i image is " +:+ pretty p
          +:+ " percent complete.".

(** [os.path.join(a, b)] on POSIX. *)
Definition os_path_join (a b : string) : string :=
  if String.prefix "/" b then b
  else if decide (a = "") then b
  else if decide (String.get (String.length a - 1) a = Some "/"%char) then a +:+ b
  else a +:+ "/" +:+ b.

(** Lines 216-219. *)
Definition IMAGE_F (CENTER : number F * number F) (TOP : number F)
    (IMAGE_SIZE : Z * Z) : string :=
  "mandelbrot center=" +:+ py_str CENTER.1 +:+ "+" +:+ py_str CENTER.2
    +:+ "i, top=" +:+ py_str TOP +:+ "i, " +:+ pretty IMAGE_SIZE.1 +:+ "Ã—"
    +:+ pretty IMAGE_SIZE.2 +:+ ".png".

(** Line 220. *)
Definition IMAGE_PATH (IMAGE_DIR : string) (CENTER : number F * number F)
    (TOP : number F) (IMAGE_SIZE : Z * Z) : string :=
  os_path_join IMAGE_DIR (IMAGE_F CENTER TOP IMAGE_SIZE).

End text.

(** The characters of [str] of an [int]. *)
Definition sign_or_digit (c : ascii) : Prop :=
  c ∈ list_ascii_of_string "-0123456789".

#[export] Instance sign_or_digit_dec c : Decision (sign_or_digit c).
Proof. unfold sign_or_digit. apply _. Defined.

(** * Strings as lists of characters *)

Lemma list_ascii_append s t :
  list_ascii_of_string (s +:+ t) = list_ascii_of_string s ++ list_ascii_of_string t.
Proof. induction s as [|c s IH]; [done|]. simpl. by f_equal. Qed.

Lemma list_ascii_inj s t : list_ascii_of_string s = list_ascii_of_string t → s = t.
Proof.
  intros Heq. by rewrite <-(string_of_list_ascii_of_string s),
    <-(string_of_list_ascii_of_string t), Heq.
Qed.

(** Cancellation of a common suffix. *)
Lemma append_inj_r s1 s2 t : s1 +:+ t = s2 +:+ t → s1 = s2.
Proof.
  intros Heq. apply list_ascii_inj.
  apply (f_equal list_ascii_of_string) in Heq.
  rewrite !list_ascii_append in Heq. by apply app_inv_tail in Heq.
Qed.

(** Two lists that agree up to a separator which occurs in neither
    prefix. *)
Lemma app_sep_inj {A} (P : A → Prop) (l1 l2 t1 t2 : list A) c :
  Forall P l1 → Forall P l2 → ¬ P c →
  l1 ++ c :: t1 = l2 ++ c :: t2 → l1 = l2 ∧ t1 = t2.
Proof.
  intros H1 H2 Hc. revert l2 H2.
  induction H1 as [|a l1 Ha _ IH]; intros [|b l2] Hl2 Heq; simplify_eq/=.
  - done.
  - by inversion_clear Hl2.
  - done.
  - inversion_clear Hl2. by destruct (IH l2) as [-> ->].
Qed.

Lemma append_sep_inj (P : ascii → Prop) s1 s2 t1 t2 c :
  Forall P (list_ascii_of_string s1) → Forall P (list_ascii_of_string s2) → ¬ P c →
  s1 +:+ String c t1 = s2 +:+ String c t2 → s1 = s2 ∧ t1 = t2.
Proof.
  intros H1 H2 Hc Heq. apply (f_equal list_ascii_of_string) in Heq.
  rewrite !list_ascii_append in Heq. cbn in Heq.
  destruct (app_sep_inj P _ _ _ _ _ H1 H2 Hc Heq) as [? ?].
  split; by apply list_ascii_inj.
Qed.

Lemma append_String c s t : String c s +:+ t = String c (s +:+ t).
Proof. done. Qed.

Lemma append_assoc s t u : (s +:+ t) +:+ u = s +:+ t +:+ u.
Proof. induction s as [|c s IH]; [done|]. rewrite !append_String. by f_equal. Qed.

Lemma length_append s t : String.length (s +:+ t) = (String.length s + String.length t)%nat.
Proof. induction s as [|c s IH]; [done|]. rewrite append_String. simpl. by f_equal. Qed.

(** The last character of a string is that of its non-empty suffix. *)
Lemma get_last_append s c t :
  String.get (String.length (s +:+ String c t) - 1) (s +:+ String c t)
  = String.get (String.length t) (String c t).
Proof.
  induction s as [|a s IH]; [simpl; by rewrite Nat.sub_0_r|].
  rewrite append_String, <-IH. cbn [String.length]. rewrite length_append.
  cbn [String.length]. rewrite Nat.sub_succ, Nat.sub_0_r, Nat.add_succ_r.
  simpl. by rewrite Nat.sub_0_r.
Qed.

(** * [str] of an integer *)

Ltac solve_char := apply (bool_decide_unpack _); by vm_compute.

Lemma pretty_N_char_digit x : sign_or_digit (pretty_N_char x).
Proof. unfold pretty_N_char. repeat case_match; solve_char. Qed.

Lemma pretty_N_go_chars x s :
  Forall sign_or_digit (list_ascii_of_string s) →
  Forall sign_or_digit (list_ascii_of_string (pretty_N_go x s)).
Proof.
  revert s. induction (N.lt_wf_0 x) as [x _ IH]; intros s Hs.
  destruct (decide (x = 0)%N) as [->|]; [done|].
  rewrite pretty_N_go_step by lia. apply IH; [apply N.div_lt; lia|].
  constructor; [apply pretty_N_char_digit|done].
Qed.

Lemma pretty_N_chars (x : N) : Forall sign_or_digit (list_ascii_of_string (pretty x)).
Proof.
  unfold pretty, pretty_N. case_decide; [repeat constructor; solve_char|].
  by apply pretty_N_go_chars.
Qed.

Lemma pretty_Z_chars (z : Z) : Forall sign_or_digit (list_ascii_of_string (pretty z)).
Proof.
  destruct z as [|p|p]; unfold pretty, pretty_Z.
  - apply (pretty_N_chars 0).
  - apply (pretty_N_chars (N.pos p)).
  - rewrite list_ascii_append. apply Forall_app. split; [|apply (pretty_N_chars (N.pos p))].
    repeat constructor; solve_char.
Qed.

(** * The message and the file name *)

Section text_theorems.
Context {F : Type} `{Repr F}.

(** The progress message determines the percentage it announces: the
    messages of one view for two different percentages differ. *)
Theorem P_STRING_inj (cr ci : number F) (p p' : Z) :
  p ≠ p' → P_STRING cr ci p ≠ P_STRING cr ci p'.
Proof.
  unfold P_STRING. intros Hp Heq. apply Hp.
  do 5 apply (inj (String.append _)) in Heq.
  by apply append_inj_r, (inj pretty) in Heq.
Qed.

(** C35: For one view, the file name determines the size of the image:
    renders of different sizes are written to different files. *)
Theorem IMAGE_F_size_inj (CENTER : number F * number F) (TOP : number F)
    (size size' : Z * Z) :
  size ≠ size' → IMAGE_F CENTER TOP size ≠ IMAGE_F CENTER TOP size'.
Proof.
  unfold IMAGE_F. intros Hsize Heq. apply Hsize.
  do 7 apply (inj (String.append _)) in Heq.
  apply (append_sep_inj sign_or_digit) in Heq as [Hw Hh];
    [|apply pretty_Z_chars..|by intros ?%(bool_decide_pack _)].
  injection Hh as Hh%append_inj_r.
  destruct size, size'. simpl in *. f_equal; by apply (inj pretty).
Qed.

(** The file name begins with a letter, so [os.path.join] keeps the
    directory. *)
Lemma IMAGE_F_relative (CENTER : number F * number F) (TOP : number F) (size : Z * Z) :
  String.prefix "/" (IMAGE_F CENTER TOP size) = false.
Proof. done. Qed.

(** Below a directory whose name ends in a letter, the image is written
    under the file name of lines 216-219. *)
Lemma IMAGE_PATH_below (prefix : string) (c : ascii) (CENTER : number F * number F)
    (TOP : number F) (size : Z * Z) :
  c ≠ "/"%char →
  IMAGE_PATH (prefix +:+ String c "") CENTER TOP size
  = (prefix +:+ String c "") +:+ "/" +:+ IMAGE_F CENTER TOP size.
Proof.
  intros Hc. unfold IMAGE_PATH, os_path_join. rewrite IMAGE_F_relative.
  rewrite decide_False by (by destruct prefix).
  rewrite decide_False; [done|]. rewrite get_last_append. simpl. congruence.
Qed.

End text_theorems.

(** * Doubles *)

(** [repr] of doubles of each layout. *)
Example float_repr_examples :
  map float_repr
    [ (-0x1.51eb851eb851fp-1)%float; 0x1.999999999999ap+0%float; 0x1.3333333333334p-2%float;
      0x1p+0%float; 0x1.9p+6%float; 0x1.c6bf52634p+49%float; 0x1.1c37937e08p+53%float;
      0x1.a36e2eb1c432dp-14%float; 0x1.4f8b588e368f1p-17%float;
      0x0.0000000000001p-1022%float; 0x1.fffffffffffffp+1023%float;
      (-0x0p+0)%float; infinity ]
  = [ "-0.66"; "1.6"; "0.30000000000000004"; "1.0"; "100.0"; "1000000000000000.0"; "1e+16";
      "0.0001"; "1e-05"; "5e-324"; "1.7976931348623157e+308"; "-0.0"; "inf" ].
Proof. by vm_compute. Qed.

(** * Witnesses *)

Lemma P_STRING_inj_witness :
  P_STRING (F:=float) (PyFloat (-0x1.51eb851eb851fp-1)%float) (PyInt 0) 100
  ≠ P_STRING (F:=float) (PyFloat (-0x1.51eb851eb851fp-1)%float) (PyInt 0) 120.
Proof. by apply P_STRING_inj. Defined.

Lemma IMAGE_F_size_inj_witness :
  IMAGE_F (F:=float) (PyInt 0, PyInt 0) (PyInt 2) (4, 2)
  ≠ IMAGE_F (F:=float) (PyInt 0, PyInt 0) (PyInt 2) (2, 4).
Proof. by apply IMAGE_F_size_inj. Defined.
