(* ===== verification/Levels.v ===== *)
(** * Levels: the brightness table and the bucket search

    [DIVERGENCE_LEVELS] is the list [mandelbrot] computes at lines 72-73
    of [src/Fractals.py]; [divergence_multiplier] is the [min]-then-[index]
    search of lines 151-152 that turns the index [d_i] of the escaping
    iteration into a position of that list.  The theorems give the shape
    of the table (255 entries, non-decreasing, ending in the budget), show
    that the search never raises inside the loop that calls it, that it is
    the first-match search [first_ge] of the prelude, that it is monotone,
    and give its closed form. *)

From Stdlib Require Import ZArith Lia Sorted.
From stdpp Require Import base tactics list numbers.
From S2P Require Import Prelude.

#[local] Open Scope Z_scope.

(** * Definitions *)

(** Lines 72-73:
    [[self.DIVERGENCE_ITERATIONS//x for x in reversed(range(1, 256))]]. *)
Definition divergence_levels (DIVERGENCE_ITERATIONS : Z) : list Z :=
  (λ x, DIVERGENCE_ITERATIONS `div` x) <$> reverse (range 1 256).

(** Lines 151-152:
    [d_min = min([x for x in self.DIVERGENCE_LEVELS if d_i+1 <= x])] and
    [self.DIVERGENCE_LEVELS.index(d_min)]. *)
Definition divergence_multiplier (LEVELS : list Z) (d_i : Z) : result nat :=
  d_min ← py_min (filter (λ x, d_i + 1 ≤ x) LEVELS);
  py_index d_min LEVELS.

(** The closed form of the search on the table of budget [D]. *)
Definition bucket (D d_i : Z) : nat :=
  Z.to_nat (255 - Z.min 255 (D `div` (d_i + 1))).

(** * The table *)

Lemma DIVERGENCE_LEVELS_length D : length (divergence_levels D) = 255%nat.
Proof.
  unfold divergence_levels. by rewrite length_fmap, length_reverse, length_range.
Qed.

Lemma DIVERGENCE_LEVELS_lookup D (k : nat) :
  (k < 255)%nat → divergence_levels D !! k = Some (D `div` (255 - Z.of_nat k)).
Proof.
  intros Hk. unfold divergence_levels.
  rewrite list_lookup_fmap, reverse_lookup, length_range by (rewrite length_range; lia).
  assert (range 1 256 !! (Z.to_nat (256 - 1) - S k)%nat = Some (255 - Z.of_nat k)) as ->;
    [|done].
  apply lookup_range. lia.
Qed.

Lemma DIVERGENCE_LEVELS_lookup_inv D (k : nat) x :
  divergence_levels D !! k = Some x → (k < 255)%nat ∧ x = D `div` (255 - Z.of_nat k).
Proof.
  intros Hk. assert (k < 255)%nat as Hlt.
  { rewrite <- (DIVERGENCE_LEVELS_length D). by eapply lookup_lt_Some. }
  rewrite DIVERGENCE_LEVELS_lookup in Hk by done. by injection Hk as <-.
Qed.

(** The table has 255 thresholds, the k-th being the budget floor-divided
    by [255 - k]; in particular the last threshold is the budget itself. *)
Theorem DIVERGENCE_LEVELS_shape D :
  length (divergence_levels D) = 255%nat ∧
  (∀ k : nat, (k < 255)%nat →
     divergence_levels D !! k = Some (D `div` (255 - Z.of_nat k))) ∧
  divergence_levels D !! 254%nat = Some D.
Proof.
  split_and!; [apply DIVERGENCE_LEVELS_length | apply DIVERGENCE_LEVELS_lookup |].
  rewrite DIVERGENCE_LEVELS_lookup by lia. f_equal. apply Z.div_1_r.
Qed.

Lemma levels_nondecreasing D : 0 ≤ D → nondecreasing (divergence_levels D).
Proof.
  intros HD i j x y [Hi ->]%DIVERGENCE_LEVELS_lookup_inv
    [Hj ->]%DIVERGENCE_LEVELS_lookup_inv Hij.
  apply Z.div_le_compat_l; lia.
Qed.

(** For a non-negative budget the thresholds are sorted in ascending
    order, as the search of lines 151-152 assumes when it takes the index
    of the minimum. *)
Theorem DIVERGENCE_LEVELS_sorted D :
  0 ≤ D → StronglySorted Z.le (divergence_levels D).
Proof. intros. by apply nondecreasing_StronglySorted, levels_nondecreasing. Qed.

Lemma DIVERGENCE_LEVELS_sorted_witness :
  StronglySorted Z.le (divergence_levels 1600).
Proof. apply (DIVERGENCE_LEVELS_sorted 1600). lia. Defined.

(** * The bucket search *)

(** The first threshold that reaches [d_i + 1] is at position
    [bucket D d_i]. *)
Lemma first_ge_bucket D d_i :
  0 ≤ d_i < D → first_ge (d_i + 1) (divergence_levels D) = Some (bucket D d_i).
Proof.
  intros Hd. unfold bucket.
  assert (1 ≤ D `div` (d_i + 1)) by (apply Z.div_le_lower_bound; lia).
  set (x := Z.min 255 (D `div` (d_i + 1))).
  assert (1 ≤ x ≤ 255 ∧ x ≤ D `div` (d_i + 1)) as [Hx Hxq] by lia.
  apply first_ge_Some. exists (D `div` x). split_and!.
  - rewrite DIVERGENCE_LEVELS_lookup by lia. do 2 f_equal. lia.
  - apply Z.div_le_lower_bound; [lia|].
    transitivity (D `div` (d_i + 1) * (d_i + 1)); [nia|].
    rewrite Z.mul_comm. apply Z.mul_div_le. lia.
  - intros j y [Hj ->]%DIVERGENCE_LEVELS_lookup_inv Hjk.
    apply Z.div_lt_upper_bound; [lia|].
    assert (D `div` (d_i + 1) + 1 ≤ 255 - Z.of_nat j) as Hq by lia.
    pose proof (Z.mul_succ_div_gt D (d_i + 1)). nia.
Qed.

Lemma divergence_multiplier_bucket D d_i :
  0 ≤ d_i < D →
  divergence_multiplier (divergence_levels D) d_i = Ok (bucket D d_i).
Proof.
  intros Hd. apply min_index_first_ge.
  - apply levels_nondecreasing. lia.
  - by apply first_ge_bucket.
Qed.

(** C4: inside the escape loop, where [0 <= d_i < DIVERGENCE_ITERATIONS],
    the [min]/[index] search of lines 151-152 returns
    [max(0, 255 - DIVERGENCE_ITERATIONS // (d_i + 1))]. *)
Theorem divergence_multiplier_closed_form D d_i :
  0 ≤ d_i < D →
  divergence_multiplier (divergence_levels D) d_i =
  Ok (Z.to_nat (Z.max 0 (255 - D `div` (d_i + 1)))).
Proof.
  intros Hd. rewrite divergence_multiplier_bucket by done.
  unfold bucket. do 2 f_equal. lia.
Qed.

Lemma divergence_multiplier_closed_form_witness :
  divergence_multiplier (divergence_levels 10) 0 =
  Ok (Z.to_nat (Z.max 0 (255 - 10 `div` (0 + 1)))).
Proof. apply (divergence_multiplier_closed_form 10 0). lia. Defined.

(** C17: the search implements the reference first-match search: it
    returns [k] exactly when [k] is the first position whose threshold is
    at least [d_i + 1]. *)
Theorem divergence_multiplier_refines_first_ge D d_i k :
  0 ≤ d_i < D →
  divergence_multiplier (divergence_levels D) d_i = Ok k ↔
  first_ge (d_i + 1) (divergence_levels D) = Some k.
Proof.
  intros Hd. rewrite divergence_multiplier_bucket, first_ge_bucket by done.
  split; congruence.
Qed.

Lemma divergence_multiplier_refines_first_ge_witness :
  divergence_multiplier (divergence_levels 1600) 7 = Ok 55%nat ↔
  first_ge (7 + 1) (divergence_levels 1600) = Some 55%nat.
Proof. apply (divergence_multiplier_refines_first_ge 1600 7 55). lia. Defined.

Lemma bucket_lt D d_i : 0 ≤ d_i < D → (bucket D d_i < 255)%nat.
Proof.
  intros Hd. unfold bucket.
  assert (1 ≤ D `div` (d_i + 1)) by (apply Z.div_le_lower_bound; lia). lia.
Qed.

Lemma bucket_mono D d1 d2 : 0 ≤ d1 ≤ d2 → 0 ≤ D → (bucket D d1 ≤ bucket D d2)%nat.
Proof.
  intros Hd HD. unfold bucket.
  assert (D `div` (d2 + 1) ≤ D `div` (d1 + 1)) by (apply Z.div_le_compat_l; lia).
  lia.
Qed.

Lemma divergence_multiplier_Ok D d_i :
  0 ≤ d_i < D →
  ∃ k, divergence_multiplier (divergence_levels D) d_i = Ok k ∧ (k < 255)%nat.
Proof.
  intros Hd. exists (bucket D d_i).
  split; [by apply divergence_multiplier_bucket | by apply bucket_lt].
Qed.

(** Inside the escape loop the search never raises [ValueError], and
    what it returns is a position of the table: it is below 255, the
    divisor line 185 normalises it with. *)
Theorem divergence_multiplier_never_raises D d_i :
  0 ≤ d_i < D →
  ∃ k, divergence_multiplier (divergence_levels D) d_i = Ok k ∧
       (k < length (divergence_levels D))%nat.
Proof.
  intros Hd. rewrite DIVERGENCE_LEVELS_length. by apply divergence_multiplier_Ok.
Qed.

Lemma divergence_multiplier_never_raises_witness :
  ∃ k, divergence_multiplier (divergence_levels 10) 9 = Ok k ∧
       (k < length (divergence_levels 10))%nat.
Proof. apply (divergence_multiplier_never_raises 10 9). lia. Defined.

(** Bucketing is monotone: a point that escapes at an earlier
    iteration never receives a higher level than one that escapes later,
    for the same budget. *)
Theorem divergence_multiplier_monotone D d1 d2 k1 k2 :
  0 ≤ d1 ≤ d2 → d2 < D →
  divergence_multiplier (divergence_levels D) d1 = Ok k1 →
  divergence_multiplier (divergence_levels D) d2 = Ok k2 →
  (k1 ≤ k2)%nat.
Proof.
  intros Hd HD. rewrite !divergence_multiplier_bucket by lia.
  intros [= <-] [= <-]. apply bucket_mono; lia.
Qed.

Lemma divergence_multiplier_monotone_witness : (0 ≤ 55)%nat.
Proof.
  apply (divergence_multiplier_monotone 1600 0 7 0 55); (lia || by vm_compute).
Defined.

(** On any list, all the search can raise is [ValueError]. *)
Lemma divergence_multiplier_Raise_inv LEVELS d_i e :
  divergence_multiplier LEVELS d_i = Raise e → e = ValueError.
Proof.
  unfold divergence_multiplier.
  intros [[_ ->]%py_min_Raise|(d_min & _ & ?%py_index_Raise_inv)]%bind_Raise_inv; done.
Qed.

(** Outside the loop's range the search can raise: with a count above the
    budget no threshold qualifies and [min] gets an empty list. *)
Lemma divergence_multiplier_raises D d_i :
  0 ≤ D ≤ d_i → divergence_multiplier (divergence_levels D) d_i = Raise ValueError.
Proof.
  intros Hd. unfold divergence_multiplier.
  assert (filter (λ x, d_i + 1 ≤ x) (divergence_levels D) = []) as ->; [|done].
  apply elem_of_nil_inv.
  intros x [Hx [k [Hk ->]%DIVERGENCE_LEVELS_lookup_inv]%list_elem_of_lookup]%list_elem_of_filter.
  enough (D `div` (255 - Z.of_nat k) ≤ D) by lia.
  apply Z.div_le_upper_bound; nia.
Qed.
