(* ===== verification/Geometry.v ===== *)
(** * Geometry: the state of a render and the coordinate mapper

    The record [Fractal] holds the attributes that [mandelbrot] stores on
    [self] (lines 45 and 70-83 of [src/Fractals.py]); [set_attributes] is
    that block of assignments.  [pixels_to_coordinates] (lines 246-260)
    maps a sub-pixel position to a point of the complex plane and
    [coordinates_good] (lines 262-268) is the radius-2 test.

    The definitions are generic in the arithmetic.  The theorems of the
    second half hold at [exact]: the mapper is affine with one positive
    slope for both axes, it sends the centre pixel to the conjugate of the
    centre and the top edge to the imaginary coordinate [- TOP], it raises
    exactly when the height is zero, and the escape test is the closed
    disc of radius 2.  Evaluations at [binary64] accompany them. *)

From Stdlib Require Import ZArith Floats Reals Lra Lia.
From stdpp Require Import base tactics list numbers.
From S2P Require Import Prelude Numeric Levels.

(** * Definitions *)

Section geometry.
Context {F : Type} `{Number F}.
#[local] Open Scope num_scope.

(** The attributes of [self] a render reads. *)
Record Fractal : Type := {
  SPEAK : bool;
  MAGNIFICATION : Z;
  DIVERGENCE_ITERATIONS : Z;
  DIVERGENCE_LEVELS : list Z;
  IMAGE_SIZE : Z * Z;
  CENTER : F * F;
  TOP : F;
  CENTER_PIXEL : Z * Z;
}.

(** Lines 45 and 70-83: the assignments to [self]. *)
Definition set_attributes (image_size : Z * Z) (center : F * F) (top : F)
    (magnification divergence_iterations : Z) (speak : bool) : Fractal := {|
  SPEAK := speak;
  MAGNIFICATION := magnification;
  DIVERGENCE_ITERATIONS := divergence_iterations;
  DIVERGENCE_LEVELS := divergence_levels divergence_iterations;
  IMAGE_SIZE := image_size;
  CENTER := center;
  TOP := top;
  CENTER_PIXEL := (to_int (of_int image_size.1 / 2), to_int (of_int image_size.2 / 2));
|}.

(** Lines 246-260.  The only division that can raise is the one by
    [self.IMAGE_SIZE[1] / 2]. *)
Definition pixels_to_coordinates (self : Fractal) (pixel_x pixel_y : F) : result (F * F) :=
  unit_per_pixel ← py_truediv (TOP self - (CENTER self).2)
                              (of_int (IMAGE_SIZE self).2 / 2);
  let real := (pixel_x - of_int (CENTER_PIXEL self).1) * unit_per_pixel
              + (CENTER self).1 in
  let imaginary := (pixel_y - of_int (CENTER_PIXEL self).2) * unit_per_pixel
                   - (CENTER self).2 in
  Ok (real, imaginary).

(** Lines 262-268: [math.sqrt(real**2 + imaginary**2) <= 2]. *)
Definition coordinates_good (real imaginary : F) : bool :=
  num_sqrt (real * real + imaginary * imaginary) <=? 2.

End geometry.

Arguments Fractal F : clear implicits.

(** * The mapper in exact arithmetic *)

Section exact_geometry.
#[local] Open Scope R_scope.
Implicit Types (self : Fractal R) (px py : R).

(** The slope of the mapper: the plane's units per pixel. *)
Definition unit_per_pixel self : R :=
  (TOP self - (CENTER self).2) / (IZR (IMAGE_SIZE self).2 / 2).

Lemma half_height_zero (h : Z) : IZR h / 2 = 0 ↔ h = 0%Z.
Proof.
  split; [|intros ->; lra]. intros Hh. apply eq_IZR. lra.
Qed.

(** The mapper, with the division carried out. *)
Lemma pixels_to_coordinates_exact self px py :
  (IMAGE_SIZE self).2 ≠ 0%Z →
  pixels_to_coordinates self px py =
  Ok ((px - IZR (CENTER_PIXEL self).1) * unit_per_pixel self + (CENTER self).1,
      (py - IZR (CENTER_PIXEL self).2) * unit_per_pixel self - (CENTER self).2).
Proof.
  intros Hh. unfold pixels_to_coordinates. rewrite py_truediv_exact.
  exact_arith. rewrite decide_False; [done|]. by rewrite half_height_zero.
Qed.

(** Truncating half of an even integer gives its half. *)
Lemma R_trunc_IZR_half (n : Z) : (n `mod` 2 = 0)%Z → IZR (R_trunc (IZR n / 2)) = IZR n / 2.
Proof.
  intros Hn. rewrite (Z.div_mod n 2), Hn, Z.add_0_r, mult_IZR by lia.
  replace (2 * IZR (n `div` 2) / 2) with (IZR (n `div` 2)) by lra.
  by rewrite R_trunc_IZR.
Qed.

Lemma R_trunc_half_even (n : Z) : (n `mod` 2 = 0)%Z → R_trunc (IZR n / 2) = (n `div` 2)%Z.
Proof.
  intros Hn. apply eq_IZR. rewrite R_trunc_IZR_half by done.
  rewrite (Z.div_mod n 2) at 1 by lia. rewrite Hn, Z.add_0_r, mult_IZR. lra.
Qed.

Lemma set_attributes_CENTER_PIXEL w h center top m d s :
  (w `mod` 2 = 0)%Z → (h `mod` 2 = 0)%Z →
  CENTER_PIXEL (set_attributes (w, h) center top m d s) = ((w `div` 2)%Z, (h `div` 2)%Z).
Proof.
  intros Hw Hh. unfold set_attributes. exact_arith. simpl.
  by rewrite !R_trunc_half_even.
Qed.

Lemma unit_per_pixel_pos self :
  (0 < (IMAGE_SIZE self).2)%Z → (CENTER self).2 < TOP self → 0 < unit_per_pixel self.
Proof.
  intros Hh Htop. unfold unit_per_pixel. apply IZR_lt in Hh.
  apply Rdiv_lt_0_compat; lra.
Qed.

(** C32: in exact arithmetic the mapper raises [ZeroDivisionError] exactly
    when the image height is zero, and returns normally otherwise. *)
Theorem pixels_to_coordinates_raises_iff self px py :
  pixels_to_coordinates self px py = Raise ZeroDivisionError ↔ (IMAGE_SIZE self).2 = 0%Z.
Proof.
  destruct (decide ((IMAGE_SIZE self).2 = 0%Z)) as [Hh|Hh].
  - split; [done|]. intros _. unfold pixels_to_coordinates.
    rewrite py_truediv_exact. exact_arith.
    rewrite decide_True; [done|]. by rewrite half_height_zero.
  - rewrite pixels_to_coordinates_exact by done. split; [done | by intros ?].
Qed.

(** The mapper of a configured render of even, non-zero size, in terms of
    the arguments of [mandelbrot]. *)
Lemma pixels_to_coordinates_configured w h center top m d s px py :
  (w `mod` 2 = 0)%Z → (h `mod` 2 = 0)%Z → h ≠ 0%Z →
  pixels_to_coordinates (set_attributes (w, h) center top m d s) px py =
  Ok ((px - IZR w / 2) * (2 * (top - center.2) / IZR h) + center.1,
      (py - IZR h / 2) * (2 * (top - center.2) / IZR h) - center.2).
Proof.
  intros Hw Hh Hh0. rewrite pixels_to_coordinates_exact by done.
  rewrite set_attributes_CENTER_PIXEL by done. unfold unit_per_pixel. simpl.
  assert (IZR h ≠ 0) by (by apply not_0_IZR).
  rewrite <- !R_trunc_half_even, !R_trunc_IZR_half by done.
  f_equal. f_equal; field; lra.
Qed.

(** C9: in exact arithmetic the mapper sends the centre pixel of an image of even, non-zero
    size to the point [(CENTER[0], - CENTER[1])]: the real part of the
    centre and the opposite of its imaginary part. *)
Theorem center_pixel_maps_to_conj_center w h center top m d s :
  (w `mod` 2 = 0)%Z → (h `mod` 2 = 0)%Z → h ≠ 0%Z →
  let self := set_attributes (w, h) center top m d s in
  pixels_to_coordinates self (IZR (CENTER_PIXEL self).1) (IZR (CENTER_PIXEL self).2)
  = Ok (center.1, - center.2).
Proof.
  intros Hw Hh Hh0 self. unfold self.
  rewrite pixels_to_coordinates_configured, set_attributes_CENTER_PIXEL by done.
  simpl. rewrite <- !R_trunc_half_even, !R_trunc_IZR_half by done.
  f_equal. f_equal; lra.
Qed.

Lemma center_pixel_maps_to_conj_center_witness :
  let self := set_attributes (4, 4)%Z (-0.66, 0) 1.6 1 10 true in
  pixels_to_coordinates self (IZR (CENTER_PIXEL self).1) (IZR (CENTER_PIXEL self).2)
  = Ok ((-0.66, 0).1, - (-0.66, 0).2).
Proof. by apply (center_pixel_maps_to_conj_center 4 4 (-0.66, 0) 1.6 1 10 true). Defined.

(** C31: in exact arithmetic the top edge of the image ([pixel_y = 0]) is mapped to the
    imaginary coordinate [- TOP], and the bottom edge ([pixel_y] the
    height) to [TOP - 2 * CENTER[1]]: the image is drawn with the
    imaginary axis pointing down. *)
Theorem top_edge_maps_to_minus_top w h center top m d s px :
  (w `mod` 2 = 0)%Z → (h `mod` 2 = 0)%Z → h ≠ 0%Z →
  let self := set_attributes (w, h) center top m d s in
  snd <$> pixels_to_coordinates self px 0 = Ok (- top) ∧
  snd <$> pixels_to_coordinates self px (IZR h) = Ok (top - 2 * center.2).
Proof.
  intros Hw Hh Hh0 self. unfold self.
  rewrite !pixels_to_coordinates_configured by done. simpl.
  assert (IZR h ≠ 0) by (by apply not_0_IZR).
  split; f_equal; field; lra.
Qed.

Lemma top_edge_maps_to_minus_top_witness :
  let self := set_attributes (4, 4)%Z (-0.66, 0) 1.6 1 10 true in
  snd <$> pixels_to_coordinates self 0 0 = Ok (- (1.6)) ∧
  snd <$> pixels_to_coordinates self 0 (IZR 4) = Ok (1.6 - 2 * (-0.66, 0).2).
Proof. by apply (top_edge_maps_to_minus_top 4 4 (-0.66, 0) 1.6 1 10 true 0). Defined.

(** The mapper is affine with the same slope on both axes, the
    slope [unit_per_pixel]; for a positive height and a centre below the
    top the slope is positive, so both coordinates grow with the pixel
    indices. *)
Theorem pixels_to_coordinates_affine self px py dx dy re im :
  (0 < (IMAGE_SIZE self).2)%Z → (CENTER self).2 < TOP self →
  pixels_to_coordinates self px py = Ok (re, im) →
  pixels_to_coordinates self (px + dx) (py + dy)
  = Ok (re + dx * unit_per_pixel self, im + dy * unit_per_pixel self)
  ∧ 0 < unit_per_pixel self.
Proof.
  intros Hh Htop. rewrite !pixels_to_coordinates_exact by lia.
  intros [= <- <-]. split; [|by apply unit_per_pixel_pos].
  f_equal. f_equal; lra.
Qed.

Lemma pixels_to_coordinates_affine_witness :
  let self := set_attributes (4, 4)%Z (-0.66, 0) 1.6 1 10 true in
  pixels_to_coordinates self (2 + 1) (2 + 1)
  = Ok (-0.66 + 1 * unit_per_pixel self, -0 + 1 * unit_per_pixel self)
  ∧ 0 < unit_per_pixel self.
Proof.
  apply (pixels_to_coordinates_affine
           (set_attributes (4, 4)%Z (-0.66, 0) 1.6 1 10 true) 2 2 1 1 (-0.66) (-0)).
  - simpl. lia.
  - simpl. lra.
  - rewrite pixels_to_coordinates_configured by done. simpl. f_equal. f_equal; lra.
Defined.

(** * The escape test in exact arithmetic *)

Lemma coordinates_good_true_iff (x y : R) :
  coordinates_good x y = true ↔ x * x + y * y <= 4.
Proof.
  unfold coordinates_good. exact_arith. rewrite R_leb_le.
  rewrite sqrt_le_iff by nra. lra.
Qed.

Lemma coordinates_good_false_iff (x y : R) :
  coordinates_good x y = false ↔ 4 < x * x + y * y.
Proof.
  rewrite <- not_true_iff_false, coordinates_good_true_iff. lra.
Qed.

(** In exact arithmetic [coordinates_good] decides membership in the
    closed disc of radius 2 around the origin: it accepts the points at
    distance at most 2, the boundary included, and rejects the others. *)
Theorem coordinates_good_iff (x y : R) :
  (coordinates_good x y = true ↔ sqrt (x * x + y * y) <= 2) ∧
  (coordinates_good x y = false ↔ 2 < sqrt (x * x + y * y)).
Proof.
  rewrite coordinates_good_true_iff, coordinates_good_false_iff.
  assert (0 <= x * x + y * y) by nra.
  split; (split; intros Hxy).
  - apply sqrt_le_iff; [done | lra | lra].
  - apply sqrt_le_iff in Hxy; [lra | done | lra].
  - apply Rnot_le_lt. intros Hle. apply sqrt_le_iff in Hle; [lra | done | lra].
  - apply Rnot_le_lt. intros Hle. apply Rlt_not_le in Hxy. apply Hxy.
    apply sqrt_le_iff; [done | lra | lra].
Qed.

End exact_geometry.

(** * Evaluations on doubles *)

(** On doubles the test accepts the boundary points on the axes and
    rejects the next double after 2. *)
Example coordinates_good_boundary_binary64 :
  coordinates_good 2%float 0%float = true ∧
  coordinates_good 0%float (-2)%float = true ∧
  coordinates_good 0x1.0000000000001p+1%float 0%float = false.
Proof. by vm_compute. Qed.

(** The centre pixel of the 4 x 4 image of the default view, on doubles. *)
Example center_pixel_binary64 :
  let self := set_attributes (4, 4)%Z (-0x1.51eb851eb851fp-1, 0)%float
                0x1.999999999999ap+0%float 1 10 true in
  CENTER_PIXEL self = (2, 2)%Z ∧
  pixels_to_coordinates self 2%float 2%float
  = Ok (-0x1.51eb851eb851fp-1, 0)%float.
Proof. by vm_compute. Qed.
