(* ===== verification/Overflow.v ===== *)
(** * Overflow: the power of line 268 on doubles

    [coordinates_good] of [src/Fractals.py] computes
    [math.sqrt(real**2 + imaginary**2) <= 2].  On Python floats [x**2]
    is not the product [x * x]: when the square of a finite [x] is too
    large for a double the power raises [OverflowError], where the
    product is an infinity.  The model of [Geometry], which the pipeline
    uses for every arithmetic, takes the product.  This file holds the
    test as Python computes it on doubles, [coordinates_good_py], and
    relates the two: for coordinates below [2 ^ 511] in magnitude (about
    6.7e153) they agree, and from [2 ^ 512] on (about 1.3e154) Python
    raises where the model answers that the point is outside the disc.
    The proofs follow the rounding of the product through the kernel's
    specification of IEEE-754 multiplication. *)

From Stdlib Require Import ZArith Floats Lia Zpower.
From stdpp Require Import base tactics numbers.
From S2P Require Import Prelude Numeric Binary64 Levels Geometry.

#[local] Open Scope Z_scope.

(** * Definitions *)

(** Line 268: [x**2] on a float.  The power of a finite number whose
    square is not finite raises; the power of an infinity is an
    infinity. *)
Definition py_pow2 (x : float) : result float :=
  let y := (x * x)%float in
  if is_infinity y && negb (is_infinity x) then Raise OverflowError else Ok y.

(** Lines 262-268 on doubles, with the exception of the two powers:
    [math.sqrt(real**2 + imaginary**2) <= 2]. *)
Definition coordinates_good_py (real imaginary : float) : result bool :=
  r2 ← py_pow2 real;
  i2 ← py_pow2 imaginary;
  Ok (PrimFloat.sqrt (r2 + i2) <=? 2)%float.

(** * The number of bits of a product *)





(** * Products that do not overflow *)




Lemma Prim2SF_infinity : Prim2SF infinity = S754_infinity false.
Proof. reflexivity. Qed.



(** * Products that overflow *)

Lemma is_infinity_true x s : Prim2SF x = S754_infinity s → is_infinity x = true.
Proof.
  intros Hx. unfold is_infinity. by rewrite FloatAxioms.eqb_spec, abs_spec, Prim2SF_infinity, Hx.
Qed.

(** A finite double of magnitude at least [2 ^ 512]: a full mantissa and
    an exponent of at least 460. *)
Lemma from_2_512 x :
  (0x1p512 <=? abs x)%float = true → is_infinity x = false →
  ∃ s m e, Prim2SF x = S754_finite s m e ∧ Zdigits2 (Z.pos m) = 53 ∧ 460 ≤ e.
Proof.
  rewrite leb_spec, abs_spec. pose proof (Prim2SF_valid x) as Hv. intros Hle Hinf.
  destruct (Prim2SF x) as [s|s| |s m e] eqn:Hx; try done.
  { by rewrite (is_infinity_true x s) in Hinf. }
  exists s, m, e. split; [done|]. revert Hle.
  change (Prim2SF 0x1p512) with (S754_finite false 4503599627370496 460).
  unfold SFleb, SFabs, SFcompare.
  unfold valid_binary, SpecFloat.valid_binary, bounded, canonical_mantissa in Hv.
  apply andb_prop in Hv as [Hc%Z.eqb_eq _]. unfold fexp, emin, prec, emax in Hc.
  cbn [Zdigits2].
  destruct (Z.compare_spec 460 e) as [<-|?|?]; [intros _; lia|intros _; lia|done].
Qed.

Lemma SFmul_square_infinite s m e :
  Zdigits2 (Z.pos m) = 53 → 460 ≤ e →
  SF64mul (S754_finite s m e) (S754_finite s m e) = S754_infinity false.
Proof.
  intros Hd He. unfold SF64mul, SFmul.
  pose proof (Zdigits2_spec (Z.pos m) eq_refl) as Hs. rewrite Hd in Hs.
  assert (105 ≤ Zdigits2 (Z.pos (m * m))) as HD.
  { pose proof (Zdigits2_spec (Z.pos (m * m)) eq_refl) as [_ Hlt].
    destruct (decide (105 ≤ Zdigits2 (Z.pos (m * m)))); [done|].
    assert (2 ^ Zdigits2 (Z.pos (m * m)) ≤ 2 ^ 104) by (apply Z.pow_le_mono_r; lia).
    pose proof (Pos2Z.inj_mul m m). change (2 ^ 104) with (2 ^ 52 * 2 ^ 52) in *.
    change (53 - 1) with 52 in Hs. pose proof (pow2_pos 52).
    assert (2 ^ 52 * 2 ^ 52 ≤ Z.pos m * Z.pos m) by (apply Z.mul_le_mono_nonneg; lia).
    lia. }
  assert (normal_from (xorb s s) 972
            (binary_round_aux prec emax (xorb s s) (Z.pos (m * m)) (e + e) loc_Exact))
    as [->|(m' & e' & _ & _ & ?)] by (apply binary_round_aux_normal; lia); [|lia].
  by destruct s.
Qed.

(** From [2 ^ 512] on the square of a finite double overflows, and
    [x**2] raises. *)
Lemma py_pow2_Raise x :
  (0x1p512 <=? abs x)%float = true → is_infinity x = false →
  py_pow2 x = Raise OverflowError.
Proof.
  intros Hx Hinf. destruct (from_2_512 x Hx Hinf) as (s & m & e & Hp & Hd & He).
  unfold py_pow2. rewrite Hinf, (is_infinity_true _ false); [done|].
  rewrite mul_spec, Hp. by apply SFmul_square_infinite.
Qed.

(** * The test of line 268 *)


(** C27: for a finite real coordinate of magnitude [2 ^ 512] or more the
    test of line 268 does not answer: [real**2] raises [OverflowError],
    whatever the imaginary coordinate. *)
Theorem coordinates_good_py_raises real imaginary :
  (0x1p512 <=? abs real)%float = true → is_infinity real = false →
  coordinates_good_py real imaginary = Raise OverflowError.
Proof.
  intros Hr Hinf. unfold coordinates_good_py. by rewrite (py_pow2_Raise real Hr Hinf).
Qed.


Lemma coordinates_good_py_raises_witness :
  coordinates_good_py (-0x1p600) 0 = Raise OverflowError.
Proof. by apply (coordinates_good_py_raises (-0x1p600) 0). Defined.

(** The double [1e200], a point of a view whose top edge is there:
    Python raises, the model answers that the point is outside the
    disc.  The largest double whose power returns is just above
    [1.34e154]. *)
Example coordinates_good_far_binary64 :
  coordinates_good_py 0x1.4e718d7d7625ap+664 0 = Raise OverflowError ∧
  coordinates_good 0x1.4e718d7d7625ap+664%float 0%float = false ∧
  py_pow2 0x1.fffffffffffffp+511 = Ok 0x1.ffffffffffffep+1023%float ∧
  py_pow2 0x1p+512 = Raise OverflowError.
Proof. by vm_compute. Qed.
