(* ===== verification/Escape.v ===== *)
(** * Escape: the quadratic step and the escape-time loop

    [next_mandelbrot] is the method of lines 234-244 of
    [src/Fractals.py]; [divergence_loop] is the [for d_i] loop of lines
    134-156, without the bookkeeping of its body (the sampler adds it): it
    returns the index [d_i] at which the loop breaks, or [None] when the
    [range] is exhausted and [diverges] is still [False].

    The reference definition is [orbit], the sequence [0, c, c^2 + c, ...];
    the loop is shown to be the first-match search of an escaping orbit
    point, for every arithmetic.  In exact arithmetic the loop is
    invariant under conjugation of [c], every number it computes has
    modulus at most 6, and an orbit that has left the disc never comes
    back, so that the loop's answer is decided by the last orbit point; on
    doubles and in exact arithmetic the origin never escapes, whatever the
    budget. *)

From Stdlib Require Import ZArith Floats Reals Lra Lia.
From stdpp Require Import base tactics list numbers.
From S2P Require Import Prelude Numeric Levels Geometry.

(** * Definitions *)

Section escape.
Context {F : Type} `{Number F}.
#[local] Open Scope num_scope.

(** Lines 234-244: [z**2 + c], with [z] replaced by [complex(0 + 0j)] when
    it is [None]. *)
Definition next_mandelbrot (z : option (complex F)) (c : complex F) : complex F :=
  let z := match z with None => Complex 0 0 | Some z => z end in
  c_sum (c_prod z z) c.

(** Lines 134-156: the loop over [d_i], entered with [z] and the first
    value of [d_i], with [n] values of the [range] left. *)
Fixpoint divergence_loop (c : complex F) (z : option (complex F)) (d_i : Z)
    (n : nat) : option Z :=
  match n with
  | O => None
  | S n' =>
      let z := next_mandelbrot z c in
      if negb (coordinates_good (real z) (imag z)) then Some d_i
      else divergence_loop c (Some z) (d_i + 1) n'
  end.

(** The loop as [mandelbrot] enters it: [z = None] and
    [range(self.DIVERGENCE_ITERATIONS)]. *)
Definition escape_time (c : complex F) (DIVERGENCE_ITERATIONS : Z) : option Z :=
  divergence_loop c None 0 (Z.to_nat DIVERGENCE_ITERATIONS).

(** The reference: the orbit of 0 under [z ↦ z * z + c]. *)
Fixpoint orbit (c : complex F) (k : nat) : complex F :=
  match k with
  | O => Complex 0 0
  | S k' => c_sum (c_prod (orbit c k') (orbit c k')) c
  end.

(** The escape test on a complex number. *)
Definition good (z : complex F) : bool := coordinates_good (real z) (imag z).

(** The value of the variable [z] after [k] iterations. *)
Definition z_after (c : complex F) (k : nat) : option (complex F) :=
  match k with O => None | S _ => Some (orbit c k) end.

(** The reference search: the first [k] in [j, j + n) whose successor in
    the orbit fails the test. *)
Definition first_escape (c : complex F) (j n : nat) : option nat :=
  snd <$> list_find (λ k, good (orbit c (S k)) = false) (seq j n).

(** * The loop is the first-match search, for every arithmetic *)

Lemma next_mandelbrot_z_after c k : next_mandelbrot (z_after c k) c = orbit c (S k).
Proof. by destruct k. Qed.

Lemma divergence_loop_first_escape c (j n : nat) :
  divergence_loop c (z_after c j) (Z.of_nat j) n = Z.of_nat <$> first_escape c j n.
Proof.
  unfold first_escape. revert j; induction n as [|n IH]; intros j; [done|].
  cbn [divergence_loop seq]. rewrite next_mandelbrot_z_after, list_find_cons.
  fold (good (orbit c (S j))).
  destruct (good (orbit c (S j))) eqn:Hg; cbn [negb].
  - rewrite decide_False by done.
    replace (Z.of_nat j + 1)%Z with (Z.of_nat (S j)) by lia.
    change (Some (orbit c (S j))) with (z_after c (S j)).
    rewrite (IH (S j)). by destruct (list_find _ (seq (S j) n)) as [[??]|].
  - by rewrite decide_True.
Qed.

Lemma first_escape_Some c (j n k : nat) :
  first_escape c j n = Some k ↔
  (j ≤ k < j + n)%nat ∧ good (orbit c (S k)) = false ∧
  ∀ i : nat, (j ≤ i < k)%nat → good (orbit c (S i)) = true.
Proof.
  unfold first_escape. split.
  - destruct (list_find _ _) as [[i k']|] eqn:E; simpl; [|done]. intros [= ->].
    apply list_find_Some in E as (Hi%lookup_seq & Hk & Hlt). destruct Hi as [-> Hi].
    split_and!; [lia | lia | done |]. intros i' Hi'.
    apply not_false_iff_true, (Hlt (i' - j)%nat); [apply lookup_seq|]; lia.
  - intros (Hk & Hg & Hlt).
    assert (list_find (λ k, good (orbit c (S k)) = false) (seq j n)
            = Some ((k - j)%nat, k)) as ->; [|done].
    apply list_find_Some. split_and!; [apply lookup_seq; lia | done |].
    intros i y [-> ?]%lookup_seq ?. rewrite Hlt; [done | lia].
Qed.

Lemma first_escape_None c (j n : nat) :
  first_escape c j n = None ↔
  ∀ i : nat, (j ≤ i < j + n)%nat → good (orbit c (S i)) = true.
Proof.
  unfold first_escape. rewrite fmap_None, list_find_None, Forall_lookup. split.
  - intros Hall i Hi. apply not_false_iff_true, (Hall (i - j)%nat), lookup_seq. lia.
  - intros Hall i x [-> ?]%lookup_seq. rewrite Hall; [done | lia].
Qed.

Lemma escape_time_first_escape c D :
  escape_time c D = Z.of_nat <$> first_escape c 0 (Z.to_nat D).
Proof. apply (divergence_loop_first_escape c 0). Qed.

(** C6: the loop breaks at [d_i] exactly when [d_i] is in the range, the
    orbit point computed at [d_i] fails the test and all earlier ones pass
    it: [d_i + 1] is the number of iterations the point survived. *)
Theorem escape_time_Some c D d_i :
  escape_time c D = Some d_i ↔
  ∃ k : nat, d_i = Z.of_nat k ∧ (Z.of_nat k < D)%Z ∧
    good (orbit c (S k)) = false ∧
    ∀ i : nat, (i < k)%nat → good (orbit c (S i)) = true.
Proof.
  rewrite escape_time_first_escape, fmap_Some. split.
  - intros (k & (Hk & Hg & Hlt)%first_escape_Some & ->).
    exists k. split_and!; [done | lia | done |]. intros i ?. apply Hlt. lia.
  - intros (k & -> & Hk & Hg & Hlt). exists k. split; [|done].
    apply first_escape_Some. split_and!; [lia | lia | done |]. intros i ?. apply Hlt. lia.
Qed.

(** C18: the loop runs to the end of its range, leaving [diverges] false,
    exactly when the first [DIVERGENCE_ITERATIONS] orbit points after 0
    all pass the test. *)
Theorem escape_time_None c D :
  escape_time c D = None ↔
  ∀ i : nat, (Z.of_nat i < D)%Z → good (orbit c (S i)) = true.
Proof.
  rewrite escape_time_first_escape, fmap_None, first_escape_None.
  split; intros Hall i Hi; apply Hall; lia.
Qed.

(** A larger budget never changes an escape that was found: the
    index of the escaping iteration does not depend on the budget. *)
Theorem escape_time_budget_monotone c D D' d_i :
  (D ≤ D')%Z → escape_time c D = Some d_i → escape_time c D' = Some d_i.
Proof.
  intros HD. rewrite !escape_time_first_escape, !fmap_Some.
  intros (k & (Hk & Hg & Hlt)%first_escape_Some & ->). exists k. split; [|done].
  apply first_escape_Some. split_and!; [lia | lia | done..].
Qed.

(** A point whose first orbit point is 0 again and passes the test never
    escapes. *)
Lemma orbit_fixed c :
  orbit c 1 = Complex 0 0 → ∀ k, orbit c k = Complex 0 0.
Proof.
  intros H1 k. induction k as [|k IH]; [done|]. simpl. by rewrite IH.
Qed.

Lemma escape_time_fixed c D :
  orbit c 1 = Complex 0 0 → good (Complex 0 0) = true → escape_time c D = None.
Proof.
  intros H1 Hg. rewrite escape_time_first_escape, fmap_None.
  apply first_escape_None. intros i _. by rewrite orbit_fixed.
Qed.

(** What the loop returns is an index of its range. *)
Lemma escape_time_range c D d_i :
  escape_time c D = Some d_i → (0 ≤ d_i < D)%Z.
Proof.
  rewrite escape_time_first_escape, fmap_Some.
  intros (k & (Hk & _)%first_escape_Some & ->). lia.
Qed.

End escape.

(** * Doubles *)

(** On doubles, the origin [c = 0] is never classified as diverging,
    whatever the iteration budget: its orbit stays at 0. *)
Theorem origin_never_escapes_binary64 (D : Z) :
  escape_time (Complex 0%float 0%float) D = None.
Proof. apply escape_time_fixed; by vm_compute. Qed.

Lemma escape_time_budget_monotone_witness :
  escape_time (Complex 1%float 0%float) 1600 = Some 2%Z.
Proof.
  apply (escape_time_budget_monotone (Complex 1%float 0%float) 10 1600 2);
    [lia | by vm_compute].
Defined.

(** Escape times of three points on doubles: [1] escapes at the third
    iteration, [-2] and [i] never do. *)
Example escape_time_binary64 :
  escape_time (Complex 1%float 0%float) 1600 = Some 2%Z ∧
  escape_time (Complex (-2)%float 0%float) 1600 = None ∧
  escape_time (Complex 0%float 1%float) 1600 = None.
Proof. by vm_compute. Qed.

(** * Exact arithmetic *)

Section exact_escape.
#[local] Open Scope R_scope.
Implicit Types (c z : complex R).

(** The squared modulus. *)
Definition norm2 z : R := real z * real z + imag z * imag z.

Lemma good_norm2 z : good z = true ↔ norm2 z <= 4.
Proof. apply coordinates_good_true_iff. Qed.

Lemma good_conj z : good (c_conj z) = good z.
Proof.
  apply eq_true_iff_eq. rewrite !good_norm2. unfold norm2. exact_arith. simpl.
  split; intros; lra.
Qed.

Lemma orbit_conj c k : orbit (c_conj c) k = c_conj (orbit c k).
Proof.
  induction k as [|k IH]; simpl.
  - apply complex_eq; exact_arith; simpl; lra.
  - by rewrite IH, c_conj_sum, c_conj_prod.
Qed.

(** C20: in exact arithmetic the loop gives the same answer for a point and
    for its conjugate; the mapper's sign convention for the imaginary part
    therefore does not change any classification. *)
Theorem escape_time_conj c D : escape_time (c_conj c) D = escape_time c D.
Proof.
  rewrite !escape_time_first_escape. f_equal. unfold first_escape. f_equal.
  apply list_find_ext. intros k. by rewrite orbit_conj, good_conj.
Qed.

Lemma norm2_nonneg z : 0 <= norm2 z.
Proof. unfold norm2. nra. Qed.

Lemma norm2_square z : norm2 (c_prod z z) = norm2 z * norm2 z.
Proof. unfold norm2. exact_arith. simpl. ring. Qed.

Lemma square_le_inv (x y : R) : 0 <= y → x * x <= y * y → x <= y.
Proof. intros. nra. Qed.

(** The Cauchy-Schwarz inequality in the plane. *)
Lemma cauchy_schwarz2 (u v p q : R) :
  (u * p + v * q) * (u * p + v * q) <= (u * u + v * v) * (p * p + q * q).
Proof.
  replace ((u * u + v * v) * (p * p + q * q))
    with ((u * p + v * q) * (u * p + v * q) + (u * q - v * p) * (u * q - v * p))
    by ring.
  pose proof (Rle_0_sqr (u * q - v * p)) as Hs. unfold Rsqr in Hs. lra.
Qed.

(** The triangle inequality on squared moduli, with bounds. *)
Lemma norm2_sum_bound z c a b :
  0 <= a → 0 <= b → norm2 z <= a * a → norm2 c <= b * b →
  norm2 (c_sum z c) <= (a + b) * (a + b).
Proof.
  unfold norm2. exact_arith. simpl.
  destruct z as [u v], c as [p q]; simpl. intros Ha Hb Hz Hc.
  pose proof (cauchy_schwarz2 u v p q) as H1.
  assert ((u * u + v * v) * (p * p + q * q) <= (a * a) * (b * b)) as H2
    by (apply Rmult_le_compat; nra).
  assert (u * p + v * q <= a * b) as H3 by (apply square_le_inv; nra).
  nra.
Qed.

(** C28: in exact arithmetic, one step of the iteration from inside the
    disc stays small: for a point [c] that passes the test and a number
    [z] that passes the test, the next number [z ** 2 + c] has modulus at
    most 6, far from overflow. *)
Theorem next_mandelbrot_bounded c z :
  good c = true → good z = true →
  norm2 (next_mandelbrot (Some z) c) <= 36.
Proof.
  intros Hc%good_norm2 Hz%good_norm2. unfold next_mandelbrot.
  replace 36 with ((4 + 2) * (4 + 2)) by lra.
  apply norm2_sum_bound; [lra.. | | lra].
  rewrite norm2_square. pose proof (norm2_nonneg z). nra.
Qed.

Lemma next_mandelbrot_bounded_witness :
  norm2 (next_mandelbrot (Some (Complex 2 0)) (Complex 0 2)) <= 36.
Proof.
  apply (next_mandelbrot_bounded (Complex 0 2) (Complex 2 0));
    apply good_norm2; unfold norm2; simpl; lra.
Defined.

(** In exact arithmetic the origin never escapes, whatever the
    budget. *)
Theorem origin_never_escapes_exact (D : Z) : escape_time (Complex 0 0) D = None.
Proof.
  apply escape_time_fixed.
  - apply complex_eq; exact_arith; simpl; lra.
  - apply good_norm2. unfold norm2. simpl. lra.
Qed.

(** Outside the disc the quadratic step moves further out, for [c] in
    the disc: [|z^2 + c| >= |z|^2 - |c| > |z|]. *)
Lemma norm2_step_grows c z :
  norm2 c <= 4 → 4 < norm2 z → norm2 z < norm2 (next_mandelbrot (Some z) c).
Proof.
  intros Hc Hz. unfold next_mandelbrot.
  pose proof (norm2_square z) as Hw. pose proof (norm2_nonneg c) as Hc0.
  destruct (c_prod z z) as [u v], c as [p q]. revert Hw Hc Hc0.
  generalize (norm2 z) Hz. intros a Ha. unfold norm2. exact_arith. simpl.
  intros Hw Hc Hc0.
  set (s := sqrt (p * p + q * q)).
  assert (s * s = p * p + q * q) as Hs by (by apply sqrt_sqrt).
  assert (0 <= s) as Hs0 by apply sqrt_pos.
  assert (s <= 2) as Hs2 by (apply square_le_inv; lra).
  pose proof (cauchy_schwarz2 u v p q) as Hcs.
  assert (- (u * p + v * q) <= a * s) as Hre by (apply square_le_inv; nra).
  assert ((a - 2) * (a - 2) <= (a - s) * (a - s)) by nra.
  nra.
Qed.

(** An orbit that has left the disc does not come back. *)
Lemma orbit_escaped c (k j : nat) :
  good c = true → good (orbit c (S k)) = false → good (orbit c (S k + j)) = false.
Proof.
  intros Hc%good_norm2 Hk. apply not_true_iff_false. rewrite good_norm2.
  apply not_true_iff_false in Hk. rewrite good_norm2 in Hk.
  apply Rlt_not_le. apply Rnot_le_lt in Hk.
  induction j as [|j IH]; [by rewrite Nat.add_0_r|].
  rewrite Nat.add_succ_r. etrans; [apply IH|].
  apply (norm2_step_grows c (orbit c (S k + j))); done.
Qed.

(** C19: in exact arithmetic the [break] of the loop loses nothing: for a
    point [c] of the disc and a positive budget, the loop runs to the end
    of its range exactly when the last orbit point it computes is still in
    the disc, because an orbit that has left the disc never comes back. *)
Theorem escape_time_last c D :
  good c = true → (0 < D)%Z →
  escape_time c D = None ↔ good (orbit c (Z.to_nat D)) = true.
Proof.
  intros Hc HD. rewrite escape_time_first_escape, fmap_None, first_escape_None.
  split.
  - intros Hall. replace (Z.to_nat D) with (S (Z.to_nat D - 1)) by lia. apply Hall. lia.
  - intros Hlast i Hi. apply not_false_iff_true. intros Hi'.
    apply (orbit_escaped c i (Z.to_nat D - S i)) in Hi'; [|done].
    replace (S i + (Z.to_nat D - S i))%nat with (Z.to_nat D) in Hi' by lia. congruence.
Qed.

Lemma escape_time_last_witness :
  escape_time (Complex 0 0) 5 = None ↔ good (orbit (Complex 0 0) (Z.to_nat 5)) = true.
Proof.
  apply (escape_time_last (Complex 0 0) 5); [|lia].
  apply good_norm2. unfold norm2. simpl. lra.
Defined.

End exact_escape.
