(* ===== verification/Sampler.v ===== *)
(** * Sampler: the sub-pixel loop of one pixel

    [subpixel] is the body of the [for magnification] loop of
    [src/Fractals.py] (lines 119-164) as a step on the two variables it
    updates, the dictionary [tally] and the list
    [divergence_multipliers]; [sample_pixel] is the loop with its
    initialisation (lines 112-119).

    The theorems hold for every arithmetic: the loop's invariant (each
    sub-pixel is counted once, the list has one entry per diverging
    sub-pixel, every entry is a position of the brightness table), and the
    absence of exceptions other than the two divisions by zero, which the
    instances rule out for a positive magnification and a non-zero
    height. *)

From Stdlib Require Import ZArith Floats Reals Lra Lia.
From stdpp Require Import base tactics list numbers.
From S2P Require Import Prelude Numeric Levels Geometry Escape.

(** * Definitions *)

(** The dictionary [tally] of line 113: it only ever has its two literal
    keys. *)
Record tally : Type := Tally {
  tally_mandelbrot : Z;
  tally_divergence : Z;
}.

Section sampler.
Context {F : Type} `{Number F}.
#[local] Open Scope num_scope.

(** The variables the loop updates. *)
Definition sample_state : Type := tally * list Z.

(** Lines 120-164: one iteration of the [for magnification] loop. *)
Definition subpixel (self : Fractal F) (pixel_x pixel_y : Z) (st : sample_state)
    (magnification : Z) : result sample_state :=
  let '(t, divergence_multipliers) := st in
  offset ← py_truediv (of_int magnification) (of_int (MAGNIFICATION self));
  let x := of_int pixel_x + offset in
  let y := of_int pixel_y + offset in
  '(real, imaginary) ← pixels_to_coordinates self x y;
  if coordinates_good real imaginary then
    let c := c_sum (c_of_float real) (c_prod (c_of_float imaginary) c_1j) in
    match escape_time c (DIVERGENCE_ITERATIONS self) with
    | Some d_i =>
        k ← divergence_multiplier (DIVERGENCE_LEVELS self) d_i;
        Ok (Tally (tally_mandelbrot t) (tally_divergence t + 1),
            divergence_multipliers ++ [Z.of_nat k])
    | None =>
        Ok (Tally (tally_mandelbrot t + 1) (tally_divergence t),
            divergence_multipliers)
    end
  else
    Ok (Tally (tally_mandelbrot t) (tally_divergence t + 1),
        divergence_multipliers ++ [0%Z]).

(** Lines 112-119: the initialisation and the loop over
    [range(1, self.MAGNIFICATION+1)]. *)
Definition sample_pixel (self : Fractal F) (pixel_x pixel_y : Z) : result sample_state :=
  foldlM (subpixel self pixel_x pixel_y) (Tally 0 0, [])
         (range 1 (MAGNIFICATION self + 1)).

(** * The invariant of the loop *)

(** After [n] sub-pixels: they are all counted, once; the list has one
    entry per diverging sub-pixel; every entry is a position of the
    table. *)
Definition sampled (n : Z) (st : sample_state) : Prop :=
  (0 ≤ tally_mandelbrot st.1 ∧ 0 ≤ tally_divergence st.1 ∧
   tally_mandelbrot st.1 + tally_divergence st.1 = n ∧
   Z.of_nat (length st.2) = tally_divergence st.1 ∧
   Forall (λ m, 0 ≤ m < 255) st.2)%Z.

(** The render was set up by [mandelbrot]: the table is the one of the
    budget. *)
Definition configured (self : Fractal F) : Prop :=
  DIVERGENCE_LEVELS self = divergence_levels (DIVERGENCE_ITERATIONS self).

(** The two divisions of the loop body do not raise. *)
Definition divisions_defined (self : Fractal F) : Prop :=
  (of_int (MAGNIFICATION self) =? 0) = false ∧
  (of_int (IMAGE_SIZE self).2 / 2 =? 0) = false.

Lemma sampled_diverging n t ms (k : Z) :
  (0 ≤ k < 255)%Z → sampled n (t, ms) →
  sampled (n + 1) (Tally (tally_mandelbrot t) (tally_divergence t + 1), ms ++ [k]).
Proof.
  unfold sampled. simpl. intros ? (? & ? & ? & ? & ?).
  rewrite length_app, Forall_app, Forall_singleton. simpl. split_and!; try done; lia.
Qed.

Lemma sampled_member n t ms :
  sampled n (t, ms) →
  sampled (n + 1) (Tally (tally_mandelbrot t + 1) (tally_divergence t), ms).
Proof. unfold sampled. simpl. intros (? & ? & ? & ? & ?). split_and!; try done; lia. Qed.

(** One iteration preserves the invariant, and returns normally unless a
    division raises. *)
Lemma subpixel_sampled self pixel_x pixel_y n st magnification st' :
  configured self → sampled n st →
  subpixel self pixel_x pixel_y st magnification = Ok st' → sampled (n + 1) st'.
Proof.
  intros Hcfg Hst. destruct st as [t ms]. unfold subpixel.
  intros (offset & _ & ([re im] & _ & Hrest)%bind_Ok_inv)%bind_Ok_inv.
  destruct (coordinates_good re im).
  - destruct (escape_time _ _) as [d_i|] eqn:Hd.
    + apply bind_Ok_inv in Hrest as (k & Hk & [= <-]).
      rewrite Hcfg in Hk. apply escape_time_range in Hd.
      destruct (divergence_multiplier_Ok _ _ Hd) as (k' & Hk' & ?).
      apply sampled_diverging; [|done]. assert (k = k') by congruence. lia.
    + injection Hrest as <-. by apply sampled_member.
  - injection Hrest as <-. by apply sampled_diverging.
Qed.

Lemma subpixel_is_Ok self pixel_x pixel_y st magnification :
  configured self → divisions_defined self →
  is_Ok (subpixel self pixel_x pixel_y st magnification).
Proof.
  intros Hcfg [HM Hh]. destruct st as [t ms]. unfold subpixel, py_truediv.
  rewrite HM. simpl. unfold pixels_to_coordinates, py_truediv. rewrite Hh. simpl.
  destruct (coordinates_good _ _); [|by eexists].
  destruct (escape_time _ _) as [d_i|] eqn:Hd; [|by eexists].
  apply escape_time_range in Hd. rewrite Hcfg.
  destruct (divergence_multiplier_Ok _ _ Hd) as (k & -> & _).
  by eexists.
Qed.

(** All an iteration can raise is the [ZeroDivisionError] of its two
    divisions and the [ValueError] of the search. *)
Lemma py_truediv_Raise_inv (x y : F) e :
  py_truediv x y = Raise e → e = ZeroDivisionError.
Proof. unfold py_truediv. destruct (_ =? _); [by intros [= <-] | done]. Qed.

Lemma subpixel_Raise_inv self pixel_x pixel_y st magnification e :
  subpixel self pixel_x pixel_y st magnification = Raise e →
  e = ZeroDivisionError ∨ e = ValueError.
Proof.
  destruct st as [t ms]. unfold subpixel, pixels_to_coordinates.
  intros [?%py_truediv_Raise_inv|(offset & _ & Hrest)]%bind_Raise_inv; [by left|].
  apply bind_Raise_inv in Hrest as [Hc|([re im] & _ & Hrest)].
  - apply bind_Raise_inv in Hc as [?%py_truediv_Raise_inv|(u & _ & ?)]; [by left | done].
  - destruct (coordinates_good re im); [|done].
    destruct (escape_time _ _); [|done].
    apply bind_Raise_inv in Hrest as [?%divergence_multiplier_Raise_inv|(k & _ & ?)];
      [by right | done].
Qed.

Lemma sample_pixel_Raise_inv self pixel_x pixel_y e :
  sample_pixel self pixel_x pixel_y = Raise e →
  e = ZeroDivisionError ∨ e = ValueError.
Proof. intros (st & m & _ & ?%subpixel_Raise_inv)%foldlM_Raise_inv. done. Qed.

Lemma foldlM_subpixel_sampled self pixel_x pixel_y (l : list Z) n st st' :
  configured self → sampled n st →
  foldlM (subpixel self pixel_x pixel_y) st l = Ok st' →
  sampled (n + Z.of_nat (length l)) st'.
Proof.
  intros Hcfg. revert n st; induction l as [|m l IH]; intros n st Hst; simpl.
  - intros [= <-]. by rewrite Z.add_0_r.
  - intros (st1 & H1 & Hl)%bind_Ok_inv.
    replace (n + Z.of_nat (S (length l)))%Z with ((n + 1) + Z.of_nat (length l))%Z by lia.
    eapply IH; [|done]. by eapply subpixel_sampled.
Qed.

(** When the loop of a pixel returns, its invariant holds of all the
    sub-pixels. *)
Lemma sample_pixel_sampled self pixel_x pixel_y st :
  configured self →
  sample_pixel self pixel_x pixel_y = Ok st →
  sampled (Z.max 0 (MAGNIFICATION self)) st.
Proof.
  intros Hcfg Hst. eapply foldlM_subpixel_sampled in Hst; [|done|].
  - rewrite length_range in Hst. simpl in Hst.
    by replace (Z.max 0 (MAGNIFICATION self))
      with (0 + Z.of_nat (Z.to_nat (MAGNIFICATION self + 1 - 1)))%Z by lia.
  - unfold sampled. simpl. split_and!; done.
Qed.

(** The loop of a pixel returns when its two divisions are defined. *)
Lemma sample_pixel_is_Ok self pixel_x pixel_y :
  configured self → divisions_defined self →
  is_Ok (sample_pixel self pixel_x pixel_y).
Proof.
  intros Hcfg Hdiv. unfold sample_pixel.
  destruct (foldlM_invariant (λ _, True) (subpixel self pixel_x pixel_y)
              (Tally 0 0, []) (range 1 (MAGNIFICATION self + 1))) as (st & -> & _);
    [done | | by eexists].
  intros st m _ _. destruct (subpixel_is_Ok self pixel_x pixel_y st m) as [st' ->]; eauto.
Qed.

(** C7: the loop of a pixel raises no exception when its two divisions
    are defined: the [min] of line 151 is never taken of an empty list and
    [index] always finds its argument.  When it returns, every sub-pixel
    has been counted exactly once as in the set or as diverging, the list
    of multipliers has one entry per diverging sub-pixel, and every entry
    is below 255.  The [OverflowError] of the power of line 268, which
    Python raises for coordinates from [2 ^ 512] on, is outside this model
    of the loop (file Overflow). *)
Theorem sample_pixel_total self pixel_x pixel_y :
  configured self → divisions_defined self →
  ∃ st, sample_pixel self pixel_x pixel_y = Ok st ∧
        sampled (Z.max 0 (MAGNIFICATION self)) st.
Proof.
  intros Hcfg Hdiv. destruct (sample_pixel_is_Ok self pixel_x pixel_y) as [st Hst]; [done..|].
  exists st. split; [done|]. by eapply sample_pixel_sampled.
Qed.

(** C33: every exception of the loop of a pixel is the
    [ZeroDivisionError] of one of its two divisions: a render that was
    set up by [mandelbrot] never sees the [ValueError] of the search.
    (The [OverflowError] of line 268 is outside this model of the loop,
    file Overflow.) *)
Theorem sample_pixel_raises_only_ZeroDivisionError self pixel_x pixel_y e :
  configured self →
  sample_pixel self pixel_x pixel_y = Raise e → e = ZeroDivisionError.
Proof.
  intros Hcfg (st & m & _ & Hs)%foldlM_Raise_inv. destruct st as [t ms].
  revert Hs. unfold subpixel, pixels_to_coordinates.
  intros [?%py_truediv_Raise_inv|(offset & _ & Hrest)]%bind_Raise_inv; [done|].
  apply bind_Raise_inv in Hrest as [Hc|([re im] & _ & Hrest)].
  - by apply bind_Raise_inv in Hc as [?%py_truediv_Raise_inv|(u & _ & ?)].
  - destruct (coordinates_good re im); [|done].
    destruct (escape_time _ _) as [d_i|] eqn:Hd; [|done].
    apply escape_time_range in Hd. rewrite Hcfg in Hrest.
    destruct (divergence_multiplier_Ok _ _ Hd) as (k & Hk & _). by rewrite Hk in Hrest.
Qed.

(** * The divisions, against the laws of the arithmetic *)

(** In an arithmetic with the laws of division the two divisions are
    defined for a non-zero magnification and a non-zero height. *)
Lemma divisions_defined_laws `{!DivisionLaws F} self :
  MAGNIFICATION self ≠ 0%Z → (IMAGE_SIZE self).2 ≠ 0%Z → divisions_defined self.
Proof. intros HM Hh. split; [by apply of_int_eqb_0 | by apply half_eqb_0]. Qed.

(** There the loop of a pixel of a render set up by [mandelbrot] returns,
    whatever the magnification: a magnification that is not positive
    leaves no sub-pixel to divide for. *)
Lemma sample_pixel_returns `{!DivisionLaws F} self pixel_x pixel_y :
  configured self → (IMAGE_SIZE self).2 ≠ 0%Z →
  is_Ok (sample_pixel self pixel_x pixel_y).
Proof.
  intros Hcfg Hh. destruct (decide (MAGNIFICATION self ≤ 0)%Z).
  - unfold sample_pixel. rewrite range_empty by lia. apply is_Ok_Ok.
  - apply sample_pixel_is_Ok; [done|]. apply divisions_defined_laws; [lia | done].
Qed.

End sampler.

Lemma sample_pixel_total_witness :
  let self := set_attributes (4, 4)%Z (-0x1.51eb851eb851fp-1, 0)%float
                0x1.999999999999ap+0%float 1 10 true in
  ∃ st, sample_pixel self 0 3 = Ok st ∧ sampled (Z.max 0 (MAGNIFICATION self)) st.
Proof. apply sample_pixel_total; by vm_compute. Defined.

Lemma sample_pixel_raises_only_ZeroDivisionError_witness :
  let self := set_attributes (4, 0)%Z (-0x1.51eb851eb851fp-1, 0)%float
                0x1.999999999999ap+0%float 1 10 true in
  configured self ∧ sample_pixel self 0 0 = Raise ZeroDivisionError ∧
  ZeroDivisionError = ZeroDivisionError.
Proof.
  intros self. split_and!; [done|by vm_compute|].
  apply (sample_pixel_raises_only_ZeroDivisionError self 0 0); by vm_compute.
Defined.

(** The tallies of the four pixels of the second row of the 4 x 4 default
    view with a budget of 10, on doubles: one sample each, taken at the
    bottom-right corner of the pixel. *)
Example sample_row_binary64 :
  let self := set_attributes (4, 4)%Z (-0x1.51eb851eb851fp-1, 0)%float
                0x1.999999999999ap+0%float 1 10 true in
  (λ x, sample_pixel self x 1) <$> [0; 1; 2; 3]%Z
  = [Ok (Tally 1 0, []); Ok (Tally 1 0, []);
     Ok (Tally 1 0, []); Ok (Tally 0 1, [252%Z])].
Proof. by vm_compute. Qed.
