(* ===== verification/Colour.v ===== *)
(** * Colour: from a pixel's tally to its stored bytes

    The block of lines 176-189 of [src/Fractals.py]: the array [color]
    grown by [np.append], one row per sub-pixel, its mean along axis 0 and
    the store into the [uint8] image; and the loop of lines 75-76 that
    reshapes the values of the dictionary [colors].

    NumPy's operations are modelled by what they compute on these
    arguments: [np.append(color, row, axis=0)] adds a row at the end,
    [np.average] of a sequence is its left-to-right sum divided by its
    length with IEEE division (no exception: an empty sequence gives
    [0/0]), the store into a [uint8] cell truncates toward zero and wraps
    modulo 256.  Integer colour components are taken as already
    converted to floats, which [np.append] does.

    Theorems in exact arithmetic: the closed form of the mean (a weighted
    mean of the two colours), the colour of a pixel entirely in the set,
    the byte range of the result for byte colours and multipliers below
    255.  Theorems for every arithmetic: which [KeyError] is raised and
    when.  On doubles: a one-sample pixel in the set stores the set colour
    for all byte colours, and a pixel with no sample stores the mean of an
    empty array. *)

From Stdlib Require Import ZArith Floats Reals Lra Lia.
From stdpp Require Import base tactics list numbers strings gmap.
From S2P Require Import Prelude Numeric Levels Geometry Escape Sampler.

(** * Definitions *)

Section colour.
Context {F : Type} `{Number F}.
#[local] Open Scope num_scope.

(** A row of an array of shape [(n, 3)]. *)
Definition rgb : Type := F * F * F.

Definition rgb_add (a b : rgb) : rgb :=
  (a.1.1 + b.1.1, a.1.2 + b.1.2, a.2 + b.2).

(** [row * s] for a scalar [s]. *)
Definition rgb_scale (a : rgb) (s : F) : rgb := (a.1.1 * s, a.1.2 * s, a.2 * s).

(** The row of a value that has three components. *)
Definition to_rgb (value : list F) : rgb :=
  match value with [r; g; b] => (r, g, b) | _ => (0, 0, 0) end.

(** Lines 75-76: every value of [colors] is replaced by
    [np.array(value).reshape(1, 3)], which raises [ValueError] unless the
    value has three components. *)
Definition reshape_colors (colors : gmap string (list F)) : result (gmap string rgb) :=
  if decide (map_Forall (λ _ value, length value = 3%nat) colors)
  then Ok (to_rgb <$> colors)
  else Raise ValueError.

(** [colors[key]]. *)
Definition getitem (colors : gmap string rgb) (key : string) : result rgb :=
  match colors !! key with Some row => Ok row | None => Raise (KeyError key) end.

(** [np.average(l)] of a list of integers. *)
Definition np_average (l : list Z) : F :=
  foldl (λ acc m, acc + of_int m) 0 l / of_int (Z.of_nat (length l)).

(** [np.average(color, axis=0)]. *)
Definition np_average_rows (color : list rgb) : rgb :=
  let s := foldl rgb_add (0, 0, 0) color in
  let n := of_int (Z.of_nat (length color)) in
  (s.1.1 / n, s.1.2 / n, s.2 / n).

(** [for _ in range(n): color = np.append(color, row, axis=0)], where
    [row] is computed in the loop body and may raise. *)
Definition append_rows (color : list rgb) (n : Z) (row : result rgb) : result (list rgb) :=
  foldlM (λ color _, r ← row; Ok (color ++ [r])) color (range 0 n).

(** Lines 176-188: the colour of a pixel from its tally. *)
Definition pixel_color (self : Fractal F) (colors : gmap string rgb) (t : tally)
    (divergence_multipliers : list Z) : result rgb :=
  let color := [] in
  color ← (if decide (0 < tally_mandelbrot t)%Z
           then append_rows color (tally_mandelbrot t) (getitem colors "m")
           else Ok color);
  color ← (if decide (0 < tally_divergence t)%Z
           then append_rows color (tally_divergence t)
                  (d ← getitem colors "d";
                   let divergence_multiplier :=
                     np_average divergence_multipliers
                     / of_int (Z.of_nat (length (DIVERGENCE_LEVELS self))) in
                   Ok (rgb_scale d divergence_multiplier))
           else Ok color);
  Ok (np_average_rows color).

(** The store of a [float64] into a [uint8] cell. *)
Definition to_uint8 (x : F) : Z := to_int x `mod` 256.

(** Line 189: the three bytes stored at [image_array[pixel_y, pixel_x]]. *)
Definition stored (color : rgb) : Z * Z * Z :=
  (to_uint8 color.1.1, to_uint8 color.1.2, to_uint8 color.2).

(** * The loops that append rows, for every arithmetic *)

Lemma append_rows_Ok color n r :
  append_rows color n (Ok r) = Ok (color ++ replicate (Z.to_nat n) r).
Proof.
  unfold append_rows. rewrite <- (Z.sub_0_r n) at 2.
  rewrite <- length_range. generalize (range 0 n) as l. intros l.
  revert color; induction l as [|x l IH]; intros color; simpl.
  - by rewrite app_nil_r.
  - rewrite IH, <- app_assoc. done.
Qed.

Lemma append_rows_Raise color n e :
  (0 < n)%Z → append_rows color n (Raise e) = Raise e.
Proof.
  intros Hn. unfold append_rows, range. rewrite seqZ_cons by lia. done.
Qed.

(** Whatever the aggregation raises is a [KeyError]. *)
Lemma pixel_color_Raise_inv self colors t ms e :
  pixel_color self colors t ms = Raise e → ∃ key, e = KeyError key.
Proof.
  unfold pixel_color, getitem.
  destruct (decide (0 < tally_mandelbrot t)%Z) as [Hm|Hm],
    (decide (0 < tally_divergence t)%Z) as [Hd|Hd],
    (colors !! "m") as [m|], (colors !! "d") as [d|]; simpl;
    rewrite ?append_rows_Ok, ?append_rows_Raise by done; simpl;
    rewrite ?append_rows_Ok, ?append_rows_Raise by done; simpl;
    try done; intros [= <-]; eauto.
Qed.

(** The key of that [KeyError] is missing, and rows of its colour were
    to be appended. *)
Lemma pixel_color_Raise_key self colors t ms e :
  pixel_color self colors t ms = Raise e →
  ∃ key, e = KeyError key ∧ colors !! key = None ∧
         (key = "m" ∧ (0 < tally_mandelbrot t)%Z ∨ key = "d" ∧ (0 < tally_divergence t)%Z).
Proof.
  unfold pixel_color, getitem.
  destruct (decide (0 < tally_mandelbrot t)%Z) as [Hm|Hm],
    (decide (0 < tally_divergence t)%Z) as [Hd|Hd],
    (colors !! "m") as [m|] eqn:Hcm, (colors !! "d") as [d|] eqn:Hcd; simpl;
    rewrite ?append_rows_Ok, ?append_rows_Raise by done; simpl;
    rewrite ?append_rows_Ok, ?append_rows_Raise by done; simpl;
    try done; intros [= <-];
    first [by exists "m"; split_and!; [done|done|left]
          |by exists "d"; split_and!; [done|done|right]].
Qed.

(** With both keys present the aggregation returns. *)
Lemma pixel_color_is_Ok self colors t ms :
  is_Some (colors !! "m") → is_Some (colors !! "d") →
  is_Ok (pixel_color self colors t ms).
Proof.
  intros [m Hm] [d Hd]. unfold pixel_color, getitem. rewrite Hm, Hd. simpl.
  destruct (decide (0 < tally_mandelbrot t)%Z), (decide (0 < tally_divergence t)%Z);
    rewrite ?append_rows_Ok; simpl; rewrite ?append_rows_Ok; apply is_Ok_Ok.
Qed.

(** C34: the aggregation raises [KeyError] for ["m"] exactly when some
    sub-pixel is in the set and the key is missing, for ["d"] exactly when
    ["m"] did not raise, some sub-pixel diverges and that key is missing,
    and nothing else. *)
Theorem pixel_color_raises self colors t ms e :
  pixel_color self colors t ms = Raise e ↔
  ((0 < tally_mandelbrot t)%Z ∧ colors !! "m" = None ∧ e = KeyError "m") ∨
  (((0 < tally_mandelbrot t)%Z → is_Some (colors !! "m")) ∧
   (0 < tally_divergence t)%Z ∧ colors !! "d" = None ∧ e = KeyError "d").
Proof.
  unfold pixel_color, getitem.
  destruct (decide (0 < tally_mandelbrot t)%Z) as [Hm|Hm],
    (decide (0 < tally_divergence t)%Z) as [Hd|Hd],
    (colors !! "m") as [m|], (colors !! "d") as [d|]; simpl;
    rewrite ?append_rows_Ok, ?append_rows_Raise by done; simpl;
    rewrite ?append_rows_Ok, ?append_rows_Raise by done; simpl;
    split; try done; try (intros [= <-]); try (intros [(? & ? & ?)|(? & ? & ? & ?)]);
    try done; try subst; eauto 8 using mk_is_Some;
    try (right; split_and!; try done; by intros ?);
    try match goal with Hs : _ → is_Some None |- _ => by destruct Hs end.
Qed.

End colour.

Arguments rgb F : clear implicits.

(** * Exact arithmetic *)

Section exact_colour.
#[local] Open Scope R_scope.
Implicit Types (m d : rgb R) (self : Fractal R).

(** The weighted mean the aggregation computes on one channel: [nm] rows
    of [mc] and [nd] rows of [dc] scaled by [b]. *)
Definition mix (nm nd : Z) (b mc dc : R) : R :=
  (IZR nm * mc + IZR nd * (dc * b)) / IZR (nm + nd).

(** The brightness of the diverging rows: the mean multiplier over the
    number of levels. *)
Definition brightness self (ms : list Z) : R :=
  IZR (py_sum ms) / IZR (Z.of_nat (length ms))
  / IZR (Z.of_nat (length (DIVERGENCE_LEVELS self))).

Lemma foldl_add_IZR (l : list Z) (a : Z) :
  foldl (λ acc k, acc + IZR k) (IZR a) l = IZR (foldl Z.add a l).
Proof.
  revert a; induction l as [|x l IH]; intros a; simpl; [done|].
  by rewrite <- plus_IZR, IH.
Qed.

Lemma np_average_exact (l : list Z) :
  np_average l = IZR (py_sum l) / IZR (Z.of_nat (length l)).
Proof. unfold np_average, py_sum. exact_arith. by rewrite foldl_add_IZR. Qed.

Lemma foldl_rgb_add_replicate (n : nat) (acc r : rgb R) :
  foldl rgb_add acc (replicate n r)
  = (acc.1.1 + INR n * r.1.1, acc.1.2 + INR n * r.1.2, acc.2 + INR n * r.2).
Proof.
  revert acc; induction n as [|n IH]; intros [[a1 a2] a3].
  - simpl. f_equal; [f_equal|]; lra.
  - rewrite replicate_S, S_INR. cbn [foldl]. rewrite IH.
    destruct r as [[r1 r2] r3]. unfold rgb_add. exact_arith. simpl.
    f_equal; [f_equal|]; lra.
Qed.

(** The aggregation when both colours are present and there is at least
    one sample: each channel is the weighted mean [mix]. *)
Lemma pixel_color_mix self colors nm nd ms m d :
  (0 ≤ nm)%Z → (0 ≤ nd)%Z → (0 < nm + nd)%Z →
  colors !! "m" = Some m → colors !! "d" = Some d →
  pixel_color self colors (Tally nm nd) ms =
  Ok (mix nm nd (brightness self ms) m.1.1 d.1.1,
      mix nm nd (brightness self ms) m.1.2 d.1.2,
      mix nm nd (brightness self ms) m.2 d.2).
Proof.
  intros Hnm Hnd Hn Hm Hd. unfold pixel_color, getitem. rewrite Hm, Hd.
  cbn [mbind result_bind].
  assert (∀ n r (color : list (rgb R)), (0 ≤ n)%Z →
    (if decide (0 < n)%Z then append_rows color n (Ok r) else Ok color)
    = Ok (color ++ replicate (Z.to_nat n) r)) as Hloop.
  { intros n r color ?. case_decide; [apply append_rows_Ok|].
    replace n with 0%Z by lia. by rewrite app_nil_r. }
  rewrite Hloop by done. cbn [mbind result_bind].
  rewrite Hloop by done. cbn [mbind result_bind app]. f_equal.
  unfold np_average_rows. rewrite length_app, !length_replicate, foldl_app.
  rewrite !foldl_rgb_add_replicate. rewrite np_average_exact.
  fold (brightness self ms). destruct m as [[m1 m2] m3], d as [[d1 d2] d3].
  unfold mix, rgb_scale. exact_arith. simpl.
  rewrite Nat2Z.inj_add, !Z2Nat.id, !INR_IZR_INZ, !Z2Nat.id by done.
  unfold brightness. by rewrite !Rplus_0_l.
Qed.

(** C8: in exact arithmetic, when the colours for ["m"] and ["d"] are
    given and the pixel has at least one sample, each channel of the
    pixel's colour is the mean of [tally['mandelbrot']] copies of the set
    colour and [tally['divergence']] copies of the diverging colour scaled
    by the mean multiplier over the number of levels. *)
Theorem pixel_color_weighted_mean self colors t ms m d r g b :
  (0 ≤ tally_mandelbrot t)%Z → (0 ≤ tally_divergence t)%Z →
  (0 < tally_mandelbrot t + tally_divergence t)%Z →
  colors !! "m" = Some m → colors !! "d" = Some d →
  pixel_color self colors t ms = Ok (r, g, b) →
  let n := IZR (tally_mandelbrot t + tally_divergence t) in
  let w := brightness self ms in
  r * n = IZR (tally_mandelbrot t) * m.1.1 + IZR (tally_divergence t) * (d.1.1 * w) ∧
  g * n = IZR (tally_mandelbrot t) * m.1.2 + IZR (tally_divergence t) * (d.1.2 * w) ∧
  b * n = IZR (tally_mandelbrot t) * m.2 + IZR (tally_divergence t) * (d.2 * w).
Proof.
  destruct t as [nm nd]. simpl. intros Hnm Hnd Hn Hm Hd.
  rewrite (pixel_color_mix self colors nm nd ms m d) by done.
  intros [= <- <- <-]. unfold mix.
  assert (0 < IZR (nm + nd)) by (by apply IZR_lt).
  split_and!; field; lra.
Qed.

(** In exact arithmetic a pixel whose sub-pixels are all in the set
    has exactly the colour [colors["m"]]. *)
Theorem pixel_color_member self colors nm ms m :
  (0 < nm)%Z → colors !! "m" = Some m →
  pixel_color self colors (Tally nm 0) ms = Ok m.
Proof.
  intros Hnm Hm. unfold pixel_color, getitem. rewrite Hm. simpl.
  rewrite decide_True, append_rows_Ok by done. simpl. f_equal.
  unfold np_average_rows. rewrite length_replicate, foldl_rgb_add_replicate.
  destruct m as [[m1 m2] m3]. exact_arith. simpl.
  rewrite INR_IZR_INZ, Z2Nat.id by lia.
  assert (0 < IZR nm) by (by apply IZR_lt).
  f_equal; [f_equal|]; field; lra.
Qed.

(** The mean of one row. *)
Lemma mix_member (b mc dc : R) : mix 1 0 b mc dc = mc.
Proof. unfold mix. change (IZR (1 + 0)) with 1. field. Qed.

Lemma mix_diverging self (k : Z) (mc dc : R) :
  configured self → mix 0 1 (brightness self [k]) mc dc = dc * (IZR k / 255).
Proof.
  intros Hcfg. unfold mix, brightness. rewrite Hcfg, DIVERGENCE_LEVELS_length.
  unfold py_sum. cbn [foldl length]. change (IZR (0 + 1)) with 1.
  change (IZR (Z.of_nat 1)) with 1. change (IZR (Z.of_nat 255)) with 255.
  rewrite Z.add_0_l. field.
Qed.

Lemma div_nonneg (x n : R) : 0 <= x → 0 < n → 0 <= x / n.
Proof.
  intros. unfold Rdiv. apply Rmult_le_pos; [done|].
  left. by apply Rinv_0_lt_compat.
Qed.

Lemma weighted_mean_bound (a b x y lo hi : R) :
  0 <= a → 0 <= b → 0 < a + b → lo <= x <= hi → lo <= y <= hi →
  lo <= (a * x + b * y) / (a + b) <= hi.
Proof.
  intros Ha Hb Hs Hx Hy.
  assert ((a * x + b * y) / (a + b) - lo = (a * (x - lo) + b * (y - lo)) / (a + b))
    as Hlo by (field; lra).
  assert (hi - (a * x + b * y) / (a + b) = (a * (hi - x) + b * (hi - y)) / (a + b))
    as Hhi by (field; lra).
  assert (0 <= (a * (x - lo) + b * (y - lo)) / (a + b))
    by (apply div_nonneg; nra).
  assert (0 <= (a * (hi - x) + b * (hi - y)) / (a + b))
    by (apply div_nonneg; nra).
  lra.
Qed.

Lemma div_le_bound (x n hi : R) : 0 < n → x <= hi * n → x / n <= hi.
Proof.
  intros. apply Rmult_le_reg_r with n; [done|].
  unfold Rdiv. rewrite Rmult_assoc, Rinv_l by lra. lra.
Qed.

Lemma div_ge_bound (x n lo : R) : 0 < n → lo * n <= x → lo <= x / n.
Proof.
  intros. apply Rmult_le_reg_r with n; [done|].
  unfold Rdiv. rewrite Rmult_assoc, Rinv_l by lra. lra.
Qed.

Lemma div_lt_bound (x n hi : R) : 0 < n → x < hi * n → x / n < hi.
Proof.
  intros. apply Rmult_lt_reg_r with n; [done|].
  unfold Rdiv. rewrite Rmult_assoc, Rinv_l by lra. lra.
Qed.

Lemma py_sum_bound (ms : list Z) (a hi : Z) :
  Forall (λ k, 0 ≤ k ≤ hi)%Z ms →
  (a ≤ foldl Z.add a ms ≤ a + hi * Z.of_nat (length ms))%Z.
Proof.
  revert a; induction ms as [|k ms IH]; intros a Hms; simpl; [lia|].
  apply Forall_cons in Hms as [Hk Hms]. specialize (IH (a + k)%Z Hms). nia.
Qed.

(** The brightness of a configured render is in [[0, 1)]: the mean of
    table positions over the table's length. *)
Lemma brightness_bound self (ms : list Z) :
  configured self → Forall (λ k, 0 ≤ k < 255)%Z ms → 0 <= brightness self ms < 1.
Proof.
  intros Hcfg Hms. unfold brightness. rewrite Hcfg, DIVERGENCE_LEVELS_length.
  destruct (decide (ms = [])) as [->|Hne].
  { simpl. unfold py_sum. simpl. rewrite Rdiv_0_l. unfold Rdiv. rewrite Rmult_0_l. lra. }
  assert (0 < length ms)%nat as Hlen by (destruct ms; simpl; [done | lia]).
  destruct (py_sum_bound ms 0 254) as [Hlo Hhi].
  { revert Hms. apply List.Forall_impl. intros; lia. }
  fold (py_sum ms) in Hlo, Hhi.
  assert (0 < IZR (Z.of_nat (length ms))) by (apply IZR_lt; lia).
  apply IZR_le in Hlo, Hhi. rewrite plus_IZR, mult_IZR in Hhi.
  assert (0 <= IZR (py_sum ms) / IZR (Z.of_nat (length ms)) <= 254) as [? ?].
  { split; [apply div_nonneg; lra|].
    apply div_le_bound; lra. }
  change (Z.of_nat 255) with 255%Z. split; [apply div_nonneg; lra|].
  apply div_lt_bound; lra.
Qed.

End exact_colour.

(** * The stored bytes *)

Section exact_store.
#[local] Open Scope R_scope.
Implicit Types (m d c : rgb R) (self : Fractal R).

(** Every channel is in the range of a byte. *)
Definition byte_rgb c : Prop :=
  0 <= c.1.1 <= 255 ∧ 0 <= c.1.2 <= 255 ∧ 0 <= c.2 <= 255.

Lemma mix_byte (nm nd : Z) (w mc dc : R) :
  (0 ≤ nm)%Z → (0 ≤ nd)%Z → (0 < nm + nd)%Z → 0 <= w < 1 →
  0 <= mc <= 255 → 0 <= dc <= 255 → 0 <= mix nm nd w mc dc <= 255.
Proof.
  intros Hnm%IZR_le Hnd%IZR_le Hn%IZR_lt Hw Hm Hd. unfold mix.
  rewrite plus_IZR in *. apply weighted_mean_bound; [lra.. |]. nra.
Qed.

Lemma to_uint8_byte (x : R) :
  0 <= x <= 255 → to_uint8 x = R_trunc x ∧ (0 ≤ R_trunc x ≤ 255)%Z.
Proof.
  intros Hx. destruct (R_trunc_bound x) as [Hlo Hhi]; [lra|].
  assert (0 ≤ R_trunc x ≤ 255)%Z as Ht.
  { split; [apply Z.lt_succ_r, lt_IZR | apply Z.lt_succ_r, lt_IZR];
      rewrite succ_IZR; lra. }
  split; [|done]. unfold to_uint8. exact_arith. apply Z.mod_small. lia.
Qed.

(** C29: in exact arithmetic, for byte colours and a tally produced by the
    sampler with at least one sample, every channel of the pixel's colour
    is between 0 and 255, so the store into the [uint8] image only
    truncates: it never wraps around. *)
Theorem pixel_color_byte_range self colors n t ms m d c :
  configured self → sampled n (t, ms) → (0 < n)%Z →
  colors !! "m" = Some m → colors !! "d" = Some d →
  byte_rgb m → byte_rgb d →
  pixel_color self colors t ms = Ok c →
  byte_rgb c ∧ stored c = (R_trunc c.1.1, R_trunc c.1.2, R_trunc c.2).
Proof.
  intros Hcfg (Hnm & Hnd & Hn & _ & Hms) Hpos Hm Hd (Hm1 & Hm2 & Hm3) (Hd1 & Hd2 & Hd3).
  destruct t as [nm nd]. simpl in *.
  rewrite (pixel_color_mix self colors nm nd ms m d) by (done || lia).
  intros [= <-]. pose proof (brightness_bound self ms Hcfg Hms) as Hw.
  assert (byte_rgb (mix nm nd (brightness self ms) m.1.1 d.1.1,
                    mix nm nd (brightness self ms) m.1.2 d.1.2,
                    mix nm nd (brightness self ms) m.2 d.2)) as Hc
    by (split_and!; simpl; apply mix_byte; (done || lia)).
  split; [done|]. destruct Hc as (H1 & H2 & H3). unfold stored.
  apply to_uint8_byte in H1 as [-> _], H2 as [-> _], H3 as [-> _]. done.
Qed.

End exact_store.

(** * Witnesses and evaluations *)

Lemma pixel_color_weighted_mean_witness :
  let t := Tally 1 1 in
  let n := IZR (tally_mandelbrot t + tally_divergence t) in
  let w := brightness (set_attributes (4, 4)%Z (-0.66, 0)%R 1.6%R 2 10 true) [0%Z] in
  (127.5 * n = IZR 1 * 255 + IZR 1 * (0 * w) ∧
   0 * n = IZR 1 * 0 + IZR 1 * (0 * w) ∧
   0 * n = IZR 1 * 0 + IZR 1 * (255 * w))%R.
Proof.
  apply (pixel_color_weighted_mean
           (set_attributes (4, 4)%Z (-0.66, 0)%R 1.6%R 2 10 true)
           {[ "m" := (255, 0, 0)%R; "d" := (0, 0, 255)%R ]}
           (Tally 1 1) [0%Z] (255, 0, 0)%R (0, 0, 255)%R 127.5%R 0%R 0%R);
    try done; simpl; try lia.
  rewrite (pixel_color_mix _ _ 1 1 [0%Z] (255, 0, 0)%R (0, 0, 255)%R) by (done || lia).
  match goal with |- context [brightness ?s ?l] =>
    assert (brightness s l = 0%R) as ->
      by (unfold brightness, py_sum, Rdiv; cbn [foldl Z.add]; by rewrite !Rmult_0_l)
  end.
  unfold mix. cbn [fst snd]. change (IZR (1 + 1)) with 2%R.
  f_equal. f_equal; [f_equal|]; lra.
Defined.

Lemma pixel_color_member_witness :
  pixel_color (set_attributes (4, 4)%Z (-0.66, 0)%R 1.6%R 1 10 true)
    {[ "m" := (255, 0, 0)%R ]} (Tally 1 0) [] = Ok (255, 0, 0)%R.
Proof. by apply pixel_color_member. Defined.

Lemma pixel_color_byte_range_witness :
  byte_rgb (255, 0, 0)%R ∧
  stored (255, 0, 0)%R = (R_trunc 255, R_trunc 0, R_trunc 0).
Proof.
  apply (pixel_color_byte_range
           (set_attributes (4, 4)%Z (-0.66, 0)%R 1.6%R 1 10 true)
           {[ "m" := (255, 0, 0)%R; "d" := (0, 0, 255)%R ]}
           1 (Tally 1 0) [] (255, 0, 0)%R (0, 0, 255)%R (255, 0, 0)%R);
    try done;
    try (by rewrite (pixel_color_mix _ _ 1 0 _ (255, 0, 0)%R (0, 0, 255)%R),
              !mix_member by (done || lia));
    unfold sampled, byte_rgb; simpl; split_and!; (lia || lra || done).
Defined.

(** On doubles: one channel of a pixel with a single sample, in the set,
    for every byte value. *)
Lemma member_channel_binary64 (z : Z) :
  (0 ≤ z < 256)%Z →
  to_uint8 ((0 + float_of_Z z) / float_of_Z (Z.of_nat 1))%float = z.
Proof.
  intros Hz.
  assert (forallb (λ z, to_uint8 ((0 + float_of_Z z) / float_of_Z (Z.of_nat 1))%float =? z)%Z
            (seqZ 0 256) = true) as Hall by (vm_compute; reflexivity).
  rewrite forallb_forall in Hall. apply Z.eqb_eq, Hall.
  apply list_elem_of_In, elem_of_seqZ. lia.
Qed.

(** On doubles, with a magnification of 1, a pixel whose sample is in
    the set stores exactly the bytes of [colors["m"]], for every colour
    with byte components. *)
Theorem member_pixel_stored_binary64 (self : Fractal float) (r g b : Z) :
  (0 ≤ r < 256)%Z → (0 ≤ g < 256)%Z → (0 ≤ b < 256)%Z →
  stored <$> pixel_color self {[ "m" := (float_of_Z r, float_of_Z g, float_of_Z b) ]}
               (Tally 1 0) []
  = Ok (r, g, b).
Proof.
  intros Hr Hg Hb. unfold pixel_color, getitem.
  rewrite lookup_singleton_eq. cbn [mbind result_bind tally_mandelbrot tally_divergence].
  rewrite decide_True, append_rows_Ok by lia. cbn [mbind result_bind].
  rewrite decide_False by lia. cbn [mbind result_bind fmap result_fmap]. f_equal.
  unfold stored, np_average_rows. cbn [app replicate Z.to_nat Pos.to_nat Pos.iter_op
    Nat.add foldl rgb_add fst snd length].
  f_equal; [f_equal|]; by apply member_channel_binary64.
Qed.

Lemma member_pixel_stored_binary64_witness :
  stored <$> pixel_color
               (set_attributes (4, 4)%Z (-0x1.51eb851eb851fp-1, 0)%float
                  0x1.999999999999ap+0%float 1 10 true)
               {[ "m" := (float_of_Z 255, float_of_Z 0, float_of_Z 0) ]}
               (Tally 1 0) []
  = Ok (255, 0, 0)%Z.
Proof. apply member_pixel_stored_binary64; lia. Defined.

(** On doubles, a pixel without any sample (a magnification of 0) looks
    no colour up and is the mean of an empty array, a NaN in every
    channel; the model of the store turns it into 0. *)
Example empty_pixel_binary64 (self : Fractal float) :
  pixel_color self ∅ (Tally 0 0) [] = Ok (nan, nan, nan) ∧
  stored (nan, nan, nan) = (0, 0, 0)%Z.
Proof. by vm_compute. Qed.
