(* ===== verification/Render.v ===== *)
(** * Render: the method [mandelbrot]

    The guards of lines 49-60 of [src/Fractals.py], the set-up of lines
    70-101 and the two nested pixel loops of lines 108-213 with the
    progress counter.  The state the loops update is the record
    [render_state]: the image array, the pixel counter [i], the last
    percentage printed [p_complete], and the list of the percentages
    printed so far, which stands for the calls to [print] and to the
    speech engine.  [mandelbrot] returns the final state, whose image is
    what the source hands to [write_image].

    Theorems, for every arithmetic: which arguments raise
    [OddResolutionError] and [TopError], and that nothing else raises
    them; the image returned is [render_spec], the row-major map of
    [pixel_value] over the pixel grid (so each pixel depends on the
    configuration only), it has the requested shape and holds bytes; the
    percentages printed start at 0 and increase strictly by multiples of
    10; in an arithmetic with [DivisionLaws], [mandelbrot] returns on all
    valid arguments, its outcome is the outcome of [render_spec] also
    when a pixel raises (the exception of the first such pixel, row by
    row), and its built-in exceptions are characterised for all
    arguments: never [ZeroDivisionError], [ValueError] exactly from the
    shapes of the set-up, [KeyError] only for a missing ["m"] or ["d"]
    inside the loops.  In exact arithmetic: the last percentage printed is
    [100 + (100 // n) // 10 * 10] for [n] pixels, and the bytes of a pixel
    sampled once.  On doubles: the 4 x 4 default view, the percentages
    printed for a 2 x 2 image, the guards, and the pixels of a render
    without samples. *)

From Stdlib Require Import ZArith Floats Reals Lra Lia.
From stdpp Require Import base tactics list numbers strings gmap sorting.
From S2P Require Import Prelude Numeric Binary64 Levels Geometry Escape Sampler Colour.

(** * Definitions *)

(** The literals of the signature: [(-0.66, 0)] of line 55 and the
    default [top=1.6] of line 41. *)
Class Defaults (F : Type) : Type := {
  default_real : F;
  default_top : F;
}.

#[export] Instance binary64_defaults : Defaults float := {|
  default_real := (-0x1.51eb851eb851fp-1)%float;
  default_top := 0x1.999999999999ap+0%float;
|}.

#[export] Instance exact_defaults : Defaults R := {|
  default_real := (-0.66)%R;
  default_top := 1.6%R;
|}.

(** The tuple [(-0.66, 0)] of line 55, whose second component is the
    [int] 0, as the caller would have passed it and as the arithmetic
    reads it. *)
Definition default_center_literal {F} `{Defaults F} : number F * number F :=
  (PyFloat default_real, PyInt 0).

Definition default_center {F} `{Number F} `{Defaults F} : F * F :=
  floats default_center_literal.

(** A cell of the image: three bytes. *)
Definition pixel : Type := Z * Z * Z.

(** The array [image_array] is the list of its rows, top first.
    [np.zeros((h, w, 3), dtype=np.uint8)]: [ValueError] on a negative
    dimension. *)
Definition np_zeros (h w : Z) : result (list (list pixel)) :=
  if decide (h < 0 ∨ w < 0)%Z then Raise ValueError
  else Ok (replicate (Z.to_nat h) (replicate (Z.to_nat w) (0, 0, 0)%Z)).

(** [image_array[pixel_y, pixel_x] = value], for indices in range. *)
Definition setitem (image_array : list (list pixel)) (pixel_y pixel_x : Z)
    (value : pixel) : list (list pixel) :=
  alter (λ row, <[Z.to_nat pixel_x := value]> row) (Z.to_nat pixel_y) image_array.

(** The variables the pixel loops update. *)
Record render_state : Type := RenderState {
  image_array : list (list pixel);
  i : Z;
  p_complete : Z;
  printed : list Z;
}.

Section render.
Context {F : Type} `{Number F} `{Defaults F}.
#[local] Open Scope num_scope.

(** Lines 112-189 for one pixel: the bytes stored in its cell. *)
Definition pixel_value (self : Fractal F) (colors : gmap string (rgb F))
    (pixel_y pixel_x : Z) : result pixel :=
  '(t, divergence_multipliers) ← sample_pixel self pixel_x pixel_y;
  color ← pixel_color self colors t divergence_multipliers;
  Ok (stored color).

(** Lines 193-213: the progress counter after a pixel. *)
Definition progress (self : Fractal F) (st : render_state) : result render_state :=
  let i := (i st + 1)%Z in
  percent_complete ← py_truediv (of_int (i + 1))
                        (of_int ((IMAGE_SIZE self).1 * (IMAGE_SIZE self).2));
  let p_complete_ := (to_int (num_mul percent_complete (of_int 100)) `div` 10 * 10)%Z in
  if decide (p_complete st < p_complete_)%Z
  then Ok (RenderState (image_array st) i p_complete_ (printed st ++ [p_complete_]))
  else Ok (RenderState (image_array st) i (p_complete st) (printed st)).

(** Lines 110-213: the body of the loop over [pixel_x]. *)
Definition render_pixel (self : Fractal F) (colors : gmap string (rgb F))
    (pixel_y : Z) (st : render_state) (pixel_x : Z) : result render_state :=
  value ← pixel_value self colors pixel_y pixel_x;
  progress self (RenderState (setitem (image_array st) pixel_y pixel_x value)
                             (i st) (p_complete st) (printed st)).

(** Lines 108-213: the body of the loop over [pixel_y]. *)
Definition render_row (self : Fractal F) (colors : gmap string (rgb F))
    (st : render_state) (pixel_y : Z) : result render_state :=
  foldlM (render_pixel self colors pixel_y) st (range 0 (IMAGE_SIZE self).1).

(** Lines 75-213: the work of [mandelbrot] once the guards have passed
    and the attributes are set. *)
Definition render (self : Fractal F) (colors : gmap string (list F)) : result render_state :=
  colors ← reshape_colors colors;
  image_array ← np_zeros (IMAGE_SIZE self).2 (IMAGE_SIZE self).1;
  foldlM (render_row self colors) (RenderState image_array 0 0 [0%Z])
         (range 0 (IMAGE_SIZE self).2).

(** Lines 41-213: [mandelbrot], up to the call of [write_image]. *)
Definition mandelbrot (image_size : Z * Z) (colors : gmap string (list F))
    (center : option (F * F)) (top : F) (magnification divergence_iterations : Z)
    (speak : bool) : result render_state :=
  if decide (image_size.1 `mod` 2 = 1 ∨ image_size.2 `mod` 2 = 1)%Z
  then Raise OddResolutionError else
  let center := default default_center center in
  if top <=? center.2 then Raise TopError else
  render (set_attributes image_size center top magnification
            divergence_iterations speak) colors.

(** The image as a function of the configuration: the value of every
    pixel, row by row.  The specification the loops are proved against. *)
Definition render_spec (self : Fractal F) (colors : gmap string (rgb F)) :
    result (list (list pixel)) :=
  mapM (λ pixel_y, mapM (pixel_value self colors pixel_y) (range 0 (IMAGE_SIZE self).1))
       (range 0 (IMAGE_SIZE self).2).

(** A cell holds three bytes. *)
Definition byte_pixel (value : pixel) : Prop :=
  (0 ≤ value.1.1 < 256 ∧ 0 ≤ value.1.2 < 256 ∧ 0 ≤ value.2 < 256)%Z.

(** What the loops keep true of the messages: the first announces 0, the
    last announces [p_complete], they increase strictly and are multiples
    of 10. *)
Definition progress_log (st : render_state) : Prop :=
  head (printed st) = Some 0%Z ∧ last (printed st) = Some (p_complete st) ∧
  StronglySorted Z.lt (printed st) ∧ Forall (λ p, p `mod` 10 = 0)%Z (printed st).

(** The arguments a render is meant for: even non-negative dimensions, a
    top edge the guard of line 59 accepts, colours of three components
    for both keys. *)
Definition valid_arguments (image_size : Z * Z) (colors : gmap string (list F))
    (center : option (F * F)) (top : F) : Prop :=
  (image_size.1 `mod` 2 = 0)%Z ∧ (image_size.2 `mod` 2 = 0)%Z ∧
  (0 ≤ image_size.1)%Z ∧ (0 ≤ image_size.2)%Z ∧
  (top <=? (default default_center center).2) = false ∧
  map_Forall (λ _ value, length value = 3%nat) colors ∧
  is_Some (colors !! "m") ∧ is_Some (colors !! "d").

(** * Exceptions *)

Lemma pixel_value_Raise_inv self colors pixel_y pixel_x e :
  pixel_value self colors pixel_y pixel_x = Raise e → builtin e.
Proof.
  unfold pixel_value.
  intros [[-> | ->]%sample_pixel_Raise_inv|([t ms] & _ & Hc)]%bind_Raise_inv; [done..|].
  apply bind_Raise_inv in Hc as [(key & ->)%pixel_color_Raise_inv|(c & _ & ?)]; done.
Qed.

Lemma progress_Raise_inv self st e : progress self st = Raise e → builtin e.
Proof.
  unfold progress.
  intros [->%py_truediv_Raise_inv|(p & _ & Hp)]%bind_Raise_inv; [done|].
  by destruct (decide _).
Qed.

Lemma render_pixel_Raise_inv self colors pixel_y st pixel_x e :
  render_pixel self colors pixel_y st pixel_x = Raise e → builtin e.
Proof.
  unfold render_pixel.
  intros [?%pixel_value_Raise_inv|(v & _ & ?%progress_Raise_inv)]%bind_Raise_inv; done.
Qed.

Lemma render_row_Raise_inv self colors st pixel_y e :
  render_row self colors st pixel_y = Raise e → builtin e.
Proof. by intros (st' & x & _ & ?%render_pixel_Raise_inv)%foldlM_Raise_inv. Qed.

Lemma render_Raise_inv self colors e : render self colors = Raise e → builtin e.
Proof.
  unfold render, reshape_colors, np_zeros.
  intros [Hc|(colors' & _ & [Hz|(img & _ & Hl)]%bind_Raise_inv)]%bind_Raise_inv.
  - destruct (decide _); [done|]. by injection Hc as <-.
  - destruct (decide _); [|done]. by injection Hz as <-.
  - by apply foldlM_Raise_inv in Hl as (st' & y & _ & ?%render_row_Raise_inv).
Qed.

(** C15: [mandelbrot] raises [OddResolutionError] exactly when the width
    or the height is odd, whatever the other arguments: the check comes
    first and nothing after it raises that class. *)
Theorem mandelbrot_OddResolutionError image_size colors center top
    magnification divergence_iterations speak :
  mandelbrot image_size colors center top magnification divergence_iterations speak
  = Raise OddResolutionError ↔
  (image_size.1 `mod` 2 = 1 ∨ image_size.2 `mod` 2 = 1)%Z.
Proof.
  unfold mandelbrot. destruct (decide _) as [Hodd|Heven]; [done|].
  split; [|done]. destruct (_ <=? _); [done|]. by intros ?%render_Raise_inv.
Qed.

(** C16: [mandelbrot] raises [TopError] exactly when both dimensions are
    even and [top] is not above the imaginary part of the centre, the
    default centre [(-0.66, 0)] standing for a centre that is not given. *)
Theorem mandelbrot_TopError image_size colors center top
    magnification divergence_iterations speak :
  mandelbrot image_size colors center top magnification divergence_iterations speak
  = Raise TopError ↔
  (image_size.1 `mod` 2 ≠ 1 ∧ image_size.2 `mod` 2 ≠ 1)%Z ∧
  (top <=? (default default_center center).2) = true.
Proof.
  unfold mandelbrot. destruct (decide _) as [Hodd|Heven].
  - split; [done|]. intros [[? ?] _]. by destruct Hodd.
  - destruct (_ <=? _).
    + split; [|done]. intros _. split; [|done]. split; intros ?; apply Heven; auto.
    + split; [by intros ?%render_Raise_inv | by intros [_ ?]].
Qed.

(** C37: the guards let a negative even dimension through: [mandelbrot]
    then raises the [ValueError] of NumPy, from [reshape] or from
    [np.zeros], instead of one of its own exceptions. *)
Theorem mandelbrot_negative_size image_size colors center top
    magnification divergence_iterations speak :
  (image_size.1 `mod` 2 = 0 ∧ image_size.2 `mod` 2 = 0)%Z →
  (top <=? (default default_center center).2) = false →
  (image_size.1 < 0 ∨ image_size.2 < 0)%Z →
  mandelbrot image_size colors center top magnification divergence_iterations speak
  = Raise ValueError.
Proof.
  intros Heven Htop Hneg. unfold mandelbrot. rewrite decide_False by lia.
  rewrite Htop. unfold render, reshape_colors, np_zeros.
  destruct (decide (_ ∨ _)) as [_|Hn]; [|exfalso; apply Hn; simpl; lia].
  by destruct (decide _).
Qed.

(** Every other exception of [mandelbrot] is one of Python's or NumPy's
    own and is raised by [render], after both guards have let the
    arguments through. *)
Lemma mandelbrot_builtin_exception image_size colors center top
    magnification divergence_iterations speak e :
  builtin e →
  mandelbrot image_size colors center top magnification divergence_iterations speak
  = Raise e →
  (image_size.1 `mod` 2 ≠ 1 ∧ image_size.2 `mod` 2 ≠ 1)%Z ∧
  (top <=? (default default_center center).2) = false ∧
  render (set_attributes image_size (default default_center center) top magnification
            divergence_iterations speak) colors = Raise e.
Proof.
  intros He. unfold mandelbrot. destruct (decide _) as [Hodd|Heven].
  - by intros [= <-].
  - destruct (_ <=? _); [by intros [= <-]|]. intros Hr.
    split; [|done]. split; intros ?; apply Heven; auto.
Qed.

(** * The image *)

Lemma progress_image self st st' :
  progress self st = Ok st' → image_array st' = image_array st.
Proof.
  unfold progress. intros (p & _ & Hp)%bind_Ok_inv.
  destruct (decide _); by injection Hp as <-.
Qed.

Lemma render_pixel_image self colors pixel_y st pixel_x st' :
  render_pixel self colors pixel_y st pixel_x = Ok st' →
  ∃ v, pixel_value self colors pixel_y pixel_x = Ok v ∧
       image_array st' = setitem (image_array st) pixel_y pixel_x v.
Proof.
  unfold render_pixel. intros (v & Hv & ->%progress_image)%bind_Ok_inv. by exists v.
Qed.

(** The loop over [pixel_x] replaces row [pixel_y] by the values of its
    pixels and leaves the other rows alone. *)
Lemma render_row_image self colors st pixel_y st' row0 :
  image_array st !! Z.to_nat pixel_y = Some row0 →
  Z.of_nat (length row0) = (IMAGE_SIZE self).1 →
  render_row self colors st pixel_y = Ok st' →
  ∃ row, mapM (pixel_value self colors pixel_y) (range 0 (IMAGE_SIZE self).1) = Ok row ∧
         image_array st' = <[Z.to_nat pixel_y:=row]> (image_array st).
Proof.
  intros Hrow Hlen. unfold render_row, range. rewrite Z.sub_0_r, <- Hlen.
  pose proof (lookup_lt_Some _ _ _ Hrow) as Hy.
  intros Hl. eapply (foldlM_fill
    (λ s, ∃ row, image_array s = <[Z.to_nat pixel_y:=row]> (image_array st))
    (λ s, image_array s !!! Z.to_nat pixel_y) _ _) with (done := []) in Hl;
    [| |exists row0; symmetry; by apply list_insert_id|done|done
     |by apply list_lookup_total_correct].
  - destruct Hl as ((row & Hst') & vals & Hvals & Hget). exists vals. split; [done|].
    rewrite Hst', list_lookup_total_insert_eq in Hget by done. by rewrite Hst', Hget.
  - intros s x s' (row & Hs) _ _ (v & Hv & Hs')%render_pixel_image.
    unfold setitem in Hs'. rewrite Hs, list_alter_insert in Hs'.
    split; [by eexists|]. exists v. split; [done|].
    by rewrite Hs, Hs', !list_lookup_total_insert_eq by done.
Qed.

(** What [pixel_value] returns is three bytes. *)
Lemma pixel_value_byte self colors pixel_y pixel_x v :
  pixel_value self colors pixel_y pixel_x = Ok v → byte_pixel v.
Proof.
  unfold pixel_value. intros ([t ms] & _ & (c & _ & [= <-])%bind_Ok_inv)%bind_Ok_inv.
  unfold byte_pixel, stored, to_uint8. simpl.
  split_and!; apply Z.mod_pos_bound; lia.
Qed.

(** The loop over [pixel_y] fills an array of the right shape row by
    row: what it leaves is the image of the specification. *)
Lemma render_rows_image self colors st st' :
  Forall (λ row, Z.of_nat (length row) = (IMAGE_SIZE self).1) (image_array st) →
  Z.of_nat (length (image_array st)) = (IMAGE_SIZE self).2 →
  foldlM (render_row self colors) st (range 0 (IMAGE_SIZE self).2) = Ok st' →
  render_spec self colors = Ok (image_array st').
Proof.
  intros Hw Hh Hl. unfold render_spec.
  replace (range 0 (IMAGE_SIZE self).2)
    with (seqZ 0 (Z.of_nat (length (image_array st)))) in Hl |- *
    by (unfold range; f_equal; lia).
  eapply (foldlM_fill
    (λ s, Forall (λ row, Z.of_nat (length row) = (IMAGE_SIZE self).1) (image_array s))
    image_array _ _) with (done := []) in Hl; [| |done..].
  - by destruct Hl as (_ & vals & Hvals & ->).
  - intros s y s' Hs Hy Hlt Hr.
    destruct (lookup_lt_is_Some_2 _ _ Hlt) as [row0 Hrow0].
    pose proof (Forall_lookup_1 _ _ _ _ Hs Hrow0) as Hlen0. simpl in Hlen0.
    destruct (render_row_image _ _ _ _ _ _ Hrow0 Hlen0 Hr) as (row & Hrow & ->).
    split; [|by exists row]. apply Forall_insert; [done|].
    apply length_mapM_Ok in Hrow. rewrite Hrow, length_range. lia.
Qed.

Lemma render_image self colors st :
  render self colors = Ok st →
  ∃ colors', reshape_colors colors = Ok colors' ∧
             render_spec self colors' = Ok (image_array st).
Proof.
  unfold render. intros (colors' & Hc & (img & Hz & Hl)%bind_Ok_inv)%bind_Ok_inv.
  exists colors'. split; [done|]. unfold np_zeros in Hz.
  destruct (decide _) as [|Hneg]; [done|]. injection Hz as <-.
  eapply render_rows_image; [| |done]; simpl.
  - apply Forall_replicate. rewrite length_replicate. lia.
  - rewrite length_replicate. lia.
Qed.

Lemma mandelbrot_render image_size colors center top magnification
    divergence_iterations speak st :
  mandelbrot image_size colors center top magnification divergence_iterations speak
  = Ok st →
  render (set_attributes image_size (default default_center center) top magnification
            divergence_iterations speak) colors = Ok st.
Proof. unfold mandelbrot. destruct (decide _); [done|]. by destruct (_ <=? _). Qed.

(** The image of the specification has the shape of the configuration
    and holds bytes. *)
Lemma render_spec_shape self colors img :
  render_spec self colors = Ok img →
  length img = Z.to_nat (IMAGE_SIZE self).2 ∧
  Forall (λ row, length row = Z.to_nat (IMAGE_SIZE self).1 ∧ Forall byte_pixel row) img.
Proof.
  intros Hs. split.
  - apply length_mapM_Ok in Hs. rewrite Hs, length_range. f_equal; lia.
  - revert Hs. apply mapM_Ok_Forall. intros y row _ Hrow. split.
    + apply length_mapM_Ok in Hrow. rewrite Hrow, length_range. f_equal; lia.
    + revert Hrow. apply mapM_Ok_Forall. intros x v _. apply pixel_value_byte.
Qed.

(** The cell of a pixel of the image of the specification holds the
    value of that pixel. *)
Lemma render_spec_lookup self colors img pixel_x pixel_y :
  render_spec self colors = Ok img →
  (0 ≤ pixel_x < (IMAGE_SIZE self).1)%Z → (0 ≤ pixel_y < (IMAGE_SIZE self).2)%Z →
  ∃ row, img !! Z.to_nat pixel_y = Some row ∧
         (pixel_value self colors pixel_y pixel_x ≫= λ v, Ok (Some v))
         = Ok (row !! Z.to_nat pixel_x).
Proof.
  intros Hs Hx Hy.
  eapply (mapM_Ok_lookup _ _ _ (Z.to_nat pixel_y) pixel_y) in Hs as (row & Hrow & Hr);
    [|apply lookup_range; lia].
  eapply (mapM_Ok_lookup _ _ _ (Z.to_nat pixel_x) pixel_x) in Hr as (v & Hv & ->);
    [|apply lookup_range; lia].
  exists row. by rewrite Hv.
Qed.

(** C2: when [mandelbrot] returns, the array it hands to [write_image]
    is the image of the specification: the in-place updates of the two
    nested loops compute, row by row, the value of every pixel. *)
Theorem mandelbrot_refines_render_spec image_size colors center top magnification
    divergence_iterations speak st :
  mandelbrot image_size colors center top magnification divergence_iterations speak
  = Ok st →
  ∃ colors', reshape_colors colors = Ok colors' ∧
    render_spec (set_attributes image_size (default default_center center) top
                   magnification divergence_iterations speak) colors'
    = Ok (image_array st).
Proof. by intros ?%mandelbrot_render%render_image. Qed.

(** C30: the image [mandelbrot] returns has [height] rows of [width]
    cells, each holding three bytes. *)
Theorem mandelbrot_image_shape image_size colors center top magnification
    divergence_iterations speak st :
  mandelbrot image_size colors center top magnification divergence_iterations speak
  = Ok st →
  length (image_array st) = Z.to_nat image_size.2 ∧
  Forall (λ row, length row = Z.to_nat image_size.1 ∧ Forall byte_pixel row)
         (image_array st).
Proof.
  intros (colors' & _ & Hs)%mandelbrot_render%render_image.
  by apply render_spec_shape in Hs.
Qed.

(** The cell of every pixel of the image [mandelbrot] returns holds
    the value of that pixel, which depends on the configuration and on
    the pixel's own indices only: not on the other pixels, nor on the
    progress counter. *)
Theorem mandelbrot_pixel image_size colors center top magnification
    divergence_iterations speak st colors' pixel_x pixel_y :
  mandelbrot image_size colors center top magnification divergence_iterations speak
  = Ok st →
  reshape_colors colors = Ok colors' →
  (0 ≤ pixel_x < image_size.1)%Z → (0 ≤ pixel_y < image_size.2)%Z →
  ∃ v, pixel_value (set_attributes image_size (default default_center center) top
                      magnification divergence_iterations speak) colors' pixel_y pixel_x
       = Ok v ∧
       image_array st !! Z.to_nat pixel_y ≫= (.!! Z.to_nat pixel_x) = Some v.
Proof.
  intros (colors'' & Hc & Hs)%mandelbrot_render%render_image Hc' Hx Hy.
  assert (colors'' = colors') as -> by congruence.
  eapply render_spec_lookup in Hs as (row & -> & Hv); [|done..]. simpl.
  apply bind_Ok_inv in Hv as (v & Hv & [= <-]). by exists v.
Qed.

(** * The progress messages *)

Lemma progress_log_snoc (l : list Z) (p p' : Z) :
  last l = Some p → StronglySorted Z.lt l → (p < p')%Z → StronglySorted Z.lt (l ++ [p']).
Proof.
  intros [l' ->]%last_Some Hl Hp. apply StronglySorted_app. split_and!; [|done|repeat constructor].
  apply StronglySorted_app in Hl as (Hlt & _ & _).
  intros q ? [Hq| ->%list_elem_of_singleton]%elem_of_app ->%list_elem_of_singleton; [|done].
  etrans; [|done]. apply Hlt; [done | by apply list_elem_of_singleton].
Qed.

Lemma progress_progress_log self st st' :
  progress_log st → progress self st = Ok st' → progress_log st'.
Proof.
  intros (Hh & Hl & Hs & Hm). unfold progress. intros (pc & _ & Hp)%bind_Ok_inv.
  destruct (decide _) as [Hlt|]; injection Hp as <-; [|done].
  unfold progress_log. simpl. split_and!.
  - apply head_Some in Hh as [l' ->]. done.
  - apply last_snoc.
  - by eapply progress_log_snoc.
  - apply Forall_app. split; [done|]. apply Forall_singleton, Z.mod_mul. lia.
Qed.

Lemma render_pixel_progress_log self colors pixel_y st pixel_x st' :
  progress_log st → render_pixel self colors pixel_y st pixel_x = Ok st' → progress_log st'.
Proof.
  intros Hst (v & _ & Hp)%bind_Ok_inv. by eapply progress_progress_log in Hp.
Qed.

Lemma render_progress_log self colors st : render self colors = Ok st → progress_log st.
Proof.
  unfold render. intros (colors' & _ & (img & _ & Hl)%bind_Ok_inv)%bind_Ok_inv.
  revert Hl. apply foldlM_preserves.
  - unfold progress_log. simpl. split_and!; [done..|repeat constructor|by constructor].
  - intros s y s' Hs _. apply foldlM_preserves; [done|].
    intros s1 x s1' ? _. by apply render_pixel_progress_log.
Qed.

(** The progress messages of a render that returns start with 0
    percent, each of them announces a multiple of 10 that is strictly
    above the one before, and the last is the final [p_complete]. *)
Theorem mandelbrot_progress_log image_size colors center top magnification
    divergence_iterations speak st :
  mandelbrot image_size colors center top magnification divergence_iterations speak
  = Ok st →
  head (printed st) = Some 0%Z ∧ last (printed st) = Some (p_complete st) ∧
  StronglySorted Z.lt (printed st) ∧ Forall (λ p, p `mod` 10 = 0)%Z (printed st).
Proof. by intros ?%mandelbrot_render%render_progress_log. Qed.

(** * The pixel counter *)

Lemma render_pixel_i self colors pixel_y st pixel_x st' :
  render_pixel self colors pixel_y st pixel_x = Ok st' → i st' = (i st + 1)%Z.
Proof.
  intros (v & _ & (p & _ & Hp)%bind_Ok_inv)%bind_Ok_inv. cbv zeta in Hp.
  destruct (decide _); by injection Hp as <-.
Qed.

Lemma render_row_i self colors st pixel_y st' :
  render_row self colors st pixel_y = Ok st' →
  i st' = (i st + Z.max 0 (IMAGE_SIZE self).1)%Z.
Proof.
  intros Hl. eapply (foldlM_count i 1) in Hl; [|intros; by eapply render_pixel_i].
  rewrite length_range in Hl. lia.
Qed.

Lemma render_i self colors st :
  render self colors = Ok st → i st = ((IMAGE_SIZE self).1 * (IMAGE_SIZE self).2)%Z.
Proof.
  unfold render, np_zeros.
  intros (colors' & _ & (img & Hz & Hl)%bind_Ok_inv)%bind_Ok_inv.
  destruct (decide _) as [|Hneg]; [done|]. clear Hz.
  eapply (foldlM_count i (IMAGE_SIZE self).1) in Hl.
  - rewrite length_range in Hl. simpl in Hl. lia.
  - intros s y s' _ ->%render_row_i. lia.
Qed.

(** * Renders that return *)

Lemma progress_is_Ok self st :
  (of_int ((IMAGE_SIZE self).1 * (IMAGE_SIZE self).2) =? 0) = false →
  is_Ok (progress self st).
Proof.
  intros Hn. unfold progress, py_truediv. rewrite Hn. simpl.
  destruct (decide _); apply is_Ok_Ok.
Qed.

(** The loops return when every pixel has a value and the division of
    the progress counter is defined. *)
Lemma render_is_Ok self colors colors' :
  reshape_colors colors = Ok colors' →
  (0 ≤ (IMAGE_SIZE self).1)%Z → (0 ≤ (IMAGE_SIZE self).2)%Z →
  (∀ pixel_x pixel_y,
     (0 ≤ pixel_x < (IMAGE_SIZE self).1)%Z → (0 ≤ pixel_y < (IMAGE_SIZE self).2)%Z →
     is_Ok (pixel_value self colors' pixel_y pixel_x) ∧
     (of_int ((IMAGE_SIZE self).1 * (IMAGE_SIZE self).2) =? 0) = false) →
  is_Ok (render self colors).
Proof.
  intros Hc Hw Hh Hpx. unfold render, np_zeros. rewrite Hc. simpl.
  rewrite decide_False by lia. simpl.
  edestruct (foldlM_invariant (λ _, True) (render_row self colors')) as (st & -> & _);
    [done| |apply is_Ok_Ok].
  intros s y _ Hy%elem_of_range.
  edestruct (foldlM_invariant (λ _, True) (render_pixel self colors' y)) as (s' & Hs' & _);
    [done| |by exists s'].
  intros s1 x _ Hx%elem_of_range. destruct (Hpx x y) as [[v Hv] Hn]; [done..|].
  unfold render_pixel. rewrite Hv. simpl.
  edestruct progress_is_Ok as [s1' ->]; [done|]. by exists s1'.
Qed.

Lemma mandelbrot_valid image_size colors center top magnification
    divergence_iterations speak :
  valid_arguments image_size colors center top →
  mandelbrot image_size colors center top magnification divergence_iterations speak
  = render (set_attributes image_size (default default_center center) top magnification
              divergence_iterations speak) colors.
Proof.
  intros (Hw & Hh & _ & _ & Htop & _). unfold mandelbrot.
  rewrite decide_False by lia. by rewrite Htop.
Qed.

(** With the laws of division, the loops of a configured render of
    non-negative size with both colours return. *)
Lemma render_returns `{!DivisionLaws F} self colors :
  configured self → (0 ≤ (IMAGE_SIZE self).1)%Z → (0 ≤ (IMAGE_SIZE self).2)%Z →
  map_Forall (λ _ value, length value = 3%nat) colors →
  is_Some (colors !! "m") → is_Some (colors !! "d") →
  is_Ok (render self colors).
Proof.
  intros Hcfg Hw Hh Hc Hm Hd. apply (render_is_Ok self colors (to_rgb <$> colors));
    [|done..|].
  - unfold reshape_colors. by rewrite decide_True.
  - intros x y Hx Hy. split.
    + unfold pixel_value.
      destruct (sample_pixel_returns self x y) as [[t ms] ->]; [done | lia |]. simpl.
      destruct (pixel_color_is_Ok self (to_rgb <$> colors) t ms) as [c ->];
        [rewrite lookup_fmap; by apply fmap_is_Some..|]. apply is_Ok_Ok.
    + apply of_int_eqb_0. nia.
Qed.

Lemma render_valid_is_Ok `{!DivisionLaws F} image_size colors center top magnification
    divergence_iterations speak :
  valid_arguments image_size colors center top →
  is_Ok (render (set_attributes image_size (default default_center center) top
                   magnification divergence_iterations speak) colors).
Proof.
  intros (_ & _ & Hw & Hh & _ & Hc & Hm & Hd). by apply render_returns.
Qed.

(** C1: in every arithmetic with the laws of division, the doubles the
    program runs on and exact arithmetic among them, [mandelbrot] returns
    for all valid arguments, whatever the
    magnification and the budget, and the array it returns is the image of
    the specification: no exception escapes the pipeline.  The pipeline
    takes the product for the power of line 268: Python agrees while the
    coordinates of the view stay below [2 ^ 511] in magnitude and raises
    [OverflowError] beyond (file Overflow). *)
Theorem mandelbrot_total `{!DivisionLaws F} image_size colors center top magnification
    divergence_iterations speak :
  valid_arguments image_size colors center top →
  ∃ st,
    mandelbrot image_size colors center top magnification divergence_iterations speak
    = Ok st ∧
    render_spec (set_attributes image_size (default default_center center) top
                   magnification divergence_iterations speak) (to_rgb <$> colors)
    = Ok (image_array st).
Proof.
  intros Hv. rewrite mandelbrot_valid by done.
  destruct (render_valid_is_Ok image_size colors center top magnification
              divergence_iterations speak Hv) as [st Hst].
  exists st. split; [done|]. apply render_image in Hst as (colors' & Hc' & Hs).
  destruct Hv as (_ & _ & _ & _ & _ & Hc & _).
  unfold reshape_colors in Hc'. rewrite decide_True in Hc' by done. by injection Hc' as <-.
Qed.

(** * Renders that raise *)

(** With the laws of division, all the work of a pixel can raise is the
    [KeyError] of a colour that is missing and needed. *)
Lemma pixel_value_Raise_key `{!DivisionLaws F} self colors pixel_y pixel_x e :
  configured self → (IMAGE_SIZE self).2 ≠ 0%Z →
  pixel_value self colors pixel_y pixel_x = Raise e →
  ∃ key, e = KeyError key ∧ (key = "m" ∨ key = "d") ∧ colors !! key = None ∧
         (0 < MAGNIFICATION self)%Z.
Proof.
  intros Hcfg Hh. unfold pixel_value.
  destruct (sample_pixel_returns self pixel_x pixel_y Hcfg Hh) as [[t ms] Hs].
  rewrite Hs. simpl. apply sample_pixel_sampled in Hs as (? & ? & ? & _); [|done].
  simpl in *.
  intros [(key & -> & ? & [[-> ?]|[-> ?]])%pixel_color_Raise_key|(c & _ & ?)]%bind_Raise_inv;
    [| |done]; eexists; split_and!; eauto with lia.
Qed.

(** Inside the loops the progress counter does not raise. *)
Lemma render_pixel_Raise_iff `{!DivisionLaws F} self colors pixel_y st pixel_x e :
  (0 < (IMAGE_SIZE self).1)%Z → (0 < (IMAGE_SIZE self).2)%Z →
  render_pixel self colors pixel_y st pixel_x = Raise e ↔
  pixel_value self colors pixel_y pixel_x = Raise e.
Proof.
  intros Hw Hh. unfold render_pixel.
  destruct (pixel_value self colors pixel_y pixel_x) as [value|e']; simpl;
    [|by split; intros [= ->]].
  edestruct (progress_is_Ok self) as [st' ->]; [apply of_int_eqb_0; nia|]. by split.
Qed.

(** An exception of the loops is the exception of the specification: that
    of the first pixel, row by row, whose value raises. *)
Lemma render_rows_Raise_iff `{!DivisionLaws F} self colors st e :
  foldlM (render_row self colors) st (range 0 (IMAGE_SIZE self).2) = Raise e ↔
  render_spec self colors = Raise e.
Proof.
  apply foldlM_Raise_mapM. intros st' pixel_y e' Hy%elem_of_range.
  apply foldlM_Raise_mapM. intros st'' pixel_x e'' Hx%elem_of_range.
  apply render_pixel_Raise_iff; lia.
Qed.

Lemma render_spec_Raise_key `{!DivisionLaws F} self colors e :
  configured self → render_spec self colors = Raise e →
  ∃ key, e = KeyError key ∧ (key = "m" ∨ key = "d") ∧ colors !! key = None ∧
         (0 < (IMAGE_SIZE self).1 ∧ 0 < (IMAGE_SIZE self).2 ∧ 0 < MAGNIFICATION self)%Z.
Proof.
  intros Hcfg Hs. apply (render_rows_Raise_iff self colors (RenderState [] 0 0 [])) in Hs.
  apply foldlM_Raise_inv in Hs as (st & pixel_y & Hy%elem_of_range & Hs).
  apply foldlM_Raise_inv in Hs as (st' & pixel_x & Hx%elem_of_range & Hs).
  apply render_pixel_Raise_iff in Hs; [|lia..].
  apply pixel_value_Raise_key in Hs as (key & ? & ? & ? & ?); [|done|lia].
  exists key. split_and!; auto with lia.
Qed.

(** The outcome of [render], image or exception, is the outcome of the
    specification, once the colours are reshaped and the array is
    allocated. *)
Lemma render_outcome `{!DivisionLaws F} self colors :
  map_Forall (λ _ value, length value = 3%nat) colors →
  (0 ≤ (IMAGE_SIZE self).1)%Z → (0 ≤ (IMAGE_SIZE self).2)%Z →
  image_array <$> render self colors = render_spec self (to_rgb <$> colors).
Proof.
  intros Hc Hw Hh. destruct (render self colors) as [st|e] eqn:Hr; simpl.
  - apply render_image in Hr as (colors' & Hc' & Hs).
    unfold reshape_colors in Hc'. rewrite decide_True in Hc' by done.
    injection Hc' as <-. by rewrite Hs.
  - symmetry. revert Hr. unfold render, reshape_colors, np_zeros.
    destruct (decide (map_Forall _ colors)); [|done]. simpl.
    destruct (decide (_ ∨ _)%Z); [lia|]. simpl. apply render_rows_Raise_iff.
Qed.

(** Every exception of [render], with the laws of division. *)
Lemma render_Raise_cases `{!DivisionLaws F} self colors e :
  configured self → render self colors = Raise e →
  (e = ValueError ∧
   (¬ map_Forall (λ _ value, length value = 3%nat) colors ∨
    (IMAGE_SIZE self).1 < 0 ∨ (IMAGE_SIZE self).2 < 0)%Z) ∨
  (∃ key, e = KeyError key ∧ (key = "m" ∨ key = "d") ∧ colors !! key = None ∧
          (0 < (IMAGE_SIZE self).1 ∧ 0 < (IMAGE_SIZE self).2 ∧ 0 < MAGNIFICATION self)%Z).
Proof.
  intros Hcfg. unfold render, reshape_colors, np_zeros.
  destruct (decide (map_Forall _ colors)); [|intros [= <-]; left; auto]. simpl.
  destruct (decide (_ ∨ _)%Z); [intros [= <-]; left; split; [done|lia]|]. simpl.
  intros (key & ? & ? & Hkey & ? & ? & ?)%render_rows_Raise_iff%render_spec_Raise_key;
    [|done].
  right. exists key. split_and!; try done. by rewrite lookup_fmap, fmap_None in Hkey.
Qed.

Lemma render_ValueError self colors :
  (¬ map_Forall (λ _ value, length value = 3%nat) colors ∨
   (IMAGE_SIZE self).1 < 0 ∨ (IMAGE_SIZE self).2 < 0)%Z →
  render self colors = Raise ValueError.
Proof.
  intros Hbad. unfold render, reshape_colors, np_zeros.
  destruct (decide (map_Forall _ colors)); [|done]. simpl.
  destruct (decide (_ ∨ _)%Z) as [|Hn]; [done|]. destruct Hbad as [?|?]; [done|lia].
Qed.

(** C14: in every arithmetic with the laws of division, the doubles among
    them, what [mandelbrot] does with arguments that pass its guards and
    can be allocated is what the specification does, exceptions included:
    it returns the image of the specification, or it raises the exception
    of the first pixel, row by row, whose value raises.  The progress
    counter and the stores never add, hide or reorder an exception. *)
Theorem mandelbrot_outcome_is_render_spec `{!DivisionLaws F} image_size colors center top
    magnification divergence_iterations speak :
  (image_size.1 `mod` 2 = 0 ∧ image_size.2 `mod` 2 = 0)%Z →
  (0 ≤ image_size.1 ∧ 0 ≤ image_size.2)%Z →
  (top <=? (default default_center center).2) = false →
  map_Forall (λ _ value, length value = 3%nat) colors →
  image_array <$>
    mandelbrot image_size colors center top magnification divergence_iterations speak
  = render_spec (set_attributes image_size (default default_center center) top
                   magnification divergence_iterations speak) (to_rgb <$> colors).
Proof.
  intros [Hw2 Hh2] [Hw Hh] Htop Hc. unfold mandelbrot.
  rewrite decide_False by lia. rewrite Htop. by apply render_outcome.
Qed.

(** C5: the built-in exceptions of [mandelbrot], for all arguments, in
    every arithmetic with the laws of division (the doubles among them).
    It never raises [ZeroDivisionError]: each of its divisions, by half
    the height, by the magnification and by the number of pixels, is
    inside the loop that makes its divisor positive.  It raises
    [ValueError] exactly when the guards pass and a colour has not three
    components or a dimension is negative, never from the [min] or the
    [index] of the bucket search.  It raises [KeyError] only for ["m"] or
    ["d"], only when that key is missing, and only from inside the loops
    of an image that has pixels and sub-pixels. *)
Theorem mandelbrot_builtin_exceptions `{!DivisionLaws F} image_size colors center top
    magnification divergence_iterations speak :
  let r := mandelbrot image_size colors center top magnification
             divergence_iterations speak in
  r ≠ Raise ZeroDivisionError ∧
  (r = Raise ValueError ↔
     (image_size.1 `mod` 2 ≠ 1 ∧ image_size.2 `mod` 2 ≠ 1)%Z ∧
     (top <=? (default default_center center).2) = false ∧
     (¬ map_Forall (λ _ value, length value = 3%nat) colors ∨
      image_size.1 < 0 ∨ image_size.2 < 0)%Z) ∧
  (∀ key, r = Raise (KeyError key) →
     (key = "m" ∨ key = "d") ∧ colors !! key = None ∧
     (0 < image_size.1 ∧ 0 < image_size.2 ∧ 0 < magnification)%Z).
Proof.
  intros r. subst r. split_and!.
  - intros (_ & _ & [[[=] _]|(key & [=] & _)]%render_Raise_cases)%mandelbrot_builtin_exception;
      done.
  - split.
    + intros (? & ? & [[_ ?]|(key & [=] & _)]%render_Raise_cases)%mandelbrot_builtin_exception;
        done.
    + intros ([? ?] & Htop & Hbad). unfold mandelbrot.
      rewrite decide_False by tauto. rewrite Htop. by apply render_ValueError.
  - intros key
      (_ & _ & [[[=] _]|(key' & [= <-] & ? & ? & ?)]%render_Raise_cases)%mandelbrot_builtin_exception;
      done.
Qed.

End render.

(** * Exact arithmetic *)

Section exact_render.
#[local] Open Scope Z_scope.
Implicit Types (self : Fractal R) (st : render_state).

(** The percentage line 198 computes once [j] of [n] pixels are counted,
    in integer arithmetic. *)
Definition percent (n j : Z) : Z := ((100 * (j + 1)) `div` n) `div` 10 * 10.

(** The counter after [j] pixels: the last percentage printed. *)
Definition counted (n : Z) (st : render_state) : Prop :=
  0 ≤ i st ∧ p_complete st = if decide (i st = 0) then 0 else percent n (i st).

(** The colour of a pixel that is sampled once, at the point [(re, im)]:
    the set colour for a point that stays in the disc for the whole
    budget, black for a point outside the disc, and the divergence colour
    scaled by the level of its escape otherwise. *)
Definition single_sample_color (D : Z) (m d : rgb R) (re im : R) : rgb R :=
  if coordinates_good re im then
    match escape_time (Complex re im) D with
    | None => m
    | Some d_i => rgb_scale d (IZR (Z.of_nat (bucket D d_i)) / 255)%R
    end
  else (0, 0, 0)%R.

Lemma R_trunc_percent (n j : Z) :
  0 < n → 0 ≤ j → R_trunc (IZR j / IZR n * IZR 100) = (100 * j) `div` n.
Proof.
  intros Hn Hj. pose proof (Z.mul_div_le (100 * j) n Hn) as Hlo.
  pose proof (Z.mul_succ_div_gt (100 * j) n Hn) as Hhi.
  set (q := (100 * j) `div` n) in *.
  assert (0 ≤ q) by (apply Z.div_pos; lia).
  apply IZR_le in Hlo. apply IZR_lt in Hhi. apply IZR_lt in Hn. apply IZR_le in Hj.
  rewrite !mult_IZR in Hlo, Hhi. rewrite succ_IZR in Hhi.
  replace (IZR j / IZR n * IZR 100)%R with (IZR 100 * IZR j / IZR n)%R by (field; lra).
  apply R_trunc_eq.
  - split; [apply div_ge_bound | apply div_lt_bound]; lra.
  - apply div_nonneg; [|done]. apply Rmult_le_pos; [|done]. by apply IZR_le.
Qed.

Lemma percent_mono n j1 j2 : 0 < n → j1 ≤ j2 → percent n j1 ≤ percent n j2.
Proof.
  intros. unfold percent. apply Z.mul_le_mono_nonneg_r; [lia|].
  apply Z.div_le_mono; [lia|]. apply Z.div_le_mono; lia.
Qed.

Lemma percent_nonneg n j : 0 < n → 0 ≤ j → 0 ≤ percent n j.
Proof.
  intros. unfold percent. apply Z.mul_nonneg_nonneg; [|lia].
  apply Z.div_pos; [|lia]. apply Z.div_pos; lia.
Qed.

Lemma percent_last n : 0 < n → percent n n = 100 + (100 `div` n) `div` 10 * 10.
Proof.
  intros. unfold percent.
  replace (100 * (n + 1)) with (100 * n + 100) by lia.
  rewrite Z.div_add_l by lia.
  replace (100 + 100 `div` n) with (10 * 10 + 100 `div` n) by lia.
  rewrite Z.div_add_l by lia. lia.
Qed.

(** What line 195-213 do to the counter, in exact arithmetic. *)
Lemma progress_exact self st :
  let n := (IMAGE_SIZE self).1 * (IMAGE_SIZE self).2 in
  let p := percent n (i st + 1) in
  0 < n → 0 ≤ i st →
  progress self st =
  Ok (RenderState (image_array st) (i st + 1) (Z.max (p_complete st) p)
        (if decide (p_complete st < p) then printed st ++ [p] else printed st)).
Proof.
  intros n p Hn Hi. unfold progress. rewrite py_truediv_exact.
  rewrite decide_False by (apply not_0_IZR; fold n; lia). simpl.
  exact_arith. fold n. rewrite R_trunc_percent by lia. fold (percent n (i st + 1)). fold p.
  destruct (decide _); do 2 f_equal; lia.
Qed.

Lemma progress_counted self st st' :
  let n := (IMAGE_SIZE self).1 * (IMAGE_SIZE self).2 in
  0 < n → counted n st → progress self st = Ok st' → counted n st'.
Proof.
  intros n Hn [Hi Hp]. rewrite progress_exact by done. intros [= <-].
  unfold counted. simpl. split; [lia|]. rewrite decide_False by lia. fold n.
  pose proof (percent_nonneg n (i st + 1) Hn).
  pose proof (percent_mono n (i st) (i st + 1) Hn).
  destruct (decide (i st = 0)); lia.
Qed.

Lemma render_counted self colors st :
  let n := (IMAGE_SIZE self).1 * (IMAGE_SIZE self).2 in
  0 < n → render self colors = Ok st → counted n st.
Proof.
  intros n Hn. unfold render.
  intros (colors' & _ & (img & _ & Hl)%bind_Ok_inv)%bind_Ok_inv.
  revert Hl. apply foldlM_preserves; [by split|].
  intros s y s' Hs _. apply foldlM_preserves; [done|].
  intros s1 x s1' Hs1 _ (v & _ & Hp)%bind_Ok_inv.
  eapply progress_counted in Hp; [done | done | exact Hs1].
Qed.

(** The last percentage a render of [n] pixels announces. *)
Lemma render_last_printed self colors st :
  let n := (IMAGE_SIZE self).1 * (IMAGE_SIZE self).2 in
  0 < n → render self colors = Ok st →
  last (printed st) = Some (100 + (100 `div` n) `div` 10 * 10).
Proof.
  intros n Hn Hr. destruct (render_counted _ _ _ Hn Hr) as [_ Hp].
  destruct (render_progress_log _ _ _ Hr) as (_ & -> & _).
  rewrite (render_i _ _ _ Hr) in Hp. fold n in Hp.
  rewrite decide_False, percent_last in Hp by lia. by rewrite Hp.
Qed.

(** In exact arithmetic the guard on [top] is the strict inequality. *)
Lemma valid_arguments_exact image_size (colors : gmap string (list R)) center top :
  image_size.1 `mod` 2 = 0 → image_size.2 `mod` 2 = 0 →
  0 ≤ image_size.1 → 0 ≤ image_size.2 →
  ((default default_center center).2 < top)%R →
  map_Forall (λ _ value, length value = 3%nat) colors →
  is_Some (colors !! "m") → is_Some (colors !! "d") →
  valid_arguments image_size colors center top.
Proof.
  intros ? ? ? ? Htop ? ? ?. split_and!; try done. exact_arith. by apply R_leb_gt.
Qed.

(** C13: in exact arithmetic the last message of a render of [n > 0]
    pixels announces [100 + (100 // n) // 10 * 10] percent: never less
    than 100, and more than 100 for an image of at most ten pixels,
    because line 195 adds one to a counter line 193 has already
    advanced. *)
Theorem mandelbrot_last_message_exact image_size colors center top magnification
    divergence_iterations speak :
  valid_arguments image_size colors center top →
  0 < image_size.1 * image_size.2 →
  ∃ st,
    mandelbrot image_size colors center top magnification divergence_iterations speak
    = Ok st ∧
    last (printed st)
    = Some (100 + (100 `div` (image_size.1 * image_size.2)) `div` 10 * 10).
Proof.
  intros Hv Hn. rewrite mandelbrot_valid by done.
  destruct (render_valid_is_Ok image_size colors center top magnification
              divergence_iterations speak Hv) as [st Hst].
  exists st. split; [done|]. by apply render_last_printed in Hst.
Qed.

(** C38: in exact arithmetic, with a magnification of 1, the bytes of a
    pixel are those of [single_sample_color] at the image of the pixel's
    bottom-right corner [(pixel_x + 1, pixel_y + 1)]: [colors['m']] for a
    point the budget does not see escape, black for a point outside the
    disc of radius 2, and [colors['d']] times
    [max(0, 255 - budget // (d_i + 1)) / 255] for a point that escapes at
    iteration [d_i]. *)
Theorem pixel_value_single_sample self colors m d pixel_x pixel_y :
  configured self → MAGNIFICATION self = 1 → (IMAGE_SIZE self).2 ≠ 0 →
  colors !! "m" = Some m → colors !! "d" = Some d →
  pixel_value self colors pixel_y pixel_x =
  Ok (stored (single_sample_color (DIVERGENCE_ITERATIONS self) m d
    ((IZR pixel_x + 1 - IZR (CENTER_PIXEL self).1) * unit_per_pixel self + (CENTER self).1)
    ((IZR pixel_y + 1 - IZR (CENTER_PIXEL self).2) * unit_per_pixel self - (CENTER self).2))).
Proof.
  intros Hcfg HM Hh Hm Hd. unfold pixel_value, sample_pixel. rewrite HM.
  change (range 1 (1 + 1)) with [1]. cbn [foldlM]. unfold subpixel.
  rewrite HM, py_truediv_exact, decide_False by (apply not_0_IZR; lia).
  cbn [mbind result_bind]. rewrite pixels_to_coordinates_exact by done.
  cbn [mbind result_bind]. exact_arith.
  replace (IZR 1 / IZR 1)%R with 1%R by field.
  rewrite c_of_parts. unfold single_sample_color.
  cbn [tally_mandelbrot tally_divergence app]. change (0 + 1) with 1.
  destruct (coordinates_good _ _).
  - destruct (escape_time _ _) as [d_i|] eqn:Hesc.
    + apply escape_time_range in Hesc.
      rewrite Hcfg, divergence_multiplier_bucket by done. cbn [mbind result_bind].
      rewrite (pixel_color_mix _ _ 0 1 _ m d) by (done || lia). cbn [mbind result_bind].
      by rewrite !mix_diverging.
    + cbn [mbind result_bind].
      rewrite (pixel_color_mix _ _ 1 0 _ m d) by (done || lia). cbn [mbind result_bind].
      rewrite !mix_member. by destruct m as [[? ?] ?].
  - cbn [mbind result_bind].
    rewrite (pixel_color_mix _ _ 0 1 _ m d) by (done || lia). cbn [mbind result_bind].
    rewrite !mix_diverging by done. do 3 f_equal; [f_equal|..]; lra.
Qed.

End exact_render.

(** * Evaluation on doubles *)

(** The end-to-end scenario: the 4 x 4 default view with a budget of 10,
    red for the set and blue for the rest. *)
Example mandelbrot_4x4_binary64 :
  mandelbrot (4, 4)%Z {[ "m" := [255; 0; 0]%float; "d" := [0; 0; 255]%float ]}
    None default_top 1 10 true
  = Ok (RenderState
          [[(0, 0, 252); (0, 0, 253); (0, 0, 253); (0, 0, 250)];
           [(255, 0, 0); (255, 0, 0); (255, 0, 0); (0, 0, 252)];
           [(0, 0, 252); (0, 0, 253); (0, 0, 253); (0, 0, 250)];
           [(0, 0, 0); (0, 0, 250); (0, 0, 250); (0, 0, 250)]]%Z
          16 100 [0; 10; 20; 30; 40; 50; 60; 70; 80; 90; 100]%Z).
Proof. by vm_compute. Qed.

(** For a 2 x 2 image the last message announces 120 percent. *)
Example mandelbrot_2x2_progress_binary64 :
  printed <$> mandelbrot (2, 2)%Z {[ "m" := [255; 0; 0]%float; "d" := [0; 0; 255]%float ]}
                None default_top 1 10 true
  = Ok [0; 50; 70; 100; 120]%Z.
Proof. by vm_compute. Qed.

(** An odd width is refused before anything else is looked at, and a top
    edge on the centre line once the dimensions are even. *)
Example mandelbrot_guards_binary64 :
  mandelbrot (3, 4)%Z ∅ None 0%float 1 10 true = Raise OddResolutionError ∧
  mandelbrot (4, 4)%Z ∅ None 0%float 1 10 true = Raise TopError ∧
  mandelbrot (4, 4)%Z ∅ None 0x1.999999999999ap+0%float 1 10 true
  = Raise (KeyError "d").
Proof. by vm_compute. Qed.

(** C36: on doubles, with a magnification that is not positive no
    sub-pixel is sampled and no exception is raised: the mean of the empty
    array is a NaN and every pixel is stored as three zero bytes, whatever
    the colours. *)
Theorem pixel_value_no_sample_binary64 (self : Fractal float) colors pixel_y pixel_x :
  (MAGNIFICATION self ≤ 0)%Z →
  pixel_value self colors pixel_y pixel_x = Ok (0, 0, 0)%Z.
Proof.
  intros HM. unfold pixel_value, sample_pixel. by rewrite range_empty by lia.
Qed.

(** * Witnesses *)

Lemma mandelbrot_negative_size_witness :
  mandelbrot (-2, 2)%Z {[ "m" := [255; 0; 0]%float; "d" := [0; 0; 255]%float ]}
    None 0x1.999999999999ap+0%float 1 10 true
  = Raise ValueError.
Proof. apply mandelbrot_negative_size; [done | done | simpl; lia]. Defined.

Lemma pixel_value_single_sample_witness :
  let self := set_attributes (4, 4)%Z (-0.66, 0)%R 1.6%R 1 10 true in
  let m := (255, 0, 0)%R in
  let d := (0, 0, 255)%R in
  pixel_value self {[ "m" := m; "d" := d ]} 1 0 =
  Ok (stored (single_sample_color (DIVERGENCE_ITERATIONS self) m d
    ((IZR 0 + 1 - IZR (CENTER_PIXEL self).1) * unit_per_pixel self + (CENTER self).1)
    ((IZR 1 + 1 - IZR (CENTER_PIXEL self).2) * unit_per_pixel self - (CENTER self).2))).
Proof.
  intros self m d. apply pixel_value_single_sample; [done | done | done | |].
  - by rewrite lookup_insert_eq.
  - by rewrite lookup_insert_ne, lookup_singleton_eq.
Defined.

Lemma pixel_value_no_sample_binary64_witness :
  pixel_value (set_attributes (4, 4)%Z (-0x1.51eb851eb851fp-1, 0)%float
                 0x1.999999999999ap+0%float 0 10 true)
    {[ "m" := (255, 0, 0)%float; "d" := (0, 0, 255)%float ]} 0 0
  = Ok (0, 0, 0)%Z.
Proof. apply pixel_value_no_sample_binary64. simpl. lia. Defined.


Lemma mandelbrot_refines_render_spec_witness :
  ∃ st,
    mandelbrot (4, 4)%Z {[ "m" := [255; 0; 0]%float; "d" := [0; 0; 255]%float ]}
      None default_top 2 10 true = Ok st ∧
    ∃ colors',
      reshape_colors {[ "m" := [255; 0; 0]%float; "d" := [0; 0; 255]%float ]}
      = Ok colors' ∧
      render_spec (set_attributes (4, 4)%Z (default default_center None) default_top
                     2 10 true) colors'
      = Ok (image_array st).
Proof.
  eexists. split; [by vm_compute|].
  apply (mandelbrot_refines_render_spec (F:=float) (4, 4)%Z _ None default_top 2 10 true).
  by vm_compute.
Defined.

Lemma mandelbrot_image_shape_witness :
  ∃ st,
    mandelbrot (4, 2)%Z {[ "m" := [255; 0; 0]%float; "d" := [0; 0; 255]%float ]}
      None default_top 1 10 true = Ok st ∧
    length (image_array st) = Z.to_nat 2 ∧
    Forall (λ row, length row = Z.to_nat 4 ∧ Forall byte_pixel row) (image_array st).
Proof.
  eexists. split; [by vm_compute|].
  apply (mandelbrot_image_shape (4, 2)%Z
           {[ "m" := [255; 0; 0]%float; "d" := [0; 0; 255]%float ]}
           None default_top 1 10 true).
  by vm_compute.
Defined.

Lemma mandelbrot_pixel_witness :
  ∃ st,
    mandelbrot (4, 4)%Z {[ "m" := [255; 0; 0]%float; "d" := [0; 0; 255]%float ]}
      None default_top 1 10 true = Ok st ∧
    ∃ v,
      pixel_value (set_attributes (4, 4)%Z (default default_center None) default_top
                     1 10 true)
        {[ "m" := (255, 0, 0)%float; "d" := (0, 0, 255)%float ]} 1 3 = Ok v ∧
      image_array st !! Z.to_nat 1 ≫= (.!! Z.to_nat 3) = Some v.
Proof.
  eexists. split; [by vm_compute|].
  apply (mandelbrot_pixel (4, 4)%Z
           {[ "m" := [255; 0; 0]%float; "d" := [0; 0; 255]%float ]}
           None default_top 1 10 true);
    [by vm_compute | by vm_compute | simpl; lia | simpl; lia].
Defined.

Lemma mandelbrot_progress_log_witness :
  ∃ st,
    mandelbrot (2, 2)%Z {[ "m" := [255; 0; 0]%float; "d" := [0; 0; 255]%float ]}
      None default_top 1 10 true = Ok st ∧
    head (printed st) = Some 0%Z ∧ last (printed st) = Some (p_complete st) ∧
    StronglySorted Z.lt (printed st) ∧ Forall (λ p, p `mod` 10 = 0)%Z (printed st).
Proof.
  eexists. split; [by vm_compute|].
  apply (mandelbrot_progress_log (2, 2)%Z
           {[ "m" := [255; 0; 0]%float; "d" := [0; 0; 255]%float ]}
           None default_top 1 10 true).
  by vm_compute.
Defined.

(** Valid arguments in exact arithmetic: a 2 x 2 image of the default
    view, red for the set and blue for the rest. *)
Example valid_arguments_2x2 :
  valid_arguments (2, 2)%Z {[ "m" := [255; 0; 0]%R; "d" := [0; 0; 255]%R ]} None 1.6%R.
Proof.
  apply valid_arguments_exact; [done | done | simpl; lia | simpl; lia | simpl; lra | | |].
  - apply map_Forall_insert_2; [done|]. by apply map_Forall_singleton.
  - by rewrite lookup_insert_eq.
  - rewrite lookup_insert_ne, lookup_singleton_eq by done. done.
Qed.

(** Valid arguments on doubles: the default view at 1280 x 720, white for
    the set and blue for the rest. *)
Example valid_arguments_binary64 :
  valid_arguments (1280, 720)%Z
    {[ "m" := [255; 255; 255]%float; "d" := [0; 0; 255]%float ]} None default_top.
Proof.
  split_and!; [done..| | |].
  - apply map_Forall_insert_2; [done|]. by apply map_Forall_singleton.
  - by rewrite lookup_insert_eq.
  - rewrite lookup_insert_ne, lookup_singleton_eq by done. done.
Qed.

Lemma mandelbrot_total_witness :
  ∃ st,
    mandelbrot (1280, 720)%Z {[ "m" := [255; 255; 255]%float; "d" := [0; 0; 255]%float ]}
      None default_top 3 1600 true = Ok st ∧
    render_spec (set_attributes (1280, 720)%Z (default default_center None) default_top
                   3 1600 true)
      (to_rgb <$> {[ "m" := [255; 255; 255]%float; "d" := [0; 0; 255]%float ]})
    = Ok (image_array st).
Proof.
  apply (mandelbrot_total (F:=float) (1280, 720)%Z
           {[ "m" := [255; 255; 255]%float; "d" := [0; 0; 255]%float ]}
           None default_top 3 1600 true), valid_arguments_binary64.
Defined.

Lemma mandelbrot_outcome_is_render_spec_witness :
  image_array <$>
    mandelbrot (2, 2)%Z {[ "m" := [255; 0; 0]%float ]} None default_top 1 10 true
  = render_spec (set_attributes (2, 2)%Z (default default_center None) default_top 1 10 true)
      (to_rgb <$> {[ "m" := [255; 0; 0]%float ]}).
Proof.
  apply (mandelbrot_outcome_is_render_spec (F:=float) (2, 2)%Z
           {[ "m" := [255; 0; 0]%float ]} None default_top 1 10 true);
    [done..|by apply map_Forall_singleton].
Defined.

Lemma mandelbrot_builtin_exceptions_witness :
  let r := mandelbrot (2, 2)%Z {[ "m" := [255; 0; 0]%float ]} None default_top 1 10 true in
  r ≠ Raise ZeroDivisionError ∧
  (r = Raise ValueError ↔
     (2 `mod` 2 ≠ 1 ∧ 2 `mod` 2 ≠ 1)%Z ∧
     ((default_top : float) <=? (default default_center None).2)%num = false ∧
     (¬ map_Forall (λ _ value, length value = 3%nat)
          ({[ "m" := [255; 0; 0]%float ]} : gmap string (list float)) ∨
      2 < 0 ∨ 2 < 0)%Z) ∧
  (∀ key, r = Raise (KeyError key) →
     (key = "m" ∨ key = "d") ∧
     ({[ "m" := [255; 0; 0]%float ]} : gmap string (list float)) !! key = None ∧
     (0 < 2 ∧ 0 < 2 ∧ 0 < 1)%Z).
Proof.
  apply (mandelbrot_builtin_exceptions (F:=float) (2, 2)%Z
           {[ "m" := [255; 0; 0]%float ]} None default_top 1 10 true).
Defined.

(** The render of that witness: the first pixel that diverges, the second
    of the first row, raises the [KeyError] of the missing colour. *)
Example mandelbrot_missing_colour_binary64 :
  mandelbrot (2, 2)%Z {[ "m" := [255; 0; 0]%float ]} None default_top 1 10 true
  = Raise (KeyError "d").
Proof. by vm_compute. Qed.

Lemma mandelbrot_last_message_exact_witness :
  ∃ st,
    mandelbrot (2, 2)%Z {[ "m" := [255; 0; 0]%R; "d" := [0; 0; 255]%R ]}
      None 1.6%R 3 100 false = Ok st ∧
    last (printed st) = Some (100 + (100 `div` (2 * 2)) `div` 10 * 10)%Z.
Proof. apply mandelbrot_last_message_exact; [apply valid_arguments_2x2 | done]. Defined.

