(* ===== verification/Order.v ===== *)
(** * Order: the pixels can be computed in any order

    The two loops of [mandelbrot] visit the pixels row by row.  The value
    of a pixel depends on the configuration and on its indices only, and
    each iteration writes its own cell, so an implementation may compute
    the pixels in another order, or several times.  [paint] is one
    iteration of the loops (lines 112-189) and [scan_order] the pixels in
    the order of lines 108-110; [fill], which paints the pixels of a list
    one after the other, is not code of the source but the
    generalisation the description of parallel rendering asks about: for
    every list that visits exactly the pixels of the image it builds the
    array the loops of [src/Fractals.py] build. *)

From Stdlib Require Import ZArith Floats Lia.
From stdpp Require Import base tactics list numbers strings gmap.
From S2P Require Import Prelude Numeric Levels Geometry Escape Sampler Colour Render.

#[local] Open Scope Z_scope.

(** * Definitions *)

(** The pixels [(pixel_y, pixel_x)] in the order of lines 108-110. *)
Definition scan_order (image_size : Z * Z) : list (Z * Z) :=
  pixel_y ← range 0 image_size.2; pixel_x ← range 0 image_size.1; [(pixel_y, pixel_x)].

(** A pixel of the image. *)
Definition within (image_size : Z * Z) (p : Z * Z) : Prop :=
  0 ≤ p.1 < image_size.2 ∧ 0 ≤ p.2 < image_size.1.

(** An array of the shape of the image. *)
Definition shaped (image_size : Z * Z) (image_array : list (list pixel)) : Prop :=
  length image_array = Z.to_nat image_size.2 ∧
  Forall (λ row, length row = Z.to_nat image_size.1) image_array.

(** [image_array[pixel_y, pixel_x]]. *)
Definition cell (image_array : list (list pixel)) (p : Z * Z) : option pixel :=
  row ← image_array !! Z.to_nat p.1; row !! Z.to_nat p.2.

Section order.
Context {F : Type} `{Number F} `{Defaults F}.

(** Lines 112-189 for the pixel [p]: its value, stored in its cell. *)
Definition paint (self : Fractal F) (colors : gmap string (rgb F))
    (image_array : list (list pixel)) (p : Z * Z) : result (list (list pixel)) :=
  value ← pixel_value self colors p.1 p.2;
  Ok (setitem image_array p.1 p.2 value).

(** The pixels of [order], painted one after the other. *)
Definition fill (self : Fractal F) (colors : gmap string (rgb F))
    (image_array : list (list pixel)) (order : list (Z * Z)) : result (list (list pixel)) :=
  foldlM (paint self colors) image_array order.

End order.

(** * Arrays *)

Lemma elem_of_scan_order image_size p : p ∈ scan_order image_size ↔ within image_size p.
Proof.
  unfold scan_order, within. destruct p as [y x]. simpl. rewrite list_elem_of_bind. split.
  - intros (y' & (x' & [= -> ->]%list_elem_of_singleton & Hx)%list_elem_of_bind & Hy).
    by apply elem_of_range in Hx, Hy.
  - intros [Hy Hx]. exists y. split; [|by apply elem_of_range].
    apply list_elem_of_bind. exists x. split; [by apply list_elem_of_singleton|].
    by apply elem_of_range.
Qed.

Lemma shaped_setitem image_size image_array pixel_y pixel_x value :
  shaped image_size image_array →
  shaped image_size (setitem image_array pixel_y pixel_x value).
Proof.
  unfold shaped, setitem. intros [Hh Hw]. split; [by rewrite length_alter|].
  apply Forall_alter; [done|]. intros row _ Hrow. simpl in *. by rewrite length_insert.
Qed.

Lemma cell_setitem image_size image_array p q value :
  shaped image_size image_array → within image_size p → within image_size q →
  cell (setitem image_array p.1 p.2 value) q
  = if decide (q = p) then Some value else cell image_array q.
Proof.
  unfold shaped, within, cell, setitem. intros [Hh Hw] [Hpy Hpx] [Hqy Hqx].
  destruct (lookup_lt_is_Some_2 image_array (Z.to_nat p.1)) as [row Hrow]; [lia|].
  pose proof (Forall_lookup_1 _ _ _ _ Hw Hrow) as Hlen. simpl in Hlen.
  destruct (decide (Z.to_nat q.1 = Z.to_nat p.1)) as [Hy|Hy].
  - rewrite Hy, list_lookup_alter_eq, Hrow. simpl.
    destruct (decide (Z.to_nat q.2 = Z.to_nat p.2)) as [Hx|Hx].
    + rewrite Hx, list_lookup_insert_eq by lia.
      rewrite decide_True; [done|]. destruct p, q. simpl in *. f_equal; lia.
    + rewrite list_lookup_insert_ne by done.
      rewrite decide_False; [done|]. intros ->. lia.
  - rewrite list_lookup_alter_ne by done.
    rewrite decide_False; [done|]. by intros ->.
Qed.

(** Two arrays of one shape with the same cells are equal. *)
Lemma image_ext image_size image1 image2 :
  shaped image_size image1 → shaped image_size image2 →
  (∀ p, within image_size p → cell image1 p = cell image2 p) →
  image1 = image2.
Proof.
  unfold shaped, within, cell. intros [Hh1 Hw1] [Hh2 Hw2] Hcell.
  apply list_eq_same_length with (Z.to_nat image_size.2); [done..|].
  intros y row1 row2 Hy Hrow1 Hrow2. f_equal.
  pose proof (Forall_lookup_1 _ _ _ _ Hw1 Hrow1) as Hlen1.
  pose proof (Forall_lookup_1 _ _ _ _ Hw2 Hrow2) as Hlen2. simpl in *.
  apply list_eq_same_length with (Z.to_nat image_size.1); [done..|].
  intros x v1 v2 Hx Hv1 Hv2.
  specialize (Hcell (Z.of_nat y, Z.of_nat x) ltac:(simpl; lia)). simpl in Hcell.
  rewrite !Nat2Z.id, Hrow1, Hrow2 in Hcell. simpl in Hcell. congruence.
Qed.

(** * Painting *)

Section order_theorems.
Context {F : Type} `{Number F} `{Defaults F}.
Implicit Types (self : Fractal F) (colors : gmap string (rgb F)).

Lemma fill_cons self colors image_array p order :
  fill self colors image_array (p :: order)
  = pixel_value self colors p.1 p.2 ≫= λ value,
      fill self colors (setitem image_array p.1 p.2 value) order.
Proof.
  unfold fill. rewrite foldlM_cons.
  change (paint self colors image_array p) with
    (pixel_value self colors p.1 p.2 ≫= λ value, Ok (setitem image_array p.1 p.2 value)).
  by destruct (pixel_value _ _ _ _).
Qed.

(** After painting the pixels of [order], their cells hold their values
    and the other cells are as before. *)
Lemma fill_cells self colors order : ∀ image_array image_array',
  shaped (IMAGE_SIZE self) image_array →
  Forall (within (IMAGE_SIZE self)) order →
  fill self colors image_array order = Ok image_array' →
  shaped (IMAGE_SIZE self) image_array' ∧
  ∀ q, within (IMAGE_SIZE self) q →
    if decide (q ∈ order)
    then Some <$> pixel_value self colors q.1 q.2 = Ok (cell image_array' q)
    else cell image_array' q = cell image_array q.
Proof.
  induction order as [|p order IH]; intros img img' Hs Hin Hf.
  - injection Hf as <-. split; [done|]. intros q _. rewrite decide_False; [done|].
    apply not_elem_of_nil.
  - apply Forall_cons in Hin as [Hp Hin].
    apply bind_Ok_inv in Hf as (img1 & (v & Hv & [= <-])%bind_Ok_inv & Hf).
    apply IH in Hf as [Hs' Hcells]; [|by apply shaped_setitem|done].
    split; [done|]. intros q Hq. specialize (Hcells q Hq).
    destruct (decide (q ∈ order)) as [Hqo|Hqo].
    + rewrite decide_True by (by right). done.
    + rewrite Hcells, (cell_setitem (IMAGE_SIZE self)) by done.
      destruct (decide (q = p)) as [->|Hqp].
      * rewrite decide_True by (by left). by rewrite Hv.
      * rewrite decide_False; [done|]. by intros [?|?]%elem_of_cons.
Qed.

(** Painting returns when the value of every pixel is defined. *)
Lemma fill_is_Ok self colors order : ∀ image_array,
  Forall (λ p, is_Ok (pixel_value self colors p.1 p.2)) order →
  is_Ok (fill self colors image_array order).
Proof.
  induction order as [|p order IH]; intros img Hok; [by eexists|].
  apply Forall_cons in Hok as [[v Hv] Hok]. rewrite fill_cons, Hv. by apply IH.
Qed.

(** The cells of the image of the specification. *)
Lemma render_spec_cell self colors image q :
  render_spec self colors = Ok image → within (IMAGE_SIZE self) q →
  Some <$> pixel_value self colors q.1 q.2 = Ok (cell image q).
Proof.
  intros Hs [Hy Hx].
  destruct (render_spec_lookup self colors image q.2 q.1 Hs Hx Hy) as (row & Hrow & Hv).
  unfold cell. rewrite Hrow. simpl. rewrite <-Hv. by destruct (pixel_value _ _ _ _).
Qed.

Lemma render_spec_shaped self colors image :
  render_spec self colors = Ok image → shaped (IMAGE_SIZE self) image.
Proof.
  intros [Hh Hw]%render_spec_shape. split; [done|].
  eapply Forall_impl; [done|]. by intros row [? _].
Qed.

(** C25: The order of the pixels does not matter.  For every list that
    visits the pixels of the image and no others, in any order and any
    number of times, painting its pixels one after the other on the empty
    array builds the array the two loops of [render] build. *)
Theorem render_any_order self (colors : gmap string (list F)) st order :
  render self colors = Ok st →
  (∀ p, p ∈ order ↔ p ∈ scan_order (IMAGE_SIZE self)) →
  ∃ colors' zeros,
    reshape_colors colors = Ok colors' ∧
    np_zeros (IMAGE_SIZE self).2 (IMAGE_SIZE self).1 = Ok zeros ∧
    fill self colors' zeros order = Ok (image_array st).
Proof.
  intros Hr Horder. pose proof Hr as (colors' & Hc & Hspec)%render_image.
  apply bind_Ok_inv in Hr as (? & Hc' & (image0 & Hz & _)%bind_Ok_inv).
  rewrite Hc in Hc'. injection Hc' as <-.
  exists colors', image0. split_and!; [done..|].
  assert (Forall (within (IMAGE_SIZE self)) order) as Hin.
  { apply Forall_forall. intros p Hp. by apply elem_of_scan_order, Horder. }
  assert (shaped (IMAGE_SIZE self) image0) as Hs0.
  { unfold np_zeros in Hz. case_decide; [done|]. injection Hz as <-. split.
    - by rewrite length_replicate.
    - apply Forall_replicate. by rewrite length_replicate. }
  destruct (fill_is_Ok self colors' order image0) as [image Hf].
  { eapply Forall_impl; [done|]. intros p Hp.
    pose proof (render_spec_cell _ _ _ _ Hspec Hp) as Hv.
    destruct (pixel_value _ _ _ _); [by eexists|done]. }
  rewrite Hf. f_equal.
  destruct (fill_cells _ _ _ _ _ Hs0 Hin Hf) as [Hs Hcells].
  apply (image_ext (IMAGE_SIZE self)); [done|by eapply render_spec_shaped|].
  intros q Hq. specialize (Hcells q Hq).
  rewrite decide_True in Hcells by (by apply Horder, elem_of_scan_order).
  pose proof (render_spec_cell _ _ _ _ Hspec Hq) as Hv. congruence.
Qed.

End order_theorems.

(** * Doubles *)

(** The 2 x 2 default view, painted from the last pixel to the first. *)
Example fill_reverse_2x2_binary64 :
  let self := set_attributes (2, 2) default_center default_top 1 10 true in
  fill (F:=float) self {[ "m" := (255, 0, 0)%float; "d" := (0, 0, 255)%float ]}
    (replicate 2 (replicate 2 (0, 0, 0))) (reverse (scan_order (2, 2)))
  = Ok [ [(255, 0, 0); (0, 0, 252)]; [(0, 0, 250); (0, 0, 250)] ].
Proof. by vm_compute. Qed.

(** * Witnesses *)

Lemma render_any_order_witness :
  let self := set_attributes (2, 2) default_center default_top 1 10 true in
  let colors : gmap string (list float) :=
    {[ "m" := [255; 0; 0]%float; "d" := [0; 0; 255]%float ]} in
  ∃ colors' zeros,
    reshape_colors colors = Ok colors' ∧
    np_zeros (IMAGE_SIZE self).2 (IMAGE_SIZE self).1 = Ok zeros ∧
    fill self colors' zeros (reverse (scan_order (2, 2)))
    = Ok [ [(255, 0, 0); (0, 0, 252)]; [(0, 0, 250); (0, 0, 250)] ].
Proof.
  intros self colors.
  apply (render_any_order self colors
           (RenderState [ [(255, 0, 0); (0, 0, 252)]; [(0, 0, 250); (0, 0, 250)] ]
              4 120 [0; 50; 70; 100; 120])).
  - by vm_compute.
  - intros p. apply elem_of_reverse.
Defined.
