(* ===== verification/Machine.v ===== *)
(** * Machine: a call of [mandelbrot], statement by statement

    The method [mandelbrot] of [src/Fractals.py] as a transition system
    over its program points: the call (lines 41-101: guards, attributes,
    the reshaped colours, the empty image and the first message), the head
    of the loop over [pixel_y] (line 108), the head of the loop over
    [pixel_x] (line 110) whose body is lines 112-213, and the writing of
    the image (lines 216-222 and [write_image], lines 224-232).  A
    configuration pairs the status of the call with the calls that have
    left the program so far, [event]s: [print], the speech engine, and the
    saving of the image.  The class body (lines 23-29) and [__init__]
    (lines 32-39) are the events that precede a call.

    [step] is the transition relation, [next] the function that computes
    it, [run] its iteration.

    Theorems: [next] computes [step], which is deterministic; every run
    ends, within [fuel_of] steps; the run of a call returns exactly when
    the function [mandelbrot] of [Render] returns, with the same image and
    with one message for each percentage printed, and raises the same
    exception otherwise; the image is saved once, last, and only when the
    call returns; the texts printed announce strictly increasing multiples
    of ten, and what is spoken is what was printed just before; speech
    changes nothing else; from every configuration of a run on valid
    arguments the image is eventually saved; in a session the image is
    saved below [IMAGE_DIR], which exists by then. *)

From Stdlib Require Import ZArith Floats Reals Lia String Sorted.
From stdpp Require Import base tactics list numbers strings pretty gmap relations.
From S2P Require Import Prelude Numeric Binary64 Text Levels Geometry Escape Sampler Colour Render.

#[local] Open Scope Z_scope.

(** * Definitions *)

(** The calls that leave the program, with their arguments. *)
Inductive event : Type :=
| MakeDirs (path : string)
| TtsInit
| Print (text : string)
| Say (text : string)
| RunAndWait
| Save (IMAGE_PATH : string) (image : list (list pixel)).

#[export] Instance event_eq_dec : EqDecision event.
Proof. solve_decision. Defined.

(** Lines 23-29, run when the module is imported: [IMAGE_DIR], created
    unless it exists.  [module_dir] is the directory of the source file,
    [dirs] the directories that exist. *)
Definition class_body (module_dir : string) (dirs : gset string) : string * list event :=
  let IMAGE_DIR := os_path_join module_dir "PNG" in
  (IMAGE_DIR, if decide (IMAGE_DIR ∈ dirs) then [] else [MakeDirs IMAGE_DIR]).

(** Lines 32-39. *)
Definition __init__ : list event := [TtsInit].

(** Lines 224-232: [Image.fromarray(image_array).save(IMAGE_PATH)]. *)
Definition write_image (image_array : list (list pixel)) (IMAGE_PATH : string) : list event :=
  [Save IMAGE_PATH image_array].

(** The directories that exist after some events. *)
Definition dirs_after (dirs : gset string) (out : list event) : gset string :=
  foldl (λ dirs e, match e with MakeDirs path => {[path]} ∪ dirs | _ => dirs end) dirs out.

(** What was printed, what was spoken, and what was saved. *)
Definition stdout (out : list event) : list string :=
  omap (λ e, match e with Print text => Some text | _ => None end) out.

Definition spoken (out : list event) : list string :=
  omap (λ e, match e with Say text => Some text | _ => None end) out.

Definition saved (out : list event) : list (string * list (list pixel)) :=
  omap (λ e, match e with Save path image => Some (path, image) | _ => None end) out.

(** Whether an event is a call to the speech engine. *)
Definition speech (e : event) : bool :=
  match e with
  | Say _ | RunAndWait => true
  | _ => false
  end.

Lemma stdout_app out1 out2 : stdout (out1 ++ out2) = stdout out1 ++ stdout out2.
Proof. apply omap_app. Qed.

Lemma spoken_app out1 out2 : spoken (out1 ++ out2) = spoken out1 ++ spoken out2.
Proof. apply omap_app. Qed.

Lemma saved_app out1 out2 : saved (out1 ++ out2) = saved out1 ++ saved out2.
Proof. apply omap_app. Qed.

(** Percentages that increase strictly by multiples of ten. *)
Definition increasing (ps : list Z) : Prop :=
  StronglySorted Z.lt ps ∧ Forall (λ p, p `mod` 10 = 0) ps.

(** The program points between which the loops move. *)
Inductive point : Type :=
| RowLoop (pixel_y : Z)
| PixelLoop (pixel_y pixel_x : Z)
| WriteImage.

Section machine.
Context {F : Type} `{Number F} `{Defaults F} `{Repr F}.
#[local] Open Scope num_scope.

(** The status of a call: not yet entered; at a program point, with the
    reshaped colours and the variables of the loops; returned; or left by
    an exception. *)
Inductive status : Type :=
| Called
| At (pt : point) (colors : gmap string (rgb F)) (st : render_state)
| Returned
| Raised (e : exn).

Definition config : Type := status * list event.

(** A configuration without its calls to the speech engine. *)
Definition quiet (c : config) : config := (c.1, filter (λ e, ¬ speech e) c.2).

(** The class attribute and the arguments of the call. *)
Variable IMAGE_DIR : string.
Variables (image_size : Z * Z) (colors : gmap string (list F))
  (center : option (number F * number F)) (top : number F)
  (magnification divergence_iterations : Z) (speak : bool).

(** Lines 54-55: the centre as the caller wrote it. *)
Definition CENTER_literal : number F * number F :=
  default default_center_literal center.

(** Lines 45 and 70-83. *)
Definition self : Fractal F :=
  set_attributes image_size (floats CENTER_literal) (to_float top) magnification
    divergence_iterations speak.

(** Lines 92-101 and 204-213: the message, printed and then spoken. *)
Definition announce (p_complete : Z) : list event :=
  let text := P_STRING CENTER_literal.1 CENTER_literal.2 p_complete in
  Print text :: (if SPEAK self then [Say text; RunAndWait] else []).

(** Lines 45-101, up to the loops. *)
Definition enter : result (gmap string (rgb F) * render_state * list event) :=
  if decide (image_size.1 `mod` 2 = 1 ∨ image_size.2 `mod` 2 = 1)%Z
  then Raise OddResolutionError else
  if to_float top <=? to_float CENTER_literal.2 then Raise TopError else
  colors ← reshape_colors colors;
  image_array ← np_zeros (IMAGE_SIZE self).2 (IMAGE_SIZE self).1;
  let p_complete := 0%Z in
  Ok (colors, RenderState image_array 0 p_complete [p_complete], announce p_complete).

(** Lines 112-213: the body of the inner loop, with the events it emits. *)
Definition body (colors : gmap string (rgb F)) (pixel_y pixel_x : Z)
    (st : render_state) : result (render_state * list event) :=
  value ← pixel_value self colors pixel_y pixel_x;
  let image_array := setitem (image_array st) pixel_y pixel_x value in
  let i := (i st + 1)%Z in
  percent_complete ← py_truediv (of_int (i + 1))
                        (of_int ((IMAGE_SIZE self).1 * (IMAGE_SIZE self).2));
  let p_complete_ := (to_int (num_mul percent_complete (of_int 100)) `div` 10 * 10)%Z in
  if decide (p_complete st < p_complete_)%Z
  then Ok (RenderState image_array i p_complete_ (printed st ++ [p_complete_]),
           announce p_complete_)
  else Ok (RenderState image_array i (p_complete st) (printed st), []).

(** Lines 216-222. *)
Definition finish (st : render_state) : list event :=
  write_image (image_array st)
    (IMAGE_PATH IMAGE_DIR CENTER_literal top (IMAGE_SIZE self)).

(** The transitions.  Each loop head either enters its body or leaves the
    loop; an exception in the body ends the call. *)
Inductive step : config → config → Prop :=
| step_enter colors' st evs out :
    enter = Ok (colors', st, evs) →
    step (Called, out) (At (RowLoop 0) colors' st, out ++ evs)
| step_enter_raise e out :
    enter = Raise e →
    step (Called, out) (Raised e, out)
| step_row pixel_y colors' st out :
    (pixel_y < (IMAGE_SIZE self).2)%Z →
    step (At (RowLoop pixel_y) colors' st, out) (At (PixelLoop pixel_y 0) colors' st, out)
| step_rows_done pixel_y colors' st out :
    ((IMAGE_SIZE self).2 ≤ pixel_y)%Z →
    step (At (RowLoop pixel_y) colors' st, out) (At WriteImage colors' st, out)
| step_pixel pixel_y pixel_x colors' st st' evs out :
    (pixel_x < (IMAGE_SIZE self).1)%Z →
    body colors' pixel_y pixel_x st = Ok (st', evs) →
    step (At (PixelLoop pixel_y pixel_x) colors' st, out)
         (At (PixelLoop pixel_y (pixel_x + 1)) colors' st', out ++ evs)
| step_pixel_raise pixel_y pixel_x colors' st e out :
    (pixel_x < (IMAGE_SIZE self).1)%Z →
    body colors' pixel_y pixel_x st = Raise e →
    step (At (PixelLoop pixel_y pixel_x) colors' st, out) (Raised e, out)
| step_row_done pixel_y pixel_x colors' st out :
    ((IMAGE_SIZE self).1 ≤ pixel_x)%Z →
    step (At (PixelLoop pixel_y pixel_x) colors' st, out)
         (At (RowLoop (pixel_y + 1)) colors' st, out)
| step_write colors' st out :
    step (At WriteImage colors' st, out) (Returned, out ++ finish st).

(** The transition out of a configuration, computed. *)
Definition next (c : config) : option config :=
  match c.1 with
  | Called =>
      match enter with
      | Ok (colors', st, evs) => Some (At (RowLoop 0) colors' st, c.2 ++ evs)
      | Raise e => Some (Raised e, c.2)
      end
  | At (RowLoop pixel_y) colors' st =>
      if decide (pixel_y < (IMAGE_SIZE self).2)%Z
      then Some (At (PixelLoop pixel_y 0) colors' st, c.2)
      else Some (At WriteImage colors' st, c.2)
  | At (PixelLoop pixel_y pixel_x) colors' st =>
      if decide (pixel_x < (IMAGE_SIZE self).1)%Z then
        match body colors' pixel_y pixel_x st with
        | Ok (st', evs) => Some (At (PixelLoop pixel_y (pixel_x + 1)) colors' st', c.2 ++ evs)
        | Raise e => Some (Raised e, c.2)
        end
      else Some (At (RowLoop (pixel_y + 1)) colors' st, c.2)
  | At WriteImage colors' st => Some (Returned, c.2 ++ finish st)
  | Returned | Raised _ => None
  end.

(** At most [fuel] transitions. *)
Fixpoint run (fuel : nat) (c : config) : config :=
  match fuel with
  | O => c
  | S fuel =>
      match next c with
      | Some c' => run fuel c'
      | None => c
      end
  end.

(** The number of transitions left, at most: a row costs its pixels and
    the two loop heads. *)
Definition fuel_of (s : status) : nat :=
  let row := (Z.to_nat (IMAGE_SIZE self).1 + 2)%nat in
  match s with
  | Called => (3 + Z.to_nat (IMAGE_SIZE self).2 * row)%nat
  | At (RowLoop pixel_y) _ _ => (2 + Z.to_nat ((IMAGE_SIZE self).2 - pixel_y) * row)%nat
  | At (PixelLoop pixel_y pixel_x) _ _ =>
      (3 + Z.to_nat ((IMAGE_SIZE self).2 - pixel_y - 1) * row
         + Z.to_nat ((IMAGE_SIZE self).1 - pixel_x))%nat
  | At WriteImage _ _ => 1%nat
  | Returned | Raised _ => 0%nat
  end.

(** The call has ended. *)
Definition ended (s : status) : Prop :=
  match s with
  | Returned | Raised _ => True
  | _ => False
  end.

(** The events of the messages for the percentages [ps]. *)
Definition messages (ps : list Z) : list event := ps ≫= announce.

(** What holds of the events of every configuration of a run that began
    after the events [out0]: they are [out0], then the messages for the
    percentages printed, then, once the call has returned and only then,
    the saving of the image. *)
Definition events_inv (out0 : list event) (c : config) : Prop :=
  match c.1 with
  | Called => c.2 = out0
  | At _ _ st => progress_log st ∧ c.2 = out0 ++ messages (printed st)
  | Returned => ∃ st, progress_log st ∧ c.2 = out0 ++ messages (printed st) ++ finish st
  | Raised _ => ∃ ps, increasing ps ∧ c.2 = out0 ++ messages ps
  end.

(** What holds of the variables at the program points: the loop indices
    are within the image, and [i] counts the pixels done. *)
Definition position_inv (c : config) : Prop :=
  let w := (IMAGE_SIZE self).1 in
  let h := (IMAGE_SIZE self).2 in
  match c.1 with
  | At (RowLoop pixel_y) _ st => (0 ≤ w ∧ 0 ≤ pixel_y ≤ h ∧ i st = pixel_y * w)%Z
  | At (PixelLoop pixel_y pixel_x) _ st =>
      (0 ≤ pixel_y < h ∧ 0 ≤ pixel_x ≤ w ∧ i st = pixel_y * w + pixel_x)%Z
  | At WriteImage _ st => (0 ≤ w ∧ 0 ≤ h ∧ i st = h * w)%Z
  | _ => True
  end.

(** * [next] computes [step] *)

Lemma step_next c c' : step c c' ↔ next c = Some c'.
Proof.
  split.
  - destruct 1; unfold next; simpl in *; rewrite ?decide_True, ?decide_False by lia;
      try done; match goal with Heq : _ = _ |- _ => by rewrite Heq end.
  - destruct c as [[|[y|y x|] cs st| |e] out]; unfold next; simpl; intros;
      repeat case_match; simplify_eq; by econstructor; first [eassumption|simpl in *; lia].
Qed.

Lemma step_deterministic : deterministic step.
Proof. intros c c1 c2 Hc1%step_next Hc2%step_next. congruence. Qed.

Lemma next_None c : next c = None ↔ ended c.1.
Proof.
  destruct c as [[|[y|y x|] cs st| |e] out]; unfold next; simpl;
    repeat case_match; naive_solver.
Qed.

Lemma ended_nf c : ended c.1 ↔ nf step c.
Proof.
  rewrite <-next_None. split.
  - intros Hn [c' Hc'%step_next]. congruence.
  - intros Hnf. destruct (next c) as [c'|] eqn:Hc; [|done].
    destruct Hnf. exists c'. by apply step_next.
Qed.

(** * Termination *)

Lemma step_fuel c c' : step c c' → (fuel_of c'.1 < fuel_of c.1)%nat.
Proof.
  destruct 1; simpl in *; try lia.
  - replace (Z.to_nat (image_size.2 - pixel_y))
      with (S (Z.to_nat (image_size.2 - pixel_y - 1))) by lia.
    rewrite Z.sub_0_r. lia.
  - apply Nat.lt_0_succ.
Qed.

Lemma step_wf : well_founded (flip step).
Proof.
  apply (wf_projected lt (λ c, fuel_of c.1)); [|apply lt_wf].
  intros c c'. apply step_fuel.
Qed.

Lemma run_rtc fuel c : rtc step c (run fuel c).
Proof.
  revert c. induction fuel as [|fuel IH]; intros c; simpl; [done|].
  destruct (next c) as [c'|] eqn:Hc; [|done].
  eapply rtc_l; [by apply step_next|apply IH].
Qed.

Lemma run_ended fuel c : (fuel_of c.1 ≤ fuel)%nat → ended (run fuel c).1.
Proof.
  revert c. induction fuel as [|fuel IH]; intros c Hf; simpl.
  - apply next_None. destruct (next c) as [c'|] eqn:Hc; [|done].
    apply step_next, step_fuel in Hc. lia.
  - destruct (next c) as [c'|] eqn:Hc; [|by apply next_None].
    apply IH. apply step_next, step_fuel in Hc. lia.
Qed.

(** The configuration a run ends in is the one [run] computes. *)
Lemma run_unique fuel c c' :
  rtc step c c' → ended c'.1 → (fuel_of c.1 ≤ fuel)%nat → run fuel c = c'.
Proof.
  intros Hc He Hf.
  apply (confluent_rtc_nf (R:=step) c); [|apply run_rtc| |done|by apply ended_nf].
  - apply deterministic_confluent, step_deterministic.
  - by apply ended_nf, run_ended.
Qed.

(** A run that has not ended goes on to the configuration the call ends
    in. *)
Lemma rtc_ended_extend c c1 c2 :
  rtc step c c1 → rtc step c c2 → ended c2.1 → rtc step c1 c2.
Proof.
  intros Hc1 Hc2 He.
  destruct (deterministic_confluent step_deterministic c c1 c2) as (c' & Hc' & Hc2');
    [done..|].
  apply rtc_nf in Hc2' as <-; [done|by apply ended_nf].
Qed.

(** * The machine and the function [mandelbrot] *)

Lemma messages_snoc ps p : messages (ps ++ [p]) = messages ps ++ announce p.
Proof. unfold messages. rewrite bind_app. simpl. by rewrite app_nil_r. Qed.

(** The body of the loop computes what [render_pixel] computes, and emits
    the messages for the percentages [render_pixel] records. *)
Lemma body_Ok colors' pixel_y pixel_x st st' :
  render_pixel self colors' pixel_y st pixel_x = Ok st' →
  ∃ evs, body colors' pixel_y pixel_x st = Ok (st', evs) ∧
         messages (printed st') = messages (printed st) ++ evs.
Proof.
  unfold render_pixel, progress, body.
  destruct (pixel_value _ _ _ _) as [value|]; simpl; [|done].
  destruct (py_truediv _ _) as [percent_complete|]; simpl; [|done].
  case_decide; intros [= <-]; eexists; (split; [reflexivity|]); simpl.
  - apply messages_snoc.
  - by rewrite app_nil_r.
Qed.

Lemma body_Raise colors' pixel_y pixel_x st e :
  render_pixel self colors' pixel_y st pixel_x = Raise e →
  body colors' pixel_y pixel_x st = Raise e.
Proof.
  unfold render_pixel, progress, body.
  destruct (pixel_value _ _ _ _) as [value|]; simpl; [|by intros [= ->]].
  destruct (py_truediv _ _) as [percent_complete|]; simpl; [|by intros [= ->]].
  by case_decide.
Qed.

Lemma body_Ok_inv colors' pixel_y pixel_x st st' evs :
  body colors' pixel_y pixel_x st = Ok (st', evs) →
  render_pixel self colors' pixel_y st pixel_x = Ok st' ∧
  messages (printed st') = messages (printed st) ++ evs.
Proof.
  intros Hb. destruct (render_pixel self colors' pixel_y st pixel_x) as [st1|e] eqn:Hp.
  - destruct (body_Ok _ _ _ _ _ Hp) as (evs1 & Hb1 & Hm).
    rewrite Hb1 in Hb. by injection Hb as <- <-.
  - apply body_Raise in Hp. congruence.
Qed.

(** The inner loop, from any of its iterations on. *)
Lemma pixel_loop_steps colors' pixel_y out n : ∀ pixel_x st,
  (n ≠ 0%nat → pixel_x + Z.of_nat n ≤ (IMAGE_SIZE self).1)%Z →
  match foldlM (render_pixel self colors' pixel_y) st (seqZ pixel_x (Z.of_nat n)) with
  | Ok st' =>
      rtc step (At (PixelLoop pixel_y pixel_x) colors' st, out ++ messages (printed st))
               (At (PixelLoop pixel_y (pixel_x + Z.of_nat n)) colors' st',
                out ++ messages (printed st'))
  | Raise e =>
      ∃ ps, rtc step (At (PixelLoop pixel_y pixel_x) colors' st,
                      out ++ messages (printed st))
                     (Raised e, out ++ messages ps)
  end.
Proof.
  induction n as [|n IH]; intros x st Hn; [simpl; by rewrite Z.add_0_r|].
  rewrite Nat2Z.inj_succ, seqZ_cons, Z.pred_succ by lia. simpl.
  destruct (render_pixel self colors' pixel_y st x) as [st1|e] eqn:Hp; simpl.
  - destruct (body_Ok _ _ _ _ _ Hp) as (evs & Hb & Hm).
    assert (step (At (PixelLoop pixel_y x) colors' st, out ++ messages (printed st))
                 (At (PixelLoop pixel_y (Z.succ x)) colors' st1,
                  out ++ messages (printed st1))) as Hs.
    { rewrite Hm, app_assoc. apply step_pixel; [lia|done]. }
    specialize (IH (Z.succ x) st1 ltac:(lia)).
    replace (x + Z.succ (Z.of_nat n))%Z with (Z.succ x + Z.of_nat n)%Z by lia.
    destruct (foldlM _ _ _) as [st'|e]; [|destruct IH as [ps IH]; exists ps];
      by eapply rtc_l.
  - exists (printed st). apply rtc_once, step_pixel_raise; [lia|by apply body_Raise].
Qed.

(** One iteration of the outer loop: the head, the inner loop, and its
    exit. *)
Lemma row_steps colors' out pixel_y st :
  (pixel_y < (IMAGE_SIZE self).2)%Z →
  match render_row self colors' st pixel_y with
  | Ok st' =>
      rtc step (At (RowLoop pixel_y) colors' st, out ++ messages (printed st))
               (At (RowLoop (pixel_y + 1)) colors' st', out ++ messages (printed st'))
  | Raise e =>
      ∃ ps, rtc step (At (RowLoop pixel_y) colors' st, out ++ messages (printed st))
                     (Raised e, out ++ messages ps)
  end.
Proof.
  intros Hy.
  pose proof (pixel_loop_steps colors' pixel_y out (Z.to_nat (IMAGE_SIZE self).1) 0 st
                ltac:(lia)) as Hrow.
  unfold render_row, range. rewrite Z.sub_0_r, (seqZ_to_nat 0).
  destruct (foldlM _ _ _) as [st1|e]; [|destruct Hrow as [ps Hrow]; exists ps];
    (eapply rtc_l; [by apply step_row|]); [|done].
  eapply rtc_r; [done|]. apply step_row_done. lia.
Qed.

(** The outer loop, from any of its iterations on. *)
Lemma row_loop_steps colors' out n : ∀ pixel_y st,
  (n ≠ 0%nat → pixel_y + Z.of_nat n ≤ (IMAGE_SIZE self).2)%Z →
  match foldlM (render_row self colors') st (seqZ pixel_y (Z.of_nat n)) with
  | Ok st' =>
      rtc step (At (RowLoop pixel_y) colors' st, out ++ messages (printed st))
               (At (RowLoop (pixel_y + Z.of_nat n)) colors' st',
                out ++ messages (printed st'))
  | Raise e =>
      ∃ ps, rtc step (At (RowLoop pixel_y) colors' st, out ++ messages (printed st))
                     (Raised e, out ++ messages ps)
  end.
Proof.
  induction n as [|n IH]; intros y st Hn; [simpl; by rewrite Z.add_0_r|].
  rewrite seqZ_S, foldlM_cons.
  pose proof (row_steps colors' out y st ltac:(lia)) as Hrow.
  destruct (render_row self colors' st y) as [st1|e]; cbn [mbind result_bind]; [|done].
  specialize (IH (y + 1)%Z st1 ltac:(lia)).
  replace (y + Z.of_nat (S n))%Z with (y + 1 + Z.of_nat n)%Z by lia.
  destruct (foldlM _ _ _) as [st'|e]; [|destruct IH as [ps IH]; exists ps]; by etrans.
Qed.

(** The function [mandelbrot] reads the centre through [floats]. *)
Lemma default_center_floats :
  default default_center (floats <$> center) = floats CENTER_literal.
Proof. unfold CENTER_literal. by destruct center. Qed.

(** What a successful entry has set up. *)
Lemma enter_Ok_inv colors' st evs :
  enter = Ok (colors', st, evs) →
  reshape_colors colors = Ok colors' ∧
  np_zeros (IMAGE_SIZE self).2 (IMAGE_SIZE self).1 = Ok (image_array st) ∧
  i st = 0%Z ∧ p_complete st = 0%Z ∧ printed st = [0%Z] ∧ evs = messages (printed st).
Proof.
  unfold enter. case_decide; [done|]. destruct (_ <=? _); [done|].
  intros (cs & Hc & (img & Hz & [= <- <- <-])%bind_Ok_inv)%bind_Ok_inv.
  repeat split; try done. unfold messages. simpl. by rewrite app_nil_r.
Qed.

Lemma enter_progress_log colors' st evs : enter = Ok (colors', st, evs) → progress_log st.
Proof.
  intros (_ & _ & _ & Hp & Hl & _)%enter_Ok_inv. unfold progress_log.
  rewrite Hp, Hl. split_and!; [done..|repeat constructor|by repeat constructor].
Qed.

Lemma progress_log_increasing st : progress_log st → increasing (printed st).
Proof. by intros (_ & _ & ? & ?). Qed.

(** [mandelbrot] is the entry followed by the loops. *)
Lemma mandelbrot_enter :
  mandelbrot image_size colors (floats <$> center) (to_float top) magnification
    divergence_iterations speak
  = enter ≫= λ '(colors', st, _),
      foldlM (render_row self colors') st (range 0 (IMAGE_SIZE self).2).
Proof.
  unfold mandelbrot, enter. case_decide; [done|]. rewrite default_center_floats.
  destruct (_ <=? _); [done|]. unfold render. fold self.
  destruct (reshape_colors colors); simpl; [|done]. by destruct (np_zeros _ _).
Qed.

(** The run of a call, against the result of [mandelbrot]. *)
Lemma run_steps out :
  match mandelbrot image_size colors (floats <$> center) (to_float top) magnification
          divergence_iterations speak with
  | Ok st => rtc step (Called, out) (Returned, out ++ messages (printed st) ++ finish st)
  | Raise e => ∃ ps, rtc step (Called, out) (Raised e, out ++ messages ps)
  end.
Proof.
  rewrite mandelbrot_enter.
  destruct enter as [[[colors' st0] evs]|e] eqn:He; simpl.
  - pose proof (enter_Ok_inv _ _ _ He) as (_ & _ & _ & _ & _ & ->).
    pose proof (row_loop_steps colors' out (Z.to_nat (IMAGE_SIZE self).2) 0 st0
                  ltac:(lia)) as Hrows.
    unfold range. rewrite Z.sub_0_r, (seqZ_to_nat 0).
    destruct (foldlM _ _ _) as [st|e]; [|destruct Hrows as [ps Hrows]; exists ps];
      (eapply rtc_l; [by apply step_enter|]); [|done].
    etrans; [done|]. eapply rtc_l; [apply step_rows_done; lia|].
    rewrite app_assoc. apply rtc_once, step_write.
  - exists []. rewrite app_nil_r. by apply rtc_once, step_enter_raise.
Qed.

(** * Invariants of a run *)

(** What a transition of the entry or of the body says of the variables
    and of the events. *)
Ltac inv_step :=
  match goal with
  | He : enter = Ok _ |- _ =>
      pose proof (enter_progress_log _ _ _ He);
      apply enter_Ok_inv in He as (_ & ? & ? & _ & _ & ->)
  | Hb : body _ _ _ _ = Ok _ |- _ =>
      apply body_Ok_inv in Hb as [Hb ?];
      pose proof (λ Hlog, render_pixel_progress_log _ _ _ _ _ _ Hlog Hb);
      apply render_pixel_i in Hb
  end.

Lemma step_events_inv out0 c c' : events_inv out0 c → step c c' → events_inv out0 c'.
Proof.
  unfold events_inv. intros Hinv Hs.
  destruct Hs; simpl in *; try destruct Hinv as [Hlog ->]; subst; try done.
  - by inv_step.
  - exists []. rewrite app_nil_r. by repeat constructor.
  - inv_step. rewrite <-app_assoc. split; [auto|congruence].
  - eexists. split; [|done]. by apply progress_log_increasing.
  - eexists. by rewrite app_assoc.
Qed.

Lemma reachable_events_inv out0 c : rtc step (Called, out0) c → events_inv out0 c.
Proof.
  revert c. apply rtc_ind_r; [done|]. intros c c' _ Hs Hinv. by eapply step_events_inv.
Qed.

(** The events of a configuration of a run, whatever its status. *)
Lemma reachable_out out0 c :
  rtc step (Called, out0) c →
  ∃ ps tail, increasing ps ∧ c.2 = out0 ++ messages ps ++ tail ∧
             (tail = [] ∨ ∃ st, c.1 = Returned ∧ tail = finish st).
Proof.
  intros Hinv%reachable_events_inv. unfold events_inv in Hinv.
  destruct c as [[|pt cs st| |e] out]; simpl in *.
  - exists [], []. rewrite app_nil_r. split_and!; [by repeat constructor|done|by left].
  - destruct Hinv as [Hlog ->]. exists (printed st), [].
    rewrite app_nil_r. split_and!; [by apply progress_log_increasing|done|by left].
  - destruct Hinv as (st & Hlog & ->). exists (printed st), (finish st).
    split_and!; [by apply progress_log_increasing|done|right; by exists st].
  - destruct Hinv as (ps & Hps & ->). exists ps, []. rewrite app_nil_r.
    split_and!; [done..|by left].
Qed.

Lemma step_position_inv c c' : position_inv c → step c c' → position_inv c'.
Proof.
  unfold position_inv. intros Hinv Hs.
  destruct Hs; simpl in *; try done; try nia; inv_step; [|lia].
  unfold np_zeros in *. simpl in *. case_decide; [done|]. lia.
Qed.

Lemma reachable_position_inv out0 c : rtc step (Called, out0) c → position_inv c.
Proof.
  revert c. apply rtc_ind_r; [done|]. intros c c' _ Hs Hinv. by eapply step_position_inv.
Qed.

(** ** The channels of the messages *)

Lemma messages_cons p ps : messages (p :: ps) = announce p ++ messages ps.
Proof. done. Qed.

Lemma stdout_messages ps :
  stdout (messages ps) = P_STRING CENTER_literal.1 CENTER_literal.2 <$> ps.
Proof.
  induction ps as [|p ps IH]; [done|]. rewrite messages_cons, stdout_app, IH.
  unfold announce. by destruct (SPEAK self).
Qed.

Lemma spoken_messages ps :
  spoken (messages ps) = if speak then stdout (messages ps) else [].
Proof.
  induction ps as [|p ps IH]; [by destruct speak|].
  rewrite messages_cons, spoken_app, stdout_app, IH. unfold announce. simpl.
  by destruct speak.
Qed.

Lemma saved_messages ps : saved (messages ps) = [].
Proof.
  induction ps as [|p ps IH]; [done|]. rewrite messages_cons, saved_app, IH.
  unfold announce. by destruct (SPEAK self).
Qed.

(** * The theorems of the machine *)

(** C10: Every run of the machine ends, whatever the arguments of the call:
    no infinite sequence of transitions leaves any configuration, and
    [fuel_of] transitions reach a configuration in which the call has
    returned or raised. *)
Theorem machine_terminates c : sn step c ∧ ended (run (fuel_of c.1) c).1.
Proof. split; [apply step_wf|by apply run_ended]. Qed.

(** C3: The machine refines the function [mandelbrot].  When the function
    returns a state, the run of the call returns, having emitted the
    message of each percentage the function printed and then saved the image
    of that state; when the function raises, the run ends with the same
    exception, having emitted messages only. *)
Theorem run_refines_mandelbrot fuel out :
  (fuel_of Called ≤ fuel)%nat →
  match mandelbrot image_size colors (floats <$> center) (to_float top) magnification
          divergence_iterations speak with
  | Ok st =>
      run fuel (Called, out)
      = (Returned, out ++ messages (printed st) ++
                   [Save (IMAGE_PATH IMAGE_DIR CENTER_literal top image_size)
                         (image_array st)])
  | Raise e => ∃ ps, run fuel (Called, out) = (Raised e, out ++ messages ps)
  end.
Proof.
  intros Hfuel. pose proof (run_steps out) as Hrun.
  destruct (mandelbrot _ _ _ _ _ _ _) as [st|e]; [|destruct Hrun as [ps Hrun]; exists ps];
    by apply run_unique.
Qed.

(** C12: No artifact without a normal return.  In every configuration of a
    run, an image has been saved only if the call has returned; then it was
    saved once, under [IMAGE_PATH], and it is the image the function
    [mandelbrot] returns. *)
Theorem image_saved_only_on_return out0 c :
  rtc step (Called, out0) c →
  match c.1 with
  | Returned =>
      ∃ st, mandelbrot image_size colors (floats <$> center) (to_float top) magnification
              divergence_iterations speak = Ok st ∧
            saved c.2 = saved out0 ++
              [(IMAGE_PATH IMAGE_DIR CENTER_literal top image_size, image_array st)]
  | _ => saved c.2 = saved out0
  end.
Proof.
  intros Hc. pose proof (reachable_events_inv _ _ Hc) as Hinv. unfold events_inv in Hinv.
  destruct c as [[| | |e] out]; simpl in *.
  - by subst.
  - destruct Hinv as [_ ->]. by rewrite saved_app, saved_messages, app_nil_r.
  - pose proof (run_steps out0) as Hrun.
    destruct (mandelbrot _ _ _ _ _ _ _) as [st|e]; [|destruct Hrun as [ps Hrun]];
      apply (confluent_rtc_nf (R:=step) _ _ _ (deterministic_confluent step_deterministic) Hc)
        in Hrun; try (by apply ended_nf); [|done].
    exists st. split; [done|]. injection Hrun as ->.
    by rewrite !saved_app, saved_messages.
  - destruct Hinv as (ps & _ & ->). by rewrite saved_app, saved_messages, app_nil_r.
Qed.

(** C22: What is spoken is what is printed.  In every configuration of a
    run, also of one that ends in an exception, the texts printed are the
    messages of percentages that increase strictly by multiples of ten, and
    with [speak] the texts handed to the speech engine are the same, in the
    same order; without it nothing is spoken. *)
Theorem spoken_is_printed c :
  rtc step (Called, []) c →
  (∃ ps, StronglySorted Z.lt ps ∧ Forall (λ p, p `mod` 10 = 0)%Z ps ∧
         stdout c.2 = P_STRING CENTER_literal.1 CENTER_literal.2 <$> ps) ∧
  spoken c.2 = if speak then stdout c.2 else [].
Proof.
  intros (ps & tail & [Hsorted Hten] & -> & Htail)%reachable_out.
  assert (stdout tail = [] ∧ spoken tail = []) as [Hout Hsp].
  { by destruct Htail as [->|(st & _ & ->)]. }
  simpl. rewrite spoken_app, stdout_app, Hout, Hsp, !app_nil_r.
  split; [exists ps; split_and!; [done..|apply stdout_messages]|apply spoken_messages].
Qed.

(** C24: The counter counts the pixels done.  At the head of the inner loop
    the row [pixel_y] lies within the image, [0 <= pixel_x <= width] (the
    head is reached once more when the row is finished) and [i] is
    [pixel_y * width + pixel_x]; when the image is written [i] is the
    number of pixels. *)
Theorem counter_counts_pixels out0 c : rtc step (Called, out0) c → position_inv c.
Proof. apply reachable_position_inv. Qed.

(** C11: From every configuration of a run on valid arguments, in an
    arithmetic with the laws of division (the doubles the program runs on
    are one), the call goes on to return and
    to save the image: the run reaches the configuration whose last event
    is the saving of the image that [mandelbrot] returns.  (For views
    whose coordinates stay below [2 ^ 511]: beyond, the power of line 268
    raises [OverflowError] in Python, file Overflow.) *)
Theorem image_eventually_saved `{!DivisionLaws F} out0 c :
  valid_arguments image_size colors (floats <$> center) (to_float top) →
  rtc step (Called, out0) c →
  ∃ st, mandelbrot image_size colors (floats <$> center) (to_float top) magnification
          divergence_iterations speak = Ok st ∧
        rtc step c (Returned, out0 ++ messages (printed st) ++
                              [Save (IMAGE_PATH IMAGE_DIR CENTER_literal top image_size)
                                    (image_array st)]).
Proof.
  intros Hv Hc. pose proof (run_steps out0) as Hrun.
  destruct (render_valid_is_Ok image_size colors (floats <$> center) (to_float top)
              magnification divergence_iterations speak Hv) as [st Hst].
  rewrite <-(mandelbrot_valid image_size colors (floats <$> center) (to_float top)
               magnification divergence_iterations speak Hv) in Hst.
  rewrite Hst in Hrun. exists st. split; [done|]. by eapply rtc_ended_extend.
Qed.

End machine.

(** * Speech *)

Section speech.
Context {F : Type} `{Number F} `{Defaults F} `{Repr F}.
Variable IMAGE_DIR : string.
Variables (image_size : Z * Z) (colors : gmap string (list F))
  (center : option (number F * number F)) (top : number F)
  (magnification divergence_iterations : Z).

#[local] Abbreviation silent := (filter (λ e, ¬ speech e)).
#[local] Abbreviation announce_ := (announce image_size center top magnification
                                      divergence_iterations).
#[local] Abbreviation enter_ := (enter image_size colors center top magnification
                                   divergence_iterations).
#[local] Abbreviation body_ := (body image_size center top magnification
                                  divergence_iterations).
#[local] Abbreviation next_ := (next IMAGE_DIR image_size colors center top magnification
                                  divergence_iterations).
#[local] Abbreviation run_ := (run IMAGE_DIR image_size colors center top magnification
                                 divergence_iterations).

Lemma announce_quiet p : silent (announce_ true p) = announce_ false p.
Proof. done. Qed.

Lemma enter_quiet :
  enter_ false = (λ '(colors', st, evs), (colors', st, silent evs)) <$> enter_ true.
Proof.
  unfold enter. case_decide; [done|]. destruct (num_leb _ _); [done|].
  destruct (reshape_colors colors); [|done]. simpl. by destruct (np_zeros _ _).
Qed.

Lemma body_quiet colors' pixel_y pixel_x st :
  body_ false colors' pixel_y pixel_x st
  = (λ '(st', evs), (st', silent evs)) <$> body_ true colors' pixel_y pixel_x st.
Proof.
  unfold body.
  change (pixel_value (self _ _ _ _ _ false)) with
    (pixel_value (self image_size center top magnification divergence_iterations true)).
  destruct (pixel_value _ _ _ _); [|done]. simpl.
  destruct (py_truediv _ _); [|done]. simpl. by case_decide.
Qed.

Lemma next_quiet c : next_ false (quiet c) = quiet <$> next_ true c.
Proof.
  destruct c as [[|[y|y x|] cs st| |e] out]; unfold next, quiet; simpl; try done.
  - rewrite enter_quiet. destruct (enter_ true) as [[[cs st] evs]|e]; simpl; [|done].
    by rewrite filter_app.
  - by case_decide.
  - case_decide; [|done]. rewrite body_quiet.
    destruct (body_ true cs y x st) as [[st' evs]|e]; simpl; [|done]. by rewrite filter_app.
  - by rewrite filter_app.
Qed.

(** C21: Speech is cosmetic.  The run of a call without speech is the run of
    the same call with speech, less the calls to the speech engine: the
    same status after as many transitions, the same texts printed, the
    same image saved. *)
Theorem speech_is_cosmetic fuel c :
  run_ false fuel (quiet c) = quiet (run_ true fuel c).
Proof.
  revert c. induction fuel as [|fuel IH]; intros c; [done|]. simpl.
  rewrite next_quiet. destruct (next_ true c) as [c'|]; simpl; [apply IH|done].
Qed.

End speech.

(** * The class body and a session *)

Lemma dirs_after_app dirs out1 out2 :
  dirs_after dirs (out1 ++ out2) = dirs_after (dirs_after dirs out1) out2.
Proof. apply foldl_app. Qed.

Lemma dirs_after_mono dirs out path : path ∈ dirs → path ∈ dirs_after dirs out.
Proof.
  revert dirs. induction out as [|e out IH]; intros dirs Hp; [done|]. simpl.
  apply IH. destruct e; set_solver.
Qed.

(** After the class body the image directory exists. *)
Lemma class_body_ensures module_dir dirs :
  (class_body module_dir dirs).1 ∈ dirs_after dirs (class_body module_dir dirs).2.
Proof. unfold class_body. simpl. case_decide; simpl; set_solver. Qed.

(** The name of the image directory ends in [PNG]. *)
Lemma class_body_IMAGE_DIR module_dir dirs :
  ∃ prefix, (class_body module_dir dirs).1 = prefix +:+ "G".
Proof.
  unfold class_body, os_path_join. simpl.
  repeat case_decide;
    [by exists "PN"|exists (module_dir +:+ "PN")|exists (module_dir +:+ "/PN")];
    by rewrite append_assoc.
Qed.

(** A session: the module is imported, which runs the class body; an
    instance is made; [mandelbrot] is called on it. *)
Section session.
Context {F : Type} `{Number F} `{Defaults F} `{Repr F}.
Variables (module_dir : string) (dirs : gset string).
Variables (image_size : Z * Z) (colors : gmap string (list F))
  (center : option (number F * number F)) (top : number F)
  (magnification divergence_iterations : Z) (speak : bool).

(** C23: In a session, whatever the directory of the module and the
    directories that exist beforehand, an image is saved only below the
    image directory of the class, under the file name of the view, and the
    image directory exists by then. *)
Theorem session_saves_below_IMAGE_DIR c path image :
  let IMAGE_DIR := (class_body module_dir dirs).1 in
  rtc (step IMAGE_DIR image_size colors center top magnification divergence_iterations
         speak)
      (Called, (class_body module_dir dirs).2 ++ __init__) c →
  (path, image) ∈ saved c.2 →
  path = IMAGE_DIR +:+ "/" +:+ IMAGE_F (CENTER_literal center) top image_size ∧
  IMAGE_DIR ∈ dirs_after dirs c.2.
Proof.
  intros IMAGE_DIR (ps & tail & _ & Hout & Htail)%reachable_out Hs.
  assert (saved ((class_body module_dir dirs).2 ++ __init__) = []) as Hnone.
  { unfold class_body. simpl. by case_decide. }
  split.
  - rewrite Hout, saved_app, Hnone, saved_app, saved_messages in Hs. simpl in Hs.
    destruct Htail as [->|(st & _ & ->)]; [by apply elem_of_nil in Hs|].
    apply list_elem_of_singleton in Hs as [= -> _].
    destruct (class_body_IMAGE_DIR module_dir dirs) as [prefix Hdir].
    subst IMAGE_DIR. simpl in *. rewrite Hdir. by apply IMAGE_PATH_below.
  - rewrite Hout, <-app_assoc, dirs_after_app.
    apply dirs_after_mono, class_body_ensures.
Qed.

End session.

(** * Doubles *)

(** A 2 x 2 render of the default view on doubles, with speech.  Each
    message is printed, then spoken; the last announces 120 percent; the
    image is saved last, under a name whose dimensions are separated by the
    two characters of line 218. *)
Example run_2x2_binary64 :
  run (F:=float) "PNG" (2, 2) {[ "m" := [255; 0; 0]%float; "d" := [0; 0; 255]%float ]}
    None (PyFloat default_top) 1 10 true 11 (Called, [])
  = (Returned,
     [ Print "Your -0.66+0i image is 0 percent complete.";
       Say "Your -0.66+0i image is 0 percent complete."; RunAndWait;
       Print "Your -0.66+0i image is 50 percent complete.";
       Say "Your -0.66+0i image is 50 percent complete."; RunAndWait;
       Print "Your -0.66+0i image is 70 percent complete.";
       Say "Your -0.66+0i image is 70 percent complete."; RunAndWait;
       Print "Your -0.66+0i image is 100 percent complete.";
       Say "Your -0.66+0i image is 100 percent complete."; RunAndWait;
       Print "Your -0.66+0i image is 120 percent complete.";
       Say "Your -0.66+0i image is 120 percent complete."; RunAndWait;
       Save "PNG/mandelbrot center=-0.66+0i, top=1.6i, 2Ã—2.png"
         [ [(255, 0, 0); (0, 0, 252)]; [(0, 0, 250); (0, 0, 250)] ] ]).
Proof. by vm_compute. Qed.

(** A missing colour is found out in the middle of the render, at the
    first pixel that needs it: the call has printed and spoken two messages
    when [KeyError] ends it, and nothing is saved. *)
Example run_missing_colour_binary64 :
  run (F:=float) "PNG" (2, 2) {[ "m" := [255; 0; 0]%float ]}
    None (PyFloat default_top) 1 10 true 11 (Called, [])
  = (Raised (KeyError "d"),
     [ Print "Your -0.66+0i image is 0 percent complete.";
       Say "Your -0.66+0i image is 0 percent complete."; RunAndWait;
       Print "Your -0.66+0i image is 50 percent complete.";
       Say "Your -0.66+0i image is 50 percent complete."; RunAndWait ]).
Proof. by vm_compute. Qed.

(** An [int] of the caller is printed as an [int]: the view centred on
    [(0, 0.5)] with the top edge at [2]. *)
Example IMAGE_PATH_binary64 :
  IMAGE_PATH (F:=float) "/home/me/fractals/PNG" (PyInt 0, PyFloat 0x1p-1%float) (PyInt 2) (4, 4)
  = "/home/me/fractals/PNG/mandelbrot center=0+0.5i, top=2i, 4Ã—4.png".
Proof. by vm_compute. Qed.

(** * Witnesses *)

Lemma run_refines_mandelbrot_witness :
  match mandelbrot (F:=float) (2, 2)
          {[ "m" := [255; 0; 0]%float; "d" := [0; 0; 255]%float ]}
          (floats <$> None) (to_float (PyFloat default_top)) 1 10 true with
  | Ok st =>
      run "PNG" (2, 2) {[ "m" := [255; 0; 0]%float; "d" := [0; 0; 255]%float ]}
        None (PyFloat default_top) 1 10 true 11 (Called, [])
      = (Returned, [] ++ messages (2, 2) None (PyFloat default_top) 1 10 true (printed st)
                      ++ [Save (IMAGE_PATH "PNG" (CENTER_literal None)
                                  (PyFloat default_top) (2, 2))
                               (image_array st)])
  | Raise e =>
      ∃ ps, run "PNG" (2, 2) {[ "m" := [255; 0; 0]%float; "d" := [0; 0; 255]%float ]}
              None (PyFloat default_top) 1 10 true 11 (Called, [])
            = (Raised e, [] ++ messages (2, 2) None (PyFloat default_top) 1 10 true ps)
  end.
Proof. apply (run_refines_mandelbrot (F:=float)). vm_compute. lia. Defined.

Lemma image_saved_only_on_return_witness :
  let c := run (F:=float) "PNG" (2, 2) {[ "m" := [255; 0; 0]%float ]}
             None (PyFloat default_top) 1 10 true 11 (Called, []) in
  match c.1 with
  | Returned =>
      ∃ st, mandelbrot (2, 2) {[ "m" := [255; 0; 0]%float ]} (floats <$> None)
              (to_float (PyFloat default_top)) 1 10 true = Ok st ∧
            saved c.2 = saved [] ++
              [(IMAGE_PATH "PNG" (CENTER_literal None) (PyFloat default_top) (2, 2),
                image_array st)]
  | _ => saved c.2 = saved []
  end.
Proof. intros c. apply (image_saved_only_on_return (F:=float)), run_rtc. Defined.

Lemma spoken_is_printed_witness :
  let c := run (F:=float) "PNG" (2, 2)
             {[ "m" := [255; 0; 0]%float; "d" := [0; 0; 255]%float ]}
             None (PyFloat default_top) 1 10 true 7 (Called, []) in
  (∃ ps, StronglySorted Z.lt ps ∧ Forall (λ p, p `mod` 10 = 0)%Z ps ∧
         stdout c.2 = P_STRING (CENTER_literal None).1 (CENTER_literal None).2 <$> ps) ∧
  spoken c.2 = if true then stdout c.2 else [].
Proof.
  intros c.
  apply (spoken_is_printed (F:=float) "PNG" (2, 2)
           {[ "m" := [255; 0; 0]%float; "d" := [0; 0; 255]%float ]} None
           (PyFloat default_top) 1 10 true c), run_rtc.
Defined.

Lemma counter_counts_pixels_witness :
  position_inv (F:=float) (2, 2) None (PyFloat default_top) 1 10 true
    (run "PNG" (2, 2) {[ "m" := [255; 0; 0]%float; "d" := [0; 0; 255]%float ]}
       None (PyFloat default_top) 1 10 true 7 (Called, [])).
Proof.
  apply (counter_counts_pixels (F:=float) "PNG" (2, 2)
           {[ "m" := [255; 0; 0]%float; "d" := [0; 0; 255]%float ]} None
           (PyFloat default_top) 1 10 true []), run_rtc.
Defined.

Lemma image_eventually_saved_witness :
  ∃ st,
    mandelbrot (1280, 720)
      {[ "m" := [255; 255; 255]%float; "d" := [0; 0; 255]%float ]}
      (floats <$> None) (to_float (PyFloat default_top)) 3 1600 true = Ok st ∧
    rtc (step (F:=float) "PNG" (1280, 720)
           {[ "m" := [255; 255; 255]%float; "d" := [0; 0; 255]%float ]}
           None (PyFloat default_top) 3 1600 true)
        (Called, [])
        (Returned, [] ++ messages (F:=float) (1280, 720) None (PyFloat default_top) 3 1600 true
                           (printed st)
                      ++ [Save (IMAGE_PATH "PNG" (CENTER_literal None)
                                  (PyFloat default_top) (1280, 720))
                               (image_array st)]).
Proof.
  apply (image_eventually_saved (F:=float) "PNG" (1280, 720)
           {[ "m" := [255; 255; 255]%float; "d" := [0; 0; 255]%float ]}
           None (PyFloat default_top) 3 1600 true [] (Called, []));
    [apply valid_arguments_binary64|done].
Defined.

Lemma session_saves_below_IMAGE_DIR_witness :
  let c := run (F:=float) "/home/me/fractals/PNG" (2, 2)
             {[ "m" := [255; 0; 0]%float; "d" := [0; 0; 255]%float ]}
             None (PyFloat default_top) 1 10 false 11
             (Called, [MakeDirs "/home/me/fractals/PNG"] ++ __init__) in
  let path := "/home/me/fractals/PNG/mandelbrot center=-0.66+0i, top=1.6i, 2Ã—2.png" in
  let image := [ [(255, 0, 0); (0, 0, 252)]; [(0, 0, 250); (0, 0, 250)] ] in
  path = "/home/me/fractals/PNG" +:+ "/" +:+
         IMAGE_F (F:=float) (CENTER_literal None) (PyFloat default_top) (2, 2) ∧
  "/home/me/fractals/PNG" ∈ dirs_after ∅ c.2.
Proof.
  intros c path image.
  apply (session_saves_below_IMAGE_DIR (F:=float) "/home/me/fractals" ∅ (2, 2)
           {[ "m" := [255; 0; 0]%float; "d" := [0; 0; 255]%float ]} None
           (PyFloat default_top) 1 10 false c path image); [apply run_rtc|].
  apply (bool_decide_unpack _). by vm_compute.
Defined.
